(** * NumbFS-utils: the access library, the format geometry and the on-disk layout

    A shallow embedding of [src/lib.c], [src/internal.h], [src/disk.h], of
    the geometry computation, the format loops and the superblock store of
    [src/mkfs.c], of the usage counts of [src/fsck.c] and of the counting
    helpers of [src/test.c].

    Conventions of the embedding.
    - A C [int] is a [Z]; the development is about executions without signed
      overflow.  Conversions that the code makes explicit (a store through
      [cpu_to_le16] / [cpu_to_le32], the [unsigned char] of [memset], a load
      of a 32-bit field into an [int]) are written out.
    - Block numbers are not bounded, while [numbfs_read_block] and
      [numbfs_write_block] compute the byte offset [blkno * BYTES_PER_BLOCK]
      in [int] and [numbfs_mkfs] keeps the block count of the device in an
      [int].  The embedding is the code on the images that end at or before
      2 GiB ([offsets_fit]) with pointers to their own data blocks
      ([pointers_in_image]), and on the devices whose block count fits an
      [int]; the statements that depend on it carry these conditions.
    - [/] and [%] of C truncate towards zero: [Z.quot] and [Z.rem].
    - A [char buf[BYTES_PER_BLOCK]] is a [list byte]; the device is a finite
      map from block numbers to blocks.
    - A function that returns [0] or [-errno] returns a [result]; state that
      the C code reaches through pointers is threaded explicitly, and it
      keeps every change made before an error is returned. *)

From Stdlib Require Import ZArith Lia List Bool String.
From stdpp Require Import base gmap list.
From coqutil Require Import Byte Word.LittleEndianList.
Import ListNotations.
Local Open Scope Z_scope.

(** ** Constants *)

(** Modelled from the spec: [utils.h] is not among the sources.  The spec
    fixes the block size as a compile-time constant; 512 is the value under
    which the example of the README (a 10 MiB image with 4096 inodes has its
    inode zone at block 3, its block bitmap at 515 and its data zone at 520)
    comes out, see [readme_geometry]. *)
Definition BYTES_PER_BLOCK : Z := 512.

(** Modelled from the spec: [utils.h] is not among the sources; a bitmap packs
    8 units per byte. *)
Definition BITS_PER_BYTE : Z := 8.

(** Modelled from the spec: [utils.h] is not among the sources; the zone sizes
    are ceiling divisions.  On the non-negative arguments this is the ceiling;
    the C division truncates. *)
Definition DIV_ROUND_UP (n d : Z) : Z := Z.quot (n + d - 1) d.

(** Modelled from the spec: [utils.h] is not among the sources; the next
    multiple of [y] at or above [x]. *)
Definition round_up (x y : Z) : Z := Z.quot (x + y - 1) y * y.

(* disk.h *)
Definition NUMBFS_MAGIC : Z := 0x4E554D42.
Definition NUMBFS_SUPER_OFFSET : Z := BYTES_PER_BLOCK.
Definition NUMBFS_HOLE : Z := -32.
Definition NUMBFS_ROOT_NID : Z := 1.
Definition NUMBFS_NUM_DATA_ENTRY : Z := 10.
Definition NUMBFS_MAX_PATH_LEN : Z := 60.

(* internal.h; sizeof(struct numbfs_inode) is 64, see [inode_offsets] *)
Definition NUMBFS_BLOCKS_PER_BLOCK : Z := BYTES_PER_BLOCK * BITS_PER_BYTE.
Definition NUMBFS_NODES_PER_BLOCK : Z := Z.quot BYTES_PER_BLOCK 64.

(* errno.h, sys/stat.h, dirent.h (Linux) *)
Definition EIO : Z := 5.
Definition E2BIG : Z := 7.
Definition ENOMEM : Z := 12.
Definition EINVAL : Z := 22.
Definition ENOTSUP : Z := 95.
(* S_IFDIR is 0040000 and the permission bits 0755, in octal *)
Definition S_IFDIR : Z := 16384.
Definition MODE_0755 : Z := 493.
Definition DT_DIR : Z := 4.

(** ** Results and the state-and-error monad *)

(** [Err e] is [return -e]; [Bug] is a [BUG_ON] that fired; [Undef] is an
    execution that C leaves undefined (an access outside a buffer, a read of
    an uninitialised variable, a shift by a negative count). *)
Inductive result (A : Type) : Type :=
| Ok (a : A)
| Err (errno : Z)
| Bug
| Undef.
Arguments Ok {A} a.
Arguments Err {A} errno.
Arguments Bug {A}.
Arguments Undef {A}.

Definition M (S A : Type) : Type := S -> result A * S.

Definition ret {S A : Type} (a : A) : M S A := fun s => (Ok a, s).

Definition bind {S A B : Type} (m : M S A) (k : A -> M S B) : M S B :=
  fun s =>
    match m s with
    | (Ok a, s') => k a s'
    | (Err e, s') => (Err e, s')
    | (Bug, s') => (Bug, s')
    | (Undef, s') => (Undef, s')
    end.

Definition throw {S A : Type} (e : Z) : M S A := fun s => (Err e, s).
Definition bug {S A : Type} : M S A := fun s => (Bug, s).
Definition undef {S A : Type} : M S A := fun s => (Undef, s).
Definition get {S : Type} : M S S := fun s => (Ok s, s).
Definition modify {S : Type} (f : S -> S) : M S unit := fun s => (Ok tt, f s).

(** [err = f(...)] with [err] not looked at: the call runs, its result is
    handed over as a value and the execution goes on. *)
Definition attempt {S A : Type} (m : M S A) : M S (result A) :=
  fun s => let '(r, s') := m s in (Ok r, s').

(** A value that may come out of bounds or uninitialised. *)
Definition defined {S A : Type} (o : option A) : M S A :=
  match o with Some a => ret a | None => undef end.

Notation "'let*' x ':=' m 'in' k" := (bind m (fun x => k))
  (at level 10, x pattern, m at level 99, k at level 200).
Notation "m ';;' k" := (bind m (fun _ => k))
  (at level 100, k at level 200, right associativity).

(** ** Buffers *)

(** A block-sized buffer, [char buf[BYTES_PER_BLOCK]]. *)
Abbreviation block := (list byte).

Definition zero_block : block := repeat Byte.x00 (Z.to_nat BYTES_PER_BLOCK).

(** [buf[i]] *)
Definition buf_get (buf : block) (i : Z) : option byte :=
  if i <? 0 then None else buf !! Z.to_nat i.

(** [buf[i] = v], for [i] inside the buffer *)
Definition buf_set (buf : block) (i : Z) (v : byte) : block :=
  <[Z.to_nat i := v]> buf.

(** [memset(s, c, n)]: the first [n] bytes become [(unsigned char)c]. *)
Definition memset (s : block) (c : Z) (n : Z) : block :=
  repeat (byte.of_Z c) (Z.to_nat n) ++ drop (Z.to_nat n) s.

(** [memcpy(dst + doff, src + soff, len)]; undefined outside the buffers. *)
Definition memcpy (dst : block) (doff : Z) (src : block) (soff : Z) (len : Z)
  : option block :=
  if (0 <=? doff) && (0 <=? soff) && (0 <=? len)
     && (doff + len <=? Z.of_nat (length dst))
     && (soff + len <=? Z.of_nat (length src))
  then Some (take (Z.to_nat doff) dst
             ++ take (Z.to_nat len) (drop (Z.to_nat soff) src)
             ++ drop (Z.to_nat (doff + len)) dst)
  else None.

(** A store of the bytes [bs] at byte offset [off] of a buffer (a field of a
    record that a pointer into the buffer designates), and the load of [n]
    bytes from there. *)
Definition store (off : nat) (bs : list byte) (buf : block) : block :=
  take off buf ++ bs ++ drop (off + length bs) buf.

Definition load (off n : nat) (buf : block) : list byte :=
  take n (drop off buf).

(** Modelled from the spec: [utils.h] is not among the sources; the integers
    of the on-disk records are little-endian, of the width of their field. *)
Definition cpu_to_le16 (x : Z) : list byte := le_split 2 x.
Definition cpu_to_le32 (x : Z) : list byte := le_split 4 x.
Definition le16_to_cpu (bs : list byte) : Z := le_combine bs.
Definition le32_to_cpu (bs : list byte) : Z := le_combine bs.

(** The conversion of a [__u32] to [int]. *)
Definition to_int (z : Z) : Z :=
  let u := z mod 2 ^ 32 in if u <? 2 ^ 31 then u else u - 2 ^ 32.

(** ** The device *)

(** What [pread] and [pwrite] act on: the blocks of a device of fixed size,
    and the faults of the medium.  The transfers are numbered as they are
    attempted ([dev_clock] is the number of the next one); [dev_fault k] says
    that transfer [k] comes back short.  A transfer outside the device comes
    back short as well.  A write that comes back short has stored nothing:
    the embedding does not follow a write that stores a part of a block. *)
Record device : Type := mkdev {
  dev_blocks : gmap Z block;
  dev_clock : nat;
  dev_fault : nat -> bool
}.

Definition dev_tick (d : device) : device :=
  mkdev (dev_blocks d) (S (dev_clock d)) (dev_fault d).

(** [pread(fd, buf, BYTES_PER_BLOCK, blkno * BYTES_PER_BLOCK)]: the block
    when all its bytes arrive. *)
Definition pread (blkno : Z) (d : device) : option block * device :=
  if dev_fault d (dev_clock d) then (None, dev_tick d)
  else (dev_blocks d !! blkno, dev_tick d).

(** [pwrite(fd, buf, BYTES_PER_BLOCK, blkno * BYTES_PER_BLOCK)]: [true] when
    all the bytes are written. *)
Definition dev_put (blkno : Z) (buf : block) (d : device) : device :=
  mkdev (<[blkno := buf]> (dev_blocks d)) (S (dev_clock d)) (dev_fault d).

Definition pwrite (buf : block) (blkno : Z) (d : device) : bool * device :=
  if dev_fault d (dev_clock d) then (false, dev_tick d)
  else match dev_blocks d !! blkno with
       | Some _ => (true, dev_put blkno buf d)
       | None => (false, dev_tick d)
       end.

(** ** internal.h *)

(** [struct numbfs_superblock_info]; [fd] stands for the device it is open
    on. *)
Record numbfs_superblock_info : Type := mksbi {
  fd : device;
  feature : Z;
  total_inodes : Z;
  free_inodes : Z;
  data_blocks : Z;
  free_blocks : Z;
  ibitmap_start : Z;
  inode_start : Z;
  bbitmap_start : Z;
  data_start : Z;
  size_bytes : Z
}.

Definition set_fd (d : device) (s : numbfs_superblock_info) :=
  mksbi d (feature s) (total_inodes s) (free_inodes s) (data_blocks s)
        (free_blocks s) (ibitmap_start s) (inode_start s) (bbitmap_start s)
        (data_start s) (size_bytes s).

Definition set_free_inodes (v : Z) (s : numbfs_superblock_info) :=
  mksbi (fd s) (feature s) (total_inodes s) v (data_blocks s)
        (free_blocks s) (ibitmap_start s) (inode_start s) (bbitmap_start s)
        (data_start s) (size_bytes s).

Definition set_free_blocks (v : Z) (s : numbfs_superblock_info) :=
  mksbi (fd s) (feature s) (total_inodes s) (free_inodes s) (data_blocks s)
        v (ibitmap_start s) (inode_start s) (bbitmap_start s)
        (data_start s) (size_bytes s).

(** An [int *status] into the superblock info: [&sbi->free_blocks] or
    [&sbi->free_inodes]. *)
Inductive counter : Type := FreeInodes | FreeBlocks.

Definition deref (c : counter) (s : numbfs_superblock_info) : Z :=
  match c with FreeInodes => free_inodes s | FreeBlocks => free_blocks s end.

Definition assign (c : counter) (v : Z) (s : numbfs_superblock_info) :=
  match c with
  | FreeInodes => set_free_inodes v s
  | FreeBlocks => set_free_blocks v s
  end.

(** [struct numbfs_inode_info], without its [sbi] pointer: there is one
    superblock info, and the inode functions run on the pair. *)
Record numbfs_inode_info : Type := mkinode {
  nid : Z;
  mode : Z;
  nlink : Z;
  uid : Z;
  gid : Z;
  size : Z;
  data : list Z
}.

Definition set_size (v : Z) (i : numbfs_inode_info) :=
  mkinode (nid i) (mode i) (nlink i) (uid i) (gid i) v (data i).

Definition set_data (v : list Z) (i : numbfs_inode_info) :=
  mkinode (nid i) (mode i) (nlink i) (uid i) (gid i) (size i) v.

Definition ist : Type := numbfs_inode_info * numbfs_superblock_info.

(** A call on [inode->sbi]. *)
Definition on_sbi {A : Type} (m : M numbfs_superblock_info A) : M ist A :=
  fun st => let '(r, s') := m (snd st) in (r, (fst st, s')).

Definition on_inode (f : numbfs_inode_info -> numbfs_inode_info) : M ist unit :=
  modify (fun st => (f (fst st), snd st)).

Definition numbfs_bmap_blk (startblk blkno : Z) : Z :=
  startblk + Z.quot blkno NUMBFS_BLOCKS_PER_BLOCK.

Definition numbfs_bmap_byte (blkno : Z) : Z :=
  Z.quot (Z.rem blkno NUMBFS_BLOCKS_PER_BLOCK) BITS_PER_BYTE.

Definition numbfs_bmap_bit (blkno : Z) : Z :=
  Z.rem (Z.rem blkno NUMBFS_BLOCKS_PER_BLOCK) BITS_PER_BYTE.

(** [NUMBFS_NODES_PER_BLOCK] is a [size_t]: the division and the remainder of
    [nid] by it are unsigned, which on the low 32 bits is the floor division
    and the non-negative remainder. *)
Definition numbfs_inode_blk (sbi : numbfs_superblock_info) (nid : Z) : Z :=
  inode_start sbi + nid / NUMBFS_NODES_PER_BLOCK.

Definition inode_slot (nid : Z) : nat :=
  Z.to_nat (nid mod NUMBFS_NODES_PER_BLOCK * 64).

Definition numbfs_data_blk (sbi : numbfs_superblock_info) (blk : Z) : Z :=
  data_start sbi + blk.

(** ** lib.c: block transfers *)

(** The byte offset [blkno * BYTES_PER_BLOCK] that the two functions hand to
    [pread] and [pwrite] is an [int] in the code; here the block is looked
    up by its number, which comes to the same for the blocks of an image
    that ends at or before 2 GiB, see [offsets_fit]. *)

Definition numbfs_read_block (blkno : Z) : M numbfs_superblock_info block :=
  fun sbi =>
    match pread blkno (fd sbi) with
    | (Some buf, d) => (Ok buf, set_fd d sbi)
    | (None, d) => (Err EIO, set_fd d sbi)
    end.

Definition numbfs_write_block (buf : block) (blkno : Z)
  : M numbfs_superblock_info unit :=
  fun sbi =>
    match pwrite buf blkno (fd sbi) with
    | (true, d) => (Ok tt, set_fd d sbi)
    | (false, d) => (Err EIO, set_fd d sbi)
    end.

(** ** lib.c: the bitmap allocator *)

(** [buf[byte] & (1 << bit)], as a test; [buf[byte] |= (1 << bit)];
    [buf[byte] &= ~(1 << bit)].  The promotion of the [char] changes no bit
    below the eighth. *)
Definition bit_is_set (b : byte) (bit : Z) : bool :=
  negb (Z.land (byte.unsigned b) (Z.shiftl 1 bit) =? 0).

Definition bit_set (b : byte) (bit : Z) : byte :=
  byte.of_Z (Z.lor (byte.unsigned b) (Z.shiftl 1 bit)).

Definition bit_clear (b : byte) (bit : Z) : byte :=
  byte.of_Z (Z.land (byte.unsigned b) (Z.lnot (Z.shiftl 1 bit))).

(** The two laws of the bit operations, checked on every byte and every pair
    of bit positions: setting or clearing bit [j] makes it set or clear and
    leaves the other bits. *)
Definition bit_laws_check : bool :=
  forallb (fun b =>
    forallb (fun j =>
      forallb (fun k =>
        Bool.eqb (bit_is_set (bit_set b j) k) ((k =? j) || bit_is_set b k)
        && Bool.eqb (bit_is_set (bit_clear b j) k) (negb (k =? j) && bit_is_set b k))
      (seqZ 0 8)) (seqZ 0 8)) (List.map byte.of_Z (seqZ 0 256)).

(** The loop of [numbfs_bitmap_alloc], from unit [i] on with [n] units left
    ([i + n] is [total]) and [buf] the bitmap block in hand.  [Some i] is the
    value stored through [res]; [None] says that the loop ran off the end and
    stored nothing. *)
Fixpoint bitmap_scan (n : nat) (i : Z) (startblk : Z) (buf : block)
  : M numbfs_superblock_info (option Z) :=
  match n with
  | O => ret None
  | S n' =>
      let* buf := (if Z.rem i NUMBFS_BLOCKS_PER_BLOCK =? 0
                   then numbfs_read_block (numbfs_bmap_blk startblk i)
                   else ret buf) in
      let byte := numbfs_bmap_byte i in
      let bit := numbfs_bmap_bit i in
      let* b := defined (buf_get buf byte) in
      if negb (bit_is_set b bit) then
        numbfs_write_block (buf_set buf byte (bit_set b bit))
                           (numbfs_bmap_blk startblk i) ;;
        ret (Some i)
      else bitmap_scan n' (i + 1) startblk buf
  end.

(** [numbfs_bitmap_alloc]; the buffer is loaded at unit 0 before it is looked
    at, whatever it held. *)
Definition numbfs_bitmap_alloc (startblk total : Z) (status : counter)
  : M numbfs_superblock_info (option Z) :=
  let* res := bitmap_scan (Z.to_nat total) 0 startblk [] in
  modify (fun sbi => assign status (deref status sbi - 1) sbi) ;;
  ret res.

(* alloc a free data block *)
Definition numbfs_alloc_block : M numbfs_superblock_info (option Z) :=
  fun sbi =>
    if free_blocks sbi =? 0 then (Err ENOMEM, sbi)
    else numbfs_bitmap_alloc (bbitmap_start sbi) (data_blocks sbi) FreeBlocks sbi.

Definition numbfs_bitmap_free (startblk free : Z) (status : counter)
  : M numbfs_superblock_info unit :=
  let* buf := numbfs_read_block (numbfs_bmap_blk startblk free) in
  let byte := numbfs_bmap_byte free in
  let bit := numbfs_bmap_bit free in
  let* b := defined (if bit <? 0 then None else buf_get buf byte) in
  (if negb (bit_is_set b bit) then bug else ret tt) ;;
  let* err := attempt (numbfs_write_block (buf_set buf byte (bit_clear b bit))
                                          (numbfs_bmap_blk startblk free)) in
  modify (fun sbi => assign status (deref status sbi + 1) sbi) ;;
  ret tt.

(* free a data block *)
Definition numbfs_free_block (blkno : Z) : M numbfs_superblock_info unit :=
  fun sbi =>
    if blkno >=? data_blocks sbi then (Err EINVAL, sbi)
    else numbfs_bitmap_free (bbitmap_start sbi) blkno FreeBlocks sbi.

(* get a empty inode *)
Definition numbfs_alloc_inode : M numbfs_superblock_info (option Z) :=
  fun sbi =>
    if free_inodes sbi =? 0 then (Err ENOMEM, sbi)
    else numbfs_bitmap_alloc (ibitmap_start sbi) (total_inodes sbi) FreeInodes sbi.

Definition numbfs_free_inode (nid : Z) : M numbfs_superblock_info unit :=
  fun sbi =>
    if nid >=? total_inodes sbi then (Err EINVAL, sbi)
    else numbfs_bitmap_free (ibitmap_start sbi) nid FreeInodes sbi.

(** ** disk.h: the on-disk records *)

(** The field types that the records use, with their sizes and alignments. *)
Inductive ctype : Type :=
| c_le32
| c_le16
| c_u8
| c_char
| c_array (t : ctype) (n : nat).

Fixpoint sizeof (t : ctype) : nat :=
  match t with
  | c_le32 => 4
  | c_le16 => 2
  | c_u8 => 1
  | c_char => 1
  | c_array t n => n * sizeof t
  end.

Fixpoint alignof (t : ctype) : nat :=
  match t with
  | c_le32 => 4
  | c_le16 => 2
  | c_u8 => 1
  | c_char => 1
  | c_array t _ => alignof t
  end.

Definition struct_decl : Type := list (string * ctype).

Definition align_up (off a : nat) : nat := ((off + a - 1) / a * a)%nat.

(** The offsets of the fields of a record that starts at [off]: each field
    sits at the next multiple of its alignment. *)
Fixpoint field_offsets (off : nat) (fs : struct_decl) : list (string * nat) :=
  match fs with
  | [] => []
  | (name, t) :: fs' =>
      let o := align_up off (alignof t) in
      (name, o) :: field_offsets (o + sizeof t) fs'
  end.

Fixpoint fields_end (off : nat) (fs : struct_decl) : nat :=
  match fs with
  | [] => off
  | (_, t) :: fs' => fields_end (align_up off (alignof t) + sizeof t) fs'
  end.

Definition struct_align (fs : struct_decl) : nat :=
  fold_right (fun f a => Nat.max (alignof (snd f)) a) 1%nat fs.

(** [sizeof(struct ...)] *)
Definition struct_size (fs : struct_decl) : nat :=
  align_up (fields_end 0 fs) (struct_align fs).

Definition offsetof (fs : struct_decl) (name : string) : option nat :=
  match List.find (fun f => String.eqb (fst f) name) (field_offsets 0 fs) with
  | Some f => Some (snd f)
  | None => None
  end.

Definition numbfs_super_block : struct_decl :=
  [ ("s_magic", c_le32);
    ("s_feature", c_le32);
    ("s_ibitmap_start", c_le32);
    ("s_inode_start", c_le32);
    ("s_bbitmap_start", c_le32);
    ("s_data_start", c_le32);
    ("s_num_inodes", c_le32);
    ("s_nfree_blocks", c_le32);
    ("s_reserved", c_array c_u8 96) ]%string.

Definition numbfs_inode : struct_decl :=
  [ ("i_ino", c_le16);
    ("i_nlink", c_le16);
    ("i_uid", c_le16);
    ("i_gid", c_le16);
    ("i_mode", c_le32);
    ("i_size", c_le32);
    ("i_xattr_start", c_le32);
    ("i_xattr_count", c_u8);
    ("reserved2", c_array c_u8 3);
    ("i_data", c_array c_le32 10) ]%string.

Definition numbfs_dirent : struct_decl :=
  [ ("name_len", c_u8);
    ("type", c_u8);
    ("name", c_array c_char (Z.to_nat NUMBFS_MAX_PATH_LEN));
    ("ino", c_le16) ]%string.

(** [NUMBFS_BUILD_BUG_ON(cond)]: the build goes through when [cond] is
    false. *)
Definition NUMBFS_BUILD_BUG_ON (cond : bool) : bool := negb cond.

(* check the on-disk layout at compile time *)
Definition numbfs_check_ondisk : bool :=
  NUMBFS_BUILD_BUG_ON (negb (struct_size numbfs_super_block =? 128)%nat)
  && NUMBFS_BUILD_BUG_ON (negb (struct_size numbfs_inode =? 64)%nat)
  && NUMBFS_BUILD_BUG_ON (negb (struct_size numbfs_dirent =? 64)%nat).

(** The superblock record as the spec lays it out: ten 4-byte fields and the
    padding that fills it to 128 bytes. *)
Definition spec_super_block : struct_decl :=
  [ ("s_magic", c_le32);
    ("s_feature", c_le32);
    ("s_ibitmap_start", c_le32);
    ("s_inode_start", c_le32);
    ("s_bbitmap_start", c_le32);
    ("s_data_start", c_le32);
    ("s_total_inodes", c_le32);
    ("s_free_inodes", c_le32);
    ("s_data_blocks", c_le32);
    ("s_free_blocks", c_le32);
    ("s_reserved", c_array c_u8 88) ]%string.

(** The offsets that the code reaches through [struct numbfs_inode *] and
    [struct numbfs_dirent *]; [inode_offsets] and [dirent_offsets] tie them
    to the declarations. *)
Definition I_INO : nat := 0.
Definition I_NLINK : nat := 2.
Definition I_UID : nat := 4.
Definition I_GID : nat := 6.
Definition I_MODE : nat := 8.
Definition I_SIZE : nat := 12.
Definition I_DATA : nat := 24.
Definition D_NAME_LEN : nat := 0.
Definition D_TYPE : nat := 1.
Definition D_NAME : nat := 2.
Definition D_INO : nat := 62.
Definition SIZEOF_DIRENT : nat := 64.

(** ** lib.c: inodes *)

Definition get_sbi : M ist numbfs_superblock_info := fun st => (Ok (snd st), st).
Definition get_inode : M ist numbfs_inode_info := fun st => (Ok (fst st), st).

(** The field loads of [numbfs_get_inode], from the record at byte [o] of
    [buf]. *)
Definition load_inode (buf : block) (o : nat) (i : numbfs_inode_info)
  : numbfs_inode_info :=
  mkinode (nid i)
          (to_int (le32_to_cpu (load (o + I_MODE) 4 buf)))
          (le16_to_cpu (load (o + I_NLINK) 2 buf))
          (le16_to_cpu (load (o + I_UID) 2 buf))
          (le16_to_cpu (load (o + I_GID) 2 buf))
          (to_int (le32_to_cpu (load (o + I_SIZE) 4 buf)))
          (List.map (fun k => to_int (le32_to_cpu (load (o + I_DATA + 4 * k) 4 buf)))
                    (seq 0 (Z.to_nat NUMBFS_NUM_DATA_ENTRY))).

(* get the inode info at @inode_i->nid *)
Definition numbfs_get_inode : M ist unit :=
  let* sbi := get_sbi in
  let* inode_i := get_inode in
  let* buf := on_sbi (numbfs_read_block (numbfs_inode_blk sbi (nid inode_i))) in
  on_inode (load_inode buf (inode_slot (nid inode_i))).

(** [inode->data[idx]] *)
Definition data_get (idx : Z) : M ist Z :=
  let* inode := get_inode in
  defined (if idx <? 0 then None else data inode !! Z.to_nat idx).

(*
 * get the block that contains pos-th byte in the address space;
 * if there is a hole, then alloc a block
 *)
Definition numbfs_inode_blkaddr (pos : Z) (alloc extent : bool) : M ist Z :=
  if extent then throw ENOTSUP
  else if Z.quot pos BYTES_PER_BLOCK >=? NUMBFS_NUM_DATA_ENTRY then throw E2BIG
  else
    let idx := Z.quot pos BYTES_PER_BLOCK in
    (if alloc then
       let* d := data_get idx in
       if d =? NUMBFS_HOLE then
         let* res := on_sbi numbfs_alloc_block in
         let* blkno := defined res in
         let* sbi := get_sbi in
         on_sbi (numbfs_write_block zero_block (numbfs_data_blk sbi blkno)) ;;
         on_inode (fun i => set_data (<[Z.to_nat idx := blkno]> (data i)) i)
       else ret tt
     else ret tt) ;;
    data_get idx.

(** The ten stores of the loop over [i_data]. *)
Definition store_data (o : nat) (d : list Z) (meta : block) : block :=
  fold_left (fun m k => store (o + I_DATA + 4 * k) (cpu_to_le32 (nth k d 0)) m)
            (seq 0 (Z.to_nat NUMBFS_NUM_DATA_ENTRY)) meta.

(** The field stores of [numbfs_dump_inode], into the record at byte [o] of
    [meta]. *)
Definition store_inode (inode_i : numbfs_inode_info) (o : nat) (meta : block)
  : block :=
  let meta := store (o + I_INO) (cpu_to_le16 (nid inode_i)) meta in
  let meta := store (o + I_MODE) (cpu_to_le32 (mode inode_i)) meta in
  let meta := store (o + I_NLINK) (cpu_to_le16 (nlink inode_i)) meta in
  let meta := store (o + I_UID) (cpu_to_le16 (uid inode_i)) meta in
  let meta := store (o + I_GID) (cpu_to_le16 (gid inode_i)) meta in
  let meta := store (o + I_SIZE) (cpu_to_le32 (size inode_i)) meta in
  store_data o (data inode_i) meta.

(** [numbfs_dump_inode], in a build without [HAVE_NUMBFS_DEBUG]. *)
Definition numbfs_dump_inode : M ist unit :=
  let* sbi := get_sbi in
  let* inode_i := get_inode in
  let* meta := on_sbi (numbfs_read_block (numbfs_inode_blk sbi (nid inode_i))) in
  let meta := store_inode inode_i (inode_slot (nid inode_i)) meta in
  let* err := attempt (on_sbi (numbfs_write_block meta
                                 (numbfs_inode_blk sbi (nid inode_i)))) in
  match err with
  | Ok _ => ret tt
  | _ => throw EIO
  end.

(**
 * write the buffer to the blkaddr-th block in the address space
 * @buf: the content
 * @offset: the position in the file's address space
 * @len: write length
 *
 * Note that this helper does not support cross-block write
 *)
Definition numbfs_pwrite_inode (buf : block) (offset len : Z) : M ist unit :=
  let off := Z.rem offset BYTES_PER_BLOCK in
  if off + len >? BYTES_PER_BLOCK then throw E2BIG
  else
    (* extend the inode size with holes *)
    on_inode (fun i => set_size (Z.max (size i) (offset + len)) i) ;;
    let* target := numbfs_inode_blkaddr offset true false in
    if target <? 0 then throw (- target)
    else
      let* sbi := get_sbi in
      let* tmp := on_sbi (numbfs_read_block (numbfs_data_blk sbi target)) in
      let* tmp := defined (memcpy tmp off buf 0 len) in
      on_sbi (numbfs_write_block tmp (numbfs_data_blk sbi target)) ;;
      numbfs_dump_inode.

(** [numbfs_pread_inode]; the value is the caller's [buf] on return. *)
Definition numbfs_pread_inode (buf : block) (offset len : Z) : M ist block :=
  let off := Z.rem offset BYTES_PER_BLOCK in
  if off + len >? BYTES_PER_BLOCK then throw E2BIG
  else
    let* target := numbfs_inode_blkaddr offset false false in
    if (target <? 0) && negb (target =? NUMBFS_HOLE) then throw (- target)
    else
      let* inode_i := get_inode in
      (* read a hole *)
      if (offset >=? size inode_i) || (target =? NUMBFS_HOLE)
      then ret (memset buf len BYTES_PER_BLOCK)
      else
        let* sbi := get_sbi in
        let* tmp := on_sbi (numbfs_read_block (numbfs_data_blk sbi target)) in
        defined (memcpy buf 0 tmp off len).

(** A [struct numbfs_inode_info] of the caller's frame: the call runs on it
    and the frame goes away. *)
Definition with_inode {A : Type} (i : numbfs_inode_info) (m : M ist A)
  : M numbfs_superblock_info A :=
  fun sbi => let '(r, st) := m (i, sbi) in (r, snd st).

(** [numbfs_empty_dir].  [getuid] and [getgid] are what the two system calls
    return, and [buf] is what the frame's buffer holds when the function is
    entered: it is not initialised. *)
Definition numbfs_empty_dir (getuid getgid : Z) (buf : block) (pnid : Z)
  : M numbfs_superblock_info Z :=
  let* res := numbfs_alloc_inode in
  let* nid := defined res in
  let inode := mkinode nid (Z.lor S_IFDIR MODE_0755) 2
                       (getuid mod 2 ^ 16) (getgid mod 2 ^ 16) 0
                       (repeat NUMBFS_HOLE (Z.to_nat NUMBFS_NUM_DATA_ENTRY)) in
  let dir := 0%nat in
  let buf := store (dir + D_NAME) [Byte.x2e] buf in
  let buf := store (dir + D_NAME + 1) [Byte.x00] buf in
  let buf := store (dir + D_NAME_LEN) [byte.of_Z 1] buf in
  let buf := store (dir + D_INO) (cpu_to_le16 nid) buf in
  let buf := store (dir + D_TYPE) [byte.of_Z DT_DIR] buf in
  let inode := set_size (size inode + Z.of_nat SIZEOF_DIRENT) inode in
  let dir := (dir + SIZEOF_DIRENT)%nat in
  let buf := store (dir + D_NAME) [Byte.x2e; Byte.x2e] buf in
  let buf := store (dir + D_NAME + 2) [Byte.x00] buf in
  let buf := store (dir + D_NAME_LEN) [byte.of_Z 2] buf in
  let buf := store (dir + D_INO) (cpu_to_le16 pnid) buf in
  let buf := store (dir + D_TYPE) [byte.of_Z DT_DIR] buf in
  let inode := set_size (size inode + Z.of_nat SIZEOF_DIRENT) inode in
  with_inode inode (numbfs_pwrite_inode buf 0 (size inode)) ;;
  ret nid.

(** Ten pointers, all holes. *)
Definition holes : list Z := repeat NUMBFS_HOLE (Z.to_nat NUMBFS_NUM_DATA_ENTRY).

(** The buffer of [numbfs_empty_dir] when it goes to [numbfs_pwrite_inode]:
    the two entries over what the buffer held. *)
Definition dot_entries (nid pnid : Z) (buf : block) : block :=
  let dir := 0%nat in
  let buf := store (dir + D_NAME) [Byte.x2e] buf in
  let buf := store (dir + D_NAME + 1) [Byte.x00] buf in
  let buf := store (dir + D_NAME_LEN) [byte.of_Z 1] buf in
  let buf := store (dir + D_INO) (cpu_to_le16 nid) buf in
  let buf := store (dir + D_TYPE) [byte.of_Z DT_DIR] buf in
  let dir := (dir + SIZEOF_DIRENT)%nat in
  let buf := store (dir + D_NAME) [Byte.x2e; Byte.x2e] buf in
  let buf := store (dir + D_NAME + 2) [Byte.x00] buf in
  let buf := store (dir + D_NAME_LEN) [byte.of_Z 2] buf in
  let buf := store (dir + D_INO) (cpu_to_le16 pnid) buf in
  store (dir + D_TYPE) [byte.of_Z DT_DIR] buf.

(** The mirror of [numbfs_empty_dir] when it goes to
    [numbfs_pwrite_inode]. *)
Definition fresh_dir_inode (getuid getgid nid : Z) : numbfs_inode_info :=
  mkinode nid (Z.lor S_IFDIR MODE_0755) 2 (getuid mod 2 ^ 16) (getgid mod 2 ^ 16)
          (2 * Z.of_nat SIZEOF_DIRENT) holes.

(** ** mkfs.c: the geometry *)

(** The check of [--num_inodes] in [numbfs_parse_args]. *)
Definition valid_num_inodes (val : Z) : bool :=
  negb ((val <=? 0) || negb (Z.land val 7 =? 0)).

(** The geometry part of [numbfs_mkfs]: the check of the size and the zone
    starts, on a superblock info whose [size_bytes] and [total_inodes] are
    set.  [total_blocks] is an [int] in the code, and so is the threshold of
    the check: this is the code for the sizes and the inode counts for which
    both fit an [int]. *)
Definition numbfs_mkfs_geometry : M numbfs_superblock_info unit :=
  fun sbi =>
    if size_bytes sbi <=? 2 * BYTES_PER_BLOCK
                          + round_up (total_inodes sbi * 64) BYTES_PER_BLOCK + 3
    then (Err EINVAL, sbi)
    else
      let total_blocks := Z.quot (size_bytes sbi) BYTES_PER_BLOCK in
      (* inode bitmap start block addr *)
      let ibitmap_start := 2 in
      (* inodes start block add *)
      let inode_start := ibitmap_start +
        DIV_ROUND_UP (DIV_ROUND_UP (total_inodes sbi) BITS_PER_BYTE) BYTES_PER_BLOCK in
      (* block bitmap start block addr *)
      let bbitmap_start := inode_start +
        DIV_ROUND_UP (total_inodes sbi * 64) BYTES_PER_BLOCK in
      let remain := total_blocks - bbitmap_start - 1 in
      (* nr total data blocks *)
      let data_blocks := remain -
        DIV_ROUND_UP (DIV_ROUND_UP remain BITS_PER_BYTE) BYTES_PER_BLOCK in
      let free_blocks := data_blocks in
      let end_ := bbitmap_start +
        DIV_ROUND_UP (DIV_ROUND_UP data_blocks BITS_PER_BYTE) BYTES_PER_BLOCK in
      (* data zone start block addr *)
      let data_start := end_ in
      (Ok tt, mksbi (fd sbi) (feature sbi) (total_inodes sbi) (free_inodes sbi)
                    data_blocks free_blocks ibitmap_start inode_start
                    bbitmap_start data_start (size_bytes sbi)).

(** [numbfs_init_config] and the two options of [numbfs_parse_args] that set
    the inode count and the size; [-1] is the size of a run without
    [--size], which [numbfs_mkfs] replaces by the size of the device. *)
Definition numbfs_init_config (d : device) (num_inodes size : Z)
  : numbfs_superblock_info :=
  mksbi d 0 num_inodes (num_inodes - NUMBFS_ROOT_NID) 0 0 0 0 0 0 size.

(** ** The state as the statements see it *)

(** The two bitmap regions, named by the counter that goes with them. *)
Definition region_start (c : counter) (sbi : numbfs_superblock_info) : Z :=
  match c with FreeInodes => ibitmap_start sbi | FreeBlocks => bbitmap_start sbi end.

Definition region_total (c : counter) (sbi : numbfs_superblock_info) : Z :=
  match c with FreeInodes => total_inodes sbi | FreeBlocks => data_blocks sbi end.

Definition numbfs_alloc (c : counter) : M numbfs_superblock_info (option Z) :=
  match c with FreeInodes => numbfs_alloc_inode | FreeBlocks => numbfs_alloc_block end.

Definition numbfs_free (c : counter) (i : Z) : M numbfs_superblock_info unit :=
  match c with FreeInodes => numbfs_free_inode i | FreeBlocks => numbfs_free_block i end.

(** The bit of unit [i] in the bitmap that starts at block [startblk]. *)
Definition unit_bit (blocks : gmap Z block) (startblk i : Z) : option bool :=
  match blocks !! numbfs_bmap_blk startblk i with
  | Some buf =>
      match buf_get buf (numbfs_bmap_byte i) with
      | Some b => Some (bit_is_set b (numbfs_bmap_bit i))
      | None => None
      end
  | None => None
  end.

Definition unit_is_set (blocks : gmap Z block) (startblk i : Z) : bool :=
  match unit_bit blocks startblk i with Some true => true | _ => false end.

Definition unit_is_clear (blocks : gmap Z block) (startblk i : Z) : bool :=
  match unit_bit blocks startblk i with Some false => true | _ => false end.

(** The blocks with the bit of unit [j] replaced by [v]. *)
Definition with_unit (v : bool) (blocks : gmap Z block) (startblk j : Z)
  : gmap Z block :=
  match blocks !! numbfs_bmap_blk startblk j with
  | Some buf =>
      match buf_get buf (numbfs_bmap_byte j) with
      | Some b =>
          <[numbfs_bmap_blk startblk j
            := buf_set buf (numbfs_bmap_byte j)
                       ((if v then bit_set else bit_clear) b (numbfs_bmap_bit j))]> blocks
      | None => blocks
      end
  | None => blocks
  end.

(** The number of set bits among the units [0 .. total - 1]. *)
Definition popcount (blocks : gmap Z block) (startblk total : Z) : Z :=
  Z.of_nat (length (List.filter (unit_is_set blocks startblk) (seqZ 0 total))).

(** [free_count == unit_count - popcount(bitmap)] for one region, and for
    the two. *)
Definition counter_consistent (c : counter) (sbi : numbfs_superblock_info) : Prop :=
  deref c sbi
  = region_total c sbi
    - popcount (dev_blocks (fd sbi)) (region_start c sbi) (region_total c sbi).

Definition bitmap_consistent (sbi : numbfs_superblock_info) : Prop :=
  counter_consistent FreeInodes sbi /\ counter_consistent FreeBlocks sbi.

(** No transfer of the device comes back short because of the medium. *)
Definition no_faults (d : device) : Prop := forall k, dev_fault d k = false.

(** What no call of the library changes: the geometry and the medium. *)
Definition same_geometry (a b : numbfs_superblock_info) : Prop :=
  feature a = feature b
  /\ total_inodes a = total_inodes b
  /\ data_blocks a = data_blocks b
  /\ ibitmap_start a = ibitmap_start b
  /\ inode_start a = inode_start b
  /\ bbitmap_start a = bbitmap_start b
  /\ data_start a = data_start b
  /\ size_bytes a = size_bytes b
  /\ dev_fault (fd a) = dev_fault (fd b).

(** The blocks [lo .. hi - 1] are on the device, [BYTES_PER_BLOCK] bytes
    each. *)
Definition blocks_present (blocks : gmap Z block) (lo hi : Z) : bool :=
  forallb (fun b => match blocks !! b with
                    | Some buf => Z.of_nat (length buf) =? BYTES_PER_BLOCK
                    | None => false
                    end)
          (seqZ lo (hi - lo)).

(** The number of blocks of a bitmap over [total] units, as the format tool
    sizes it. *)
Definition bitmap_blocks (total : Z) : Z :=
  DIV_ROUND_UP (DIV_ROUND_UP total BITS_PER_BYTE) BYTES_PER_BLOCK.

(** The zones follow one another without overlap, in the order of the format:
    inode bitmap, inode table, block bitmap, data. *)
Definition zones_ordered (sbi : numbfs_superblock_info) : bool :=
  (0 <=? total_inodes sbi) && (0 <=? data_blocks sbi)
  && (0 <=? ibitmap_start sbi)
  && (ibitmap_start sbi + bitmap_blocks (total_inodes sbi) <=? inode_start sbi)
  && (inode_start sbi + DIV_ROUND_UP (total_inodes sbi * 64) BYTES_PER_BLOCK
      <=? bbitmap_start sbi)
  && (bbitmap_start sbi + bitmap_blocks (data_blocks sbi) <=? data_start sbi).

(** A laid-out image: ordered zones, all of them on the device. *)
Definition image_ok (sbi : numbfs_superblock_info) : bool :=
  zones_ordered sbi
  && blocks_present (dev_blocks (fd sbi)) (ibitmap_start sbi)
                    (data_start sbi + data_blocks sbi).



(** The content of logical block [idx] of a file: the data block that the
    pointer names, zeros for a hole. *)
Definition file_block (inode : numbfs_inode_info) (sbi : numbfs_superblock_info)
    (idx : Z) : option block :=
  match (if idx <? 0 then None else data inode !! Z.to_nat idx) with
  | Some d =>
      if d =? NUMBFS_HOLE then Some zero_block
      else dev_blocks (fd sbi) !! numbfs_data_blk sbi d
  | None => None
  end.

(** A block with the [len] bytes at [off] replaced by the first [len] bytes
    of [buf]. *)
Definition overwrite (blk : block) (off : Z) (buf : block) (len : Z) : block :=
  take (Z.to_nat off) blk ++ take (Z.to_nat len) buf
  ++ drop (Z.to_nat (off + len)) blk.

(** The values of a mirror that the on-disk record holds without loss:
    [int] for the 32-bit fields, 16 bits for the link count and the two
    ids, ten pointers. *)
Definition is_int (z : Z) : Prop := - 2 ^ 31 <= z < 2 ^ 31.
Definition is_u16 (z : Z) : Prop := 0 <= z < 2 ^ 16.

Definition inode_fits (i : numbfs_inode_info) : Prop :=
  is_int (mode i) /\ is_u16 (nlink i) /\ is_u16 (uid i) /\ is_u16 (gid i)
  /\ is_int (size i)
  /\ length (data i) = Z.to_nat NUMBFS_NUM_DATA_ENTRY
  /\ Forall is_int (data i).

(** A call of the allocator or of the release, and a run of such calls. *)
Inductive bitmap_op : Type :=
| Alloc (c : counter)
| Free (c : counter) (i : Z).

Definition run_op (op : bitmap_op) : M numbfs_superblock_info unit :=
  match op with
  | Alloc c => numbfs_alloc c ;; ret tt
  | Free c i => numbfs_free c i
  end.

Fixpoint run_ops (ops : list bitmap_op) : M numbfs_superblock_info unit :=
  match ops with
  | [] => ret tt
  | op :: ops' => run_op op ;; run_ops ops'
  end.

(** The units that a run releases are unit indices. *)
Definition frees_nonneg (ops : list bitmap_op) : Prop :=
  forall c i, In (Free c i) ops -> 0 <= i.






(** What the geometry has to satisfy. *)
Definition geometry_ok (sbi : numbfs_superblock_info) : Prop :=
  ibitmap_start sbi < inode_start sbi
  /\ inode_start sbi < bbitmap_start sbi
  /\ bbitmap_start sbi < data_start sbi
  /\ 0 <= data_blocks sbi
  /\ data_start sbi + data_blocks sbi <= size_bytes sbi / BYTES_PER_BLOCK.

(** ** Small images for the examples *)

(** A device of [n] zeroed blocks, without faults. *)
Definition blank_blocks (n : Z) : gmap Z block :=
  list_to_map (List.map (fun k => (k, zero_block)) (seqZ 0 n)).

Definition blank_device (n : Z) : device := mkdev (blank_blocks n) 0 (fun _ => false).

(** Eight inodes and three data blocks on eight blocks: the inode bitmap is
    block 2, the inode table block 3, the block bitmap block 4, the data zone
    starts at block 5. *)
Definition small_sbi : numbfs_superblock_info :=
  mksbi (blank_device 8) 0 8 8 3 3 2 3 4 5 4096.

(** Inode 1 of the small image, nothing written to it. *)
Definition empty_inode : numbfs_inode_info := mkinode 1 0 0 0 0 0 holes.

(** The small image with data block 0 in use and a medium that fails the
    second transfer. *)
Definition one_block_used : gmap Z block :=
  <[4 := buf_set zero_block 0 Byte.x01]> (blank_blocks 8).

Definition faulty_sbi : numbfs_superblock_info :=
  mksbi (mkdev one_block_used 0 (fun k => Nat.eqb k 1)) 0 8 8 3 2 2 3 4 5 4096.

(** The same with inode 0 in use. *)
Definition one_inode_used : gmap Z block :=
  <[2 := buf_set zero_block 0 Byte.x01]> (blank_blocks 8).

Definition faulty_sbi_inodes : numbfs_superblock_info :=
  mksbi (mkdev one_inode_used 0 (fun k => Nat.eqb k 1)) 0 8 7 3 3 2 3 4 5 4096.

(** A buffer with something in every byte. *)
Definition pattern : block :=
  List.map (fun k => byte.of_Z (k mod 10 + 1)) (seqZ 0 BYTES_PER_BLOCK).

(** The small image after five bytes of the pattern went to offset 3587 of
    inode 1 (byte 3 of logical block 7). *)
Definition written : result unit * ist :=
  Eval vm_compute in numbfs_pwrite_inode pattern 3587 5 (empty_inode, small_sbi).

(** ** lib.c: the superblock *)

(** Modelled from the spec: the declaration of the superblock record that
    [numbfs_get_superblock] and [numbfs_mkfs] go through is not among the
    sources ([disk.h] declares [s_num_inodes] and [s_nfree_blocks] where they
    name [s_total_inodes], [s_free_inodes], [s_data_blocks] and
    [s_free_blocks]); the four counts follow [s_data_start], 4 bytes each, in
    this order.  The first six offsets are those of [disk.h], see
    [super_offsets]. *)
Definition S_MAGIC : nat := 0.
Definition S_FEATURE : nat := 4.
Definition S_IBITMAP_START : nat := 8.
Definition S_INODE_START : nat := 12.
Definition S_BBITMAP_START : nat := 16.
Definition S_DATA_START : nat := 20.
Definition S_TOTAL_INODES : nat := 24.
Definition S_FREE_INODES : nat := 28.
Definition S_DATA_BLOCKS : nat := 32.
Definition S_FREE_BLOCKS : nat := 36.

(** The field loads of [numbfs_get_superblock]: every field of the mirror
    but [fd] and [size]. *)
Definition load_super (buf : block) (sbi : numbfs_superblock_info)
  : numbfs_superblock_info :=
  let field o := to_int (le32_to_cpu (load o 4 buf)) in
  mksbi (fd sbi) (field S_FEATURE) (field S_TOTAL_INODES) (field S_FREE_INODES)
        (field S_DATA_BLOCKS) (field S_FREE_BLOCKS) (field S_IBITMAP_START)
        (field S_INODE_START) (field S_BBITMAP_START) (field S_DATA_START)
        (size_bytes sbi).

(* get the superblock info from device@fd *)
Definition numbfs_get_superblock (d : device) : M numbfs_superblock_info unit :=
  modify (set_fd d) ;;
  let* buf := numbfs_read_block (Z.quot NUMBFS_SUPER_OFFSET BYTES_PER_BLOCK) in
  if negb (le32_to_cpu (load S_MAGIC 4 buf) =? NUMBFS_MAGIC) then throw EINVAL
  else modify (load_super buf).

(** ** mkfs.c: the zones and the superblock *)





(** The record that [numbfs_mkfs] builds in [buf].  The magic number is
    stored as the host has it; the host is little-endian. *)
Definition store_super (sbi : numbfs_superblock_info) (buf : block) : block :=
  let buf := memset buf 0 BYTES_PER_BLOCK in
  let buf := store S_MAGIC (le_split 4 NUMBFS_MAGIC) buf in
  let buf := store S_FEATURE (cpu_to_le32 0) buf in
  let buf := store S_IBITMAP_START (cpu_to_le32 (ibitmap_start sbi)) buf in
  let buf := store S_INODE_START (cpu_to_le32 (inode_start sbi)) buf in
  let buf := store S_BBITMAP_START (cpu_to_le32 (bbitmap_start sbi)) buf in
  let buf := store S_DATA_START (cpu_to_le32 (data_start sbi)) buf in
  let buf := store S_TOTAL_INODES (cpu_to_le32 (total_inodes sbi)) buf in
  let buf := store S_FREE_INODES (cpu_to_le32 (free_inodes sbi)) buf in
  let buf := store S_DATA_BLOCKS (cpu_to_le32 (data_blocks sbi)) buf in
  store S_FREE_BLOCKS (cpu_to_le32 (free_blocks sbi)) buf.

(** The end of [numbfs_mkfs]: the superblock goes to its block. *)
Definition numbfs_mkfs_super (buf : block) : M numbfs_superblock_info unit :=
  let* sbi := get in
  numbfs_write_block (store_super sbi buf) (Z.quot NUMBFS_SUPER_OFFSET BYTES_PER_BLOCK).

(** ** fsck.c: the usage counts *)

(** The loop of [count_bit], on the [__u8] as a number. *)
Fixpoint count_bit_loop (n : nat) (byte : Z) (ret : Z) : Z :=
  match n with
  | O => ret
  | S n' => count_bit_loop n' (Z.shiftr byte 1 mod 2 ^ 8) (ret + Z.land byte 1)
  end.

Definition count_bit (b : byte) : Z := count_bit_loop 8 (byte.unsigned b) 0.

(** The loop of [numbfs_fsck_used], from byte [i] on. *)
Fixpoint fsck_used_loop (n : nat) (i : Z) (buf : block) (ret : Z) : option Z :=
  match n with
  | O => Some ret
  | S n' =>
      match buf_get buf i with
      | Some b => fsck_used_loop n' (i + 1) buf (ret + count_bit b)
      | None => None
      end
  end.

Definition numbfs_fsck_used (buf : block) : option Z :=
  fsck_used_loop (Z.to_nat BYTES_PER_BLOCK) 0 buf 0.

(** The loop over the blocks of a bitmap in [numbfs_fsck], from block [i]
    on. *)
Fixpoint fsck_count (n : nat) (i : Z) (cnt : Z) : M numbfs_superblock_info Z :=
  match n with
  | O => ret cnt
  | S n' =>
      fun sbi =>
        match pread i (fd sbi) with
        | (Some buf, d) =>
            (let* used := defined (numbfs_fsck_used buf) in
             fsck_count n' (i + 1) (cnt + used)) (set_fd d sbi)
        | (None, d) => (Err EIO, set_fd d sbi)
        end
  end.

(** The two usage reports of [numbfs_fsck], [--inodes] and [--blocks]: the
    count of set bits over the blocks of the bitmap and the [BUG_ON] on it.
    The value is the count; the percentage that is printed from it is not
    part of the model. *)
Definition numbfs_fsck_inodes : M numbfs_superblock_info Z :=
  let* sbi := get in
  let* cnt := fsck_count (Z.to_nat (inode_start sbi - ibitmap_start sbi))
                         (ibitmap_start sbi) 0 in
  if negb (cnt =? total_inodes sbi - free_inodes sbi) then bug else ret cnt.

Definition numbfs_fsck_blocks : M numbfs_superblock_info Z :=
  let* sbi := get in
  let* cnt := fsck_count (Z.to_nat (data_start sbi - bbitmap_start sbi))
                         (bbitmap_start sbi) 0 in
  if negb (cnt =? data_blocks sbi - free_blocks sbi) then bug else ret cnt.

(** ** test.c: the free units of a bitmap *)

(** [assert(!numbfs_read_block(...))]: the run stops when the read fails. *)
Definition assert_read_block (blkno : Z) : M numbfs_superblock_info block :=
  let* r := attempt (numbfs_read_block blkno) in
  match r with
  | Ok buf => ret buf
  | _ => bug
  end.

(** The loop of [numbfs_block_count] and of [numbfs_inode_count], from unit
    [i] on. *)
Fixpoint count_loop (n : nat) (i : Z) (startblk : Z) (buf : block) (cnt : Z)
  : M numbfs_superblock_info Z :=
  match n with
  | O => ret cnt
  | S n' =>
      let* buf := (if Z.rem i NUMBFS_BLOCKS_PER_BLOCK =? 0
                   then assert_read_block (numbfs_bmap_blk startblk i)
                   else ret buf) in
      let byte := numbfs_bmap_byte i in
      let bit := numbfs_bmap_bit i in
      let* b := defined (buf_get buf byte) in
      count_loop n' (i + 1) startblk buf
                 (if negb (bit_is_set b bit) then cnt + 1 else cnt)
  end.

Definition numbfs_block_count : M numbfs_superblock_info Z :=
  let* sbi := get in
  count_loop (Z.to_nat (data_blocks sbi)) 0 (bbitmap_start sbi) [] 0.

Definition numbfs_inode_count : M numbfs_superblock_info Z :=
  let* sbi := get in
  count_loop (Z.to_nat (total_inodes sbi)) 0 (ibitmap_start sbi) [] 0.

(** ** More of the state as the statements see it *)

(** The units of a region at or past its unit count, up to the end of the
    bitmap blocks [lo .. hi - 1], are clear. *)
Definition padding_clear (blocks : gmap Z block) (lo hi total : Z) : Prop :=
  forall i, total <= i < NUMBFS_BLOCKS_PER_BLOCK * (hi - lo) ->
            unit_bit blocks lo i = Some false.

(** The pointers of a mirror are holes or block numbers. *)
Definition pointers_valid (i : numbfs_inode_info) : Prop :=
  length (data i) = Z.to_nat NUMBFS_NUM_DATA_ENTRY
  /\ Forall (fun d => d = NUMBFS_HOLE \/ 0 <= d) (data i).


(** The small image with its three data blocks in use and a counter of free
    blocks that says one is left. *)
Definition drifted_sbi : numbfs_superblock_info :=
  mksbi (mkdev (<[4 := buf_set zero_block 0 Byte.x07]> (blank_blocks 8)) 0
               (fun _ => false))
        0 8 8 3 1 2 3 4 5 4096.

(** The small image with data block 1 in use, counted. *)
Definition one_used_sbi : numbfs_superblock_info :=
  mksbi (mkdev (<[4 := buf_set zero_block 0 Byte.x02]> (blank_blocks 8)) 0
               (fun _ => false))
        0 8 8 3 2 2 3 4 5 4096.

(** The mirror of a regular file of 700 bytes in two blocks, inode 5. *)
Definition sample_inode : numbfs_inode_info :=
  mkinode 5 33188 1 1000 100 700
          [0; 2; NUMBFS_HOLE; NUMBFS_HOLE; NUMBFS_HOLE; NUMBFS_HOLE; NUMBFS_HOLE;
           NUMBFS_HOLE; NUMBFS_HOLE; NUMBFS_HOLE].

(** The small image with its three data blocks in use and counted. *)
Definition no_block_sbi : numbfs_superblock_info :=
  mksbi (mkdev (<[4 := buf_set zero_block 0 Byte.x07]> (blank_blocks 8)) 0
               (fun _ => false))
        0 8 8 3 0 2 3 4 5 4096.

(** The fields of a mirror that the superblock record holds without loss. *)
Definition super_fits (sbi : numbfs_superblock_info) : Prop :=
  is_int (ibitmap_start sbi) /\ is_int (inode_start sbi)
  /\ is_int (bbitmap_start sbi) /\ is_int (data_start sbi)
  /\ is_int (total_inodes sbi) /\ is_int (free_inodes sbi)
  /\ is_int (data_blocks sbi) /\ is_int (free_blocks sbi).

(** The first bytes of the block of a superblock: [NUMBFS_MAGIC], low byte
    first. *)
Definition magic_bytes : list byte := [Byte.x42; Byte.x4d; Byte.x55; Byte.x4e].

(** The count of the tests on a region, and the end of the blocks of its
    bitmap. *)
Definition numbfs_count (c : counter) : M numbfs_superblock_info Z :=
  match c with FreeInodes => numbfs_inode_count | FreeBlocks => numbfs_block_count end.

Definition region_end (c : counter) (sbi : numbfs_superblock_info) : Z :=
  match c with FreeInodes => inode_start sbi | FreeBlocks => data_start sbi end.

(** The usage report of [numbfs_fsck] on a region. *)
Definition numbfs_fsck_usage (c : counter) : M numbfs_superblock_info Z :=
  match c with FreeInodes => numbfs_fsck_inodes | FreeBlocks => numbfs_fsck_blocks end.

(** The number of set bits among the [n] units from unit [from] on. *)
Definition units_set (blocks : gmap Z block) (startblk from n : Z) : Z :=
  Z.of_nat (length (List.filter (unit_is_set blocks startblk) (seqZ from n))).

(** ** The range of the block numbers *)

Definition INT_MAX : Z := 2 ^ 31 - 1.

(** [numbfs_read_block] and [numbfs_write_block] hand the byte offset
    [blkno * BYTES_PER_BLOCK], an [int], to [pread] and [pwrite].  On an
    image whose last block has an offset that fits an [int], that is, an
    image that ends at or before 2 GiB, the product is the offset of the
    block for every block of the image. *)
Definition offsets_fit (sbi : numbfs_superblock_info) : Prop :=
  (data_start sbi + data_blocks sbi - 1) * BYTES_PER_BLOCK <= INT_MAX.

(** The pointers of a mirror are holes or data blocks of the image. *)
Definition pointers_in_image (i : numbfs_inode_info) (sbi : numbfs_superblock_info)
  : Prop :=
  Forall (fun d => d = NUMBFS_HOLE \/ 0 <= d < data_blocks sbi) (data i).

(** ** A large image for the examples *)

(** A block with every bit set. *)
Definition full_block : block := repeat Byte.xff (Z.to_nat BYTES_PER_BLOCK).

(** 65544 inodes and 7 data blocks on 8221 blocks, with the geometry that
    [numbfs_mkfs_geometry] computes for this count on this size: the inode
    bitmap is blocks 2 to 18, the inode table blocks 19 to 8211, the block
    bitmap block 8212, and the data zone starts at block 8213.  The inodes 8
    to 65536 are in use, and so are those of the inodes 0 to 7 whose bit is
    set in [low]; no data block is in use. *)
Definition crowded_blocks (low : byte) : gmap Z block :=
  <[18 := buf_set zero_block 0 Byte.x01]>
    (<[2 := buf_set full_block 0 low]>
       (foldr (fun b m => <[b := full_block]> m) (blank_blocks 8221) (seqZ 3 15))).

Definition crowded (low : byte) (free : Z) : numbfs_superblock_info :=
  mksbi (mkdev (crowded_blocks low) 0 (fun _ => false))
        0 65544 free 7 7 2 19 8212 8213 4209152.



(** ** Arithmetic of offsets and units *)

Lemma quot_block_nonneg pos : 0 <= pos -> Z.quot pos BYTES_PER_BLOCK = pos / BYTES_PER_BLOCK.
Proof. intros. apply Z.quot_div_nonneg; [lia | reflexivity]. Qed.

Lemma rem_block_nonneg pos : 0 <= pos -> Z.rem pos BYTES_PER_BLOCK = pos mod BYTES_PER_BLOCK.
Proof. intros. apply Z.rem_mod_nonneg; [lia | reflexivity]. Qed.

Lemma index_out_of_range pos :
  pos / BYTES_PER_BLOCK >= NUMBFS_NUM_DATA_ENTRY ->
  0 <= pos /\ (Z.quot pos BYTES_PER_BLOCK >=? NUMBFS_NUM_DATA_ENTRY) = true.
Proof.
  unfold BYTES_PER_BLOCK, NUMBFS_NUM_DATA_ENTRY. intros H.
  assert (0 <= pos).
  { destruct (Z_lt_le_dec pos 0) as [Hn|]; [|assumption].
    assert (pos / 512 < 0) by (apply Z.div_lt_upper_bound; lia). lia. }
  split; [assumption|].
  rewrite Z.quot_div_nonneg by lia. apply Z.geb_le. lia.
Qed.


Lemma unit_coords i :
  0 <= i ->
  i = NUMBFS_BLOCKS_PER_BLOCK * Z.quot i NUMBFS_BLOCKS_PER_BLOCK
      + BITS_PER_BYTE * numbfs_bmap_byte i + numbfs_bmap_bit i
  /\ 0 <= Z.quot i NUMBFS_BLOCKS_PER_BLOCK
  /\ 0 <= numbfs_bmap_byte i < BYTES_PER_BLOCK
  /\ 0 <= numbfs_bmap_bit i < BITS_PER_BYTE.
Proof.
  intros Hi. unfold numbfs_bmap_byte, numbfs_bmap_bit.
  change NUMBFS_BLOCKS_PER_BLOCK with 4096. change BITS_PER_BYTE with 8.
  change BYTES_PER_BLOCK with 512.
  rewrite (Z.quot_div_nonneg i 4096), (Z.rem_mod_nonneg i 4096) by lia.
  pose proof (Z.mod_pos_bound i 4096 ltac:(lia)) as Hr.
  rewrite (Z.quot_div_nonneg (i mod 4096) 8), (Z.rem_mod_nonneg (i mod 4096) 8) by lia.
  pose proof (Z.div_mod i 4096 ltac:(lia)).
  pose proof (Z.div_mod (i mod 4096) 8 ltac:(lia)).
  pose proof (Z.mod_pos_bound (i mod 4096) 8 ltac:(lia)).
  pose proof (Z.div_pos i 4096 ltac:(lia) ltac:(lia)).
  assert (0 <= i mod 4096 / 8 < 512).
  { split; [apply Z.div_pos; lia | apply Z.div_lt_upper_bound; lia]. }
  lia.
Qed.

Lemma all_bytes b : In b (List.map byte.of_Z (seqZ 0 256)).
Proof.
  apply in_map_iff. exists (byte.unsigned b). split; [apply byte.of_Z_unsigned|].
  apply list_elem_of_In, elem_of_seqZ. pose proof (byte.unsigned_range b). lia.
Qed.

Lemma bits_small j : 0 <= j < 8 -> In j (seqZ 0 8).
Proof. intros. apply list_elem_of_In, elem_of_seqZ. lia. Qed.

Lemma bit_laws b j k :
  0 <= j < 8 -> 0 <= k < 8 ->
  bit_is_set (bit_set b j) k = ((k =? j) || bit_is_set b k)
  /\ bit_is_set (bit_clear b j) k = (negb (k =? j) && bit_is_set b k).
Proof.
  intros Hj Hk.
  assert (Hc : bit_laws_check = true) by (vm_compute; reflexivity).
  unfold bit_laws_check in Hc.
  rewrite forallb_forall in Hc. specialize (Hc b (all_bytes b)).
  rewrite forallb_forall in Hc. specialize (Hc j (bits_small j Hj)).
  rewrite forallb_forall in Hc. specialize (Hc k (bits_small k Hk)).
  apply andb_true_iff in Hc as [H1 H2].
  apply Bool.eqb_prop in H1, H2. auto.
Qed.

(** ** Bits of a bitmap after an update *)

Lemma buf_get_lookup buf i : 0 <= i -> buf_get buf i = buf !! Z.to_nat i.
Proof. intros. unfold buf_get. destruct (Z.ltb_spec i 0); [lia | reflexivity]. Qed.

Lemma unit_bit_update (blocks : gmap Z block) s j blk b v x :
  0 <= j ->
  blocks !! numbfs_bmap_blk s j = Some blk ->
  buf_get blk (numbfs_bmap_byte j) = Some b ->
  (forall k', 0 <= k' < 8 ->
     bit_is_set v k' = if k' =? numbfs_bmap_bit j then x else bit_is_set b k') ->
  forall k, 0 <= k ->
    unit_bit (<[numbfs_bmap_blk s j := buf_set blk (numbfs_bmap_byte j) v]> blocks) s k
    = if k =? j then Some x else unit_bit blocks s k.
Proof.
  intros Hj Hblk Hb Hv k Hk.
  destruct (unit_coords j Hj) as (Ej & Hqj & Hbytej & Hbitj).
  destruct (unit_coords k Hk) as (Ek & Hqk & Hbytek & Hbitk).
  change BITS_PER_BYTE with 8 in *.
  rewrite buf_get_lookup in Hb by lia.
  unfold unit_bit.
  destruct (decide (numbfs_bmap_blk s k = numbfs_bmap_blk s j)) as [Eblk|Nblk].
  - rewrite Eblk, lookup_insert_eq, Hblk.
    rewrite !buf_get_lookup by lia. unfold buf_set.
    destruct (decide (numbfs_bmap_byte k = numbfs_bmap_byte j)) as [Ebyte|Nbyte].
    + rewrite Ebyte, list_lookup_insert_eq by (eapply lookup_lt_Some; eassumption).
      rewrite Hb, Hv by lia.
      unfold numbfs_bmap_blk in Eblk.
      destruct (Z.eqb_spec (numbfs_bmap_bit k) (numbfs_bmap_bit j)) as [Ebit|Nbit];
        destruct (Z.eqb_spec k j) as [E|N]; try reflexivity; try lia.
    + rewrite list_lookup_insert_ne by lia.
      destruct (Z.eqb_spec k j) as [E|N]; [subst k; lia | reflexivity].
  - rewrite lookup_insert_ne by congruence.
    destruct (Z.eqb_spec k j) as [E|N]; [subst k; congruence | reflexivity].
Qed.

Lemma unit_bit_after_set (blocks : gmap Z block) s j blk b :
  0 <= j ->
  blocks !! numbfs_bmap_blk s j = Some blk ->
  buf_get blk (numbfs_bmap_byte j) = Some b ->
  forall k, 0 <= k ->
    unit_bit (<[numbfs_bmap_blk s j
                := buf_set blk (numbfs_bmap_byte j) (bit_set b (numbfs_bmap_bit j))]> blocks) s k
    = if k =? j then Some true else unit_bit blocks s k.
Proof.
  intros Hj Hblk Hb. apply (unit_bit_update blocks s j blk b); try assumption.
  intros k' Hk'. destruct (unit_coords j Hj) as (_ & _ & _ & Hbit).
  change BITS_PER_BYTE with 8 in Hbit.
  destruct (bit_laws b (numbfs_bmap_bit j) k' Hbit Hk') as [-> _].
  destruct (k' =? numbfs_bmap_bit j); reflexivity.
Qed.

Lemma unit_bit_after_clear (blocks : gmap Z block) s j blk b :
  0 <= j ->
  blocks !! numbfs_bmap_blk s j = Some blk ->
  buf_get blk (numbfs_bmap_byte j) = Some b ->
  forall k, 0 <= k ->
    unit_bit (<[numbfs_bmap_blk s j
                := buf_set blk (numbfs_bmap_byte j) (bit_clear b (numbfs_bmap_bit j))]> blocks) s k
    = if k =? j then Some false else unit_bit blocks s k.
Proof.
  intros Hj Hblk Hb. apply (unit_bit_update blocks s j blk b); try assumption.
  intros k' Hk'. destruct (unit_coords j Hj) as (_ & _ & _ & Hbit).
  change BITS_PER_BYTE with 8 in Hbit.
  destruct (bit_laws b (numbfs_bmap_bit j) k' Hbit Hk') as [_ ->].
  destruct (k' =? numbfs_bmap_bit j); reflexivity.
Qed.

(** ** Block transfers *)

Lemma read_block_ok blkno sbi buf :
  dev_fault (fd sbi) (dev_clock (fd sbi)) = false ->
  dev_blocks (fd sbi) !! blkno = Some buf ->
  numbfs_read_block blkno sbi = (Ok buf, set_fd (dev_tick (fd sbi)) sbi).
Proof. intros Hf Hb. unfold numbfs_read_block, pread. rewrite Hf, Hb. reflexivity. Qed.

Lemma read_block_inv blkno sbi buf sbi' :
  numbfs_read_block blkno sbi = (Ok buf, sbi') ->
  dev_fault (fd sbi) (dev_clock (fd sbi)) = false
  /\ dev_blocks (fd sbi) !! blkno = Some buf
  /\ sbi' = set_fd (dev_tick (fd sbi)) sbi.
Proof.
  unfold numbfs_read_block, pread.
  destruct (dev_fault (fd sbi) (dev_clock (fd sbi))); [discriminate|].
  destruct (dev_blocks (fd sbi) !! blkno); [|discriminate].
  intros [= <- <-]. auto.
Qed.

Lemma write_block_ok buf blkno sbi :
  dev_fault (fd sbi) (dev_clock (fd sbi)) = false ->
  is_Some (dev_blocks (fd sbi) !! blkno) ->
  numbfs_write_block buf blkno sbi = (Ok tt, set_fd (dev_put blkno buf (fd sbi)) sbi).
Proof.
  intros Hf [old Hb]. unfold numbfs_write_block, pwrite. rewrite Hf, Hb. reflexivity.
Qed.

Lemma write_block_inv buf blkno sbi u sbi' :
  numbfs_write_block buf blkno sbi = (Ok u, sbi') ->
  dev_fault (fd sbi) (dev_clock (fd sbi)) = false
  /\ is_Some (dev_blocks (fd sbi) !! blkno)
  /\ sbi' = set_fd (dev_put blkno buf (fd sbi)) sbi.
Proof.
  unfold numbfs_write_block, pwrite.
  destruct (dev_fault (fd sbi) (dev_clock (fd sbi))); [discriminate|].
  destruct (dev_blocks (fd sbi) !! blkno) eqn:E; [|discriminate].
  intros [= <- <-]. eauto.
Qed.

Lemma bmap_blk_succ s i :
  0 <= i -> Z.rem (i + 1) NUMBFS_BLOCKS_PER_BLOCK <> 0 ->
  numbfs_bmap_blk s (i + 1) = numbfs_bmap_blk s i.
Proof.
  unfold numbfs_bmap_blk. change NUMBFS_BLOCKS_PER_BLOCK with 4096. intros Hi Hr.
  rewrite Z.rem_mod_nonneg in Hr by lia.
  rewrite !Z.quot_div_nonneg by lia.
  f_equal.
  pose proof (Z.div_mod i 4096 ltac:(lia)).
  pose proof (Z.mod_pos_bound i 4096 ltac:(lia)).
  pose proof (Z.mod_pos_bound (i + 1) 4096 ltac:(lia)).
  pose proof (Z.div_mod (i + 1) 4096 ltac:(lia)).
  symmetry. apply (Z.div_unique (i + 1) 4096 (i / 4096) (i mod 4096 + 1)); [|lia].
  left. split; [lia|].
  destruct (Z.eq_dec (i mod 4096 + 1) 4096) as [E|]; [|lia].
  exfalso. apply Hr.
  replace (i + 1) with ((i / 4096 + 1) * 4096) by lia.
  apply Z_mod_mult.
Qed.

Lemma unit_bit_inv blocks s i v :
  0 <= i -> unit_bit blocks s i = Some v ->
  exists blk b, blocks !! numbfs_bmap_blk s i = Some blk
                /\ buf_get blk (numbfs_bmap_byte i) = Some b
                /\ bit_is_set b (numbfs_bmap_bit i) = v.
Proof.
  unfold unit_bit. intros Hi H.
  destruct (blocks !! numbfs_bmap_blk s i) as [blk|] eqn:Hblk; [|discriminate].
  destruct (buf_get blk (numbfs_bmap_byte i)) as [b|] eqn:Hb; [|discriminate].
  injection H as <-. exists blk, b. auto.
Qed.

Lemma bitmap_scan_finds n : forall i buf sbi s j,
  no_faults (fd sbi) ->
  0 <= i <= j -> j < i + Z.of_nat n ->
  (Z.rem i NUMBFS_BLOCKS_PER_BLOCK <> 0 ->
   dev_blocks (fd sbi) !! numbfs_bmap_blk s i = Some buf) ->
  (forall k, i <= k < j -> unit_bit (dev_blocks (fd sbi)) s k = Some true) ->
  unit_bit (dev_blocks (fd sbi)) s j = Some false ->
  exists blk b c,
    dev_blocks (fd sbi) !! numbfs_bmap_blk s j = Some blk
    /\ buf_get blk (numbfs_bmap_byte j) = Some b
    /\ bitmap_scan n i s buf sbi
       = (Ok (Some j),
          set_fd (mkdev (<[numbfs_bmap_blk s j
                           := buf_set blk (numbfs_bmap_byte j)
                                      (bit_set b (numbfs_bmap_bit j))]>
                           (dev_blocks (fd sbi)))
                        c (dev_fault (fd sbi))) sbi).
Proof.
  induction n as [|n IH]; intros i buf sbi s j Hnf Hij Hn Hbuf Hset Hclear; [lia|].
  assert (Hbit : exists v, unit_bit (dev_blocks (fd sbi)) s i = Some v
                           /\ (v = false <-> i = j)).
  { destruct (Z.eq_dec i j) as [->|Hne].
    - exists false. tauto.
    - exists true. split; [apply Hset; lia|]. split; [discriminate | contradiction]. }
  destruct Hbit as (v & Hv & Hvj).
  destruct (unit_bit_inv _ _ _ _ (proj1 Hij) Hv) as (blk & b & Hblk & Hb & Hbv).
  assert (Hload : exists sbi1,
             (if Z.rem i NUMBFS_BLOCKS_PER_BLOCK =? 0
              then numbfs_read_block (numbfs_bmap_blk s i)
              else ret buf) sbi = (Ok blk, sbi1)
             /\ dev_blocks (fd sbi1) = dev_blocks (fd sbi)
             /\ dev_fault (fd sbi1) = dev_fault (fd sbi)
             /\ sbi1 = set_fd (fd sbi1) sbi).
  { destruct (Z.eqb_spec (Z.rem i NUMBFS_BLOCKS_PER_BLOCK) 0) as [E|N].
    - exists (set_fd (dev_tick (fd sbi)) sbi). split; [|auto].
      apply read_block_ok; [apply Hnf | assumption].
    - exists sbi. rewrite (Hbuf N) in Hblk. injection Hblk as ->.
      split; [reflexivity|]. destruct sbi; auto. }
  destruct Hload as (sbi1 & Hrun & Hblocks1 & Hfault1 & Hsbi1).
  cbn [bitmap_scan]. unfold bind at 1. rewrite Hrun.
  unfold bind at 1. rewrite Hb. cbn [defined ret].
  rewrite Hbv.
  destruct v; cbn [negb].
  - (* the bit is set: on to the next unit *)
    assert (i <> j) by (intros E; apply Hvj in E; discriminate).
    destruct (IH (i + 1) blk sbi1 s j) as (blk' & b' & c & Hblk' & Hb' & Hscan).
    + intros k. rewrite Hfault1. apply Hnf.
    + lia.
    + lia.
    + intros Hr. rewrite Hblocks1, bmap_blk_succ by (assumption || lia). assumption.
    + intros k Hk. rewrite Hblocks1. apply Hset. lia.
    + rewrite Hblocks1. assumption.
    + rewrite Hblocks1 in Hblk'. exists blk', b', c. split; [assumption|]. split; [assumption|].
      rewrite Hscan, Hblocks1, Hfault1, Hsbi1. reflexivity.
  - (* the first clear bit *)
    assert (i = j) by (apply Hvj; reflexivity). subst i.
    exists blk, b, (S (dev_clock (fd sbi1))). split; [assumption|]. split; [assumption|].
    unfold bind. rewrite write_block_ok.
    + unfold dev_put. rewrite Hblocks1, Hfault1, Hsbi1. reflexivity.
    + rewrite Hfault1. apply Hnf.
    + rewrite Hblocks1, Hblk. eauto.
Qed.

(** ** Counting the set bits *)

Lemma filter_all {A : Type} (f : A -> bool) (l : list A) :
  (forall x, In x l -> f x = true) -> List.filter f l = l.
Proof.
  induction l as [|a l IH]; intros H; [reflexivity|].
  cbn [List.filter]. rewrite (H a (or_introl eq_refl)). f_equal.
  apply IH. intros x Hx. apply H. right. assumption.
Qed.

Lemma filter_same {A : Type} (f g : A -> bool) (l : list A) :
  (forall x, In x l -> g x = f x) -> List.filter g l = List.filter f l.
Proof.
  induction l as [|a l IH]; intros H; [reflexivity|].
  cbn [List.filter]. rewrite (H a (or_introl eq_refl)).
  rewrite IH by (intros x Hx; apply H; right; assumption). reflexivity.
Qed.

Lemma count_flip {A : Type} (f g : A -> bool) (l : list A) (j : A) :
  List.NoDup l -> In j l ->
  (forall k, In k l -> k <> j -> g k = f k) ->
  f j = false -> g j = true ->
  length (List.filter g l) = S (length (List.filter f l)).
Proof.
  intros Hnd. induction Hnd as [|a l Ha Hnd IH]; intros Hj Hsame Hf Hg; [destruct Hj|].
  cbn [List.filter]. destruct Hj as [->|Hj].
  - rewrite Hf, Hg. cbn [length]. f_equal. f_equal.
    apply filter_same. intros x Hx. apply Hsame; [right; assumption|].
    intros ->. contradiction.
  - assert (a <> j) by (intros ->; contradiction).
    rewrite (Hsame a (or_introl eq_refl)) by assumption.
    assert (IH' : length (List.filter g l) = S (length (List.filter f l))).
    { apply IH; try assumption. intros k Hk. apply Hsame. right. assumption. }
    destruct (f a); cbn [length]; rewrite IH'; reflexivity.
Qed.

Lemma seqZ_In m n k : In k (seqZ m n) <-> m <= k < m + n.
Proof. rewrite <- list_elem_of_In. apply elem_of_seqZ. Qed.

Lemma seqZ_NoDup m n : List.NoDup (seqZ m n).
Proof. apply NoDup_ListNoDup, NoDup_seqZ. Qed.

Lemma popcount_bounds blocks s total : 0 <= popcount blocks s total <= Z.max 0 total.
Proof.
  unfold popcount. split; [lia|].
  pose proof (filter_length_le (unit_is_set blocks s) (seqZ 0 total)) as H.
  rewrite length_seqZ in H. lia.
Qed.

Lemma popcount_same blocks blocks' s total :
  (forall k, 0 <= k < total -> unit_bit blocks' s k = unit_bit blocks s k) ->
  popcount blocks' s total = popcount blocks s total.
Proof.
  intros H. unfold popcount. f_equal. f_equal. apply filter_same.
  intros k Hk. apply seqZ_In in Hk. unfold unit_is_set. rewrite H by lia. reflexivity.
Qed.

Lemma with_unit_bits v blocks s j :
  0 <= j -> is_Some (unit_bit blocks s j) ->
  forall k, 0 <= k ->
    unit_bit (with_unit v blocks s j) s k
    = if k =? j then Some v else unit_bit blocks s k.
Proof.
  intros Hj [x Hx] k Hk.
  destruct (unit_bit_inv _ _ _ _ Hj Hx) as (blk & b & Hblk & Hb & _).
  unfold with_unit. rewrite Hblk, Hb.
  destruct v; [apply unit_bit_after_set | apply unit_bit_after_clear]; assumption.
Qed.

Lemma with_unit_other v blocks s j b :
  b <> numbfs_bmap_blk s j -> with_unit v blocks s j !! b = blocks !! b.
Proof.
  intros Hb. unfold with_unit.
  destruct (blocks !! numbfs_bmap_blk s j) as [buf|]; [|reflexivity].
  destruct (buf_get buf (numbfs_bmap_byte j)); [|reflexivity].
  apply lookup_insert_ne. congruence.
Qed.

Lemma with_unit_length v blocks s j b buf :
  blocks !! b = Some buf ->
  exists buf', with_unit v blocks s j !! b = Some buf' /\ length buf' = length buf.
Proof.
  intros Hb. unfold with_unit.
  destruct (blocks !! numbfs_bmap_blk s j) as [bufj|] eqn:Hj; [|eauto].
  destruct (buf_get bufj (numbfs_bmap_byte j)); [|eauto].
  destruct (decide (b = numbfs_bmap_blk s j)) as [->|Hne].
  - rewrite lookup_insert_eq. eexists. split; [reflexivity|].
    unfold buf_set. rewrite length_insert. congruence.
  - rewrite lookup_insert_ne by congruence. eauto.
Qed.

Lemma popcount_set blocks s total j :
  0 <= j < total -> unit_bit blocks s j = Some false ->
  popcount (with_unit true blocks s j) s total = popcount blocks s total + 1.
Proof.
  intros Hj Hclear. unfold popcount.
  rewrite (count_flip (unit_is_set blocks s) (unit_is_set (with_unit true blocks s j) s)
             (seqZ 0 total) j).
  - lia.
  - apply seqZ_NoDup.
  - apply seqZ_In. lia.
  - intros k Hk Hne. apply seqZ_In in Hk. unfold unit_is_set.
    rewrite with_unit_bits by (lia || eauto).
    destruct (Z.eqb_spec k j); [contradiction | reflexivity].
  - unfold unit_is_set. rewrite Hclear. reflexivity.
  - unfold unit_is_set. rewrite with_unit_bits by (lia || eauto).
    rewrite Z.eqb_refl. reflexivity.
Qed.

Lemma popcount_clear blocks s total j :
  0 <= j < total -> unit_bit blocks s j = Some true ->
  popcount (with_unit false blocks s j) s total = popcount blocks s total - 1.
Proof.
  intros Hj Hset. unfold popcount.
  rewrite (count_flip (unit_is_set (with_unit false blocks s j) s) (unit_is_set blocks s)
             (seqZ 0 total) j).
  - lia.
  - apply seqZ_NoDup.
  - apply seqZ_In. lia.
  - intros k Hk Hne. apply seqZ_In in Hk. unfold unit_is_set.
    rewrite with_unit_bits by (lia || eauto).
    destruct (Z.eqb_spec k j); [contradiction | reflexivity].
  - unfold unit_is_set. rewrite with_unit_bits by (lia || eauto).
    rewrite Z.eqb_refl. reflexivity.
  - unfold unit_is_set. rewrite Hset. reflexivity.
Qed.

(** The lowest clear bit of a bitmap that is not full. *)
Lemma least_false (f : Z -> bool) (n : nat) :
  (forall k, 0 <= k < Z.of_nat n -> f k = true)
  \/ (exists j, 0 <= j < Z.of_nat n /\ f j = false
                /\ forall k, 0 <= k < j -> f k = true).
Proof.
  induction n as [|n [IH|(j & Hj & Hf & Hlt)]].
  - left. intros k Hk. lia.
  - destruct (f (Z.of_nat n)) eqn:E.
    + left. intros k Hk. destruct (Z.eq_dec k (Z.of_nat n)) as [->|]; [assumption|].
      apply IH. lia.
    + right. exists (Z.of_nat n). split; [lia|]. split; [assumption|].
      intros k Hk. apply IH. assumption.
  - right. exists j. split; [lia|]. split; assumption.
Qed.

Lemma first_clear blocks s total :
  (forall i, 0 <= i < total -> is_Some (unit_bit blocks s i)) ->
  popcount blocks s total < total ->
  exists j, 0 <= j < total /\ unit_bit blocks s j = Some false
            /\ forall k, 0 <= k < j -> unit_bit blocks s k = Some true.
Proof.
  intros Hdef Hpop.
  assert (0 <= total) by (pose proof (popcount_bounds blocks s total); lia).
  destruct (least_false (unit_is_set blocks s) (Z.to_nat total)) as [Hall|(j & Hj & Hf & Hlt)].
  - exfalso. unfold popcount in Hpop. rewrite filter_all in Hpop.
    + rewrite length_seqZ in Hpop. lia.
    + intros k Hk. apply seqZ_In in Hk. apply Hall. lia.
  - exists j. split; [lia|]. split.
    + destruct (Hdef j ltac:(lia)) as [[|] Hv]; [|assumption].
      unfold unit_is_set in Hf. rewrite Hv in Hf. discriminate.
    + intros k Hk. specialize (Hlt k Hk). unfold unit_is_set in Hlt.
      destruct (unit_bit blocks s k) as [[|]|]; (reflexivity || discriminate).
Qed.

(** ** The allocator *)

Lemma same_geometry_refl sbi : same_geometry sbi sbi.
Proof. unfold same_geometry. tauto. Qed.

Lemma same_geometry_trans a b c :
  same_geometry a b -> same_geometry b c -> same_geometry a c.
Proof. unfold same_geometry. intuition congruence. Qed.

Lemma same_geometry_set_fd d sbi :
  dev_fault d = dev_fault (fd sbi) -> same_geometry sbi (set_fd d sbi).
Proof. unfold same_geometry. cbn. intuition congruence. Qed.

Lemma same_geometry_assign c v sbi : same_geometry sbi (assign c v sbi).
Proof. unfold same_geometry. destruct c; cbn; tauto. Qed.

Lemma read_block_frame blkno sbi r sbi' :
  numbfs_read_block blkno sbi = (r, sbi') ->
  same_geometry sbi sbi' /\ dev_blocks (fd sbi') = dev_blocks (fd sbi)
  /\ deref FreeInodes sbi' = deref FreeInodes sbi
  /\ deref FreeBlocks sbi' = deref FreeBlocks sbi.
Proof.
  unfold numbfs_read_block, pread.
  destruct (dev_fault (fd sbi) (dev_clock (fd sbi)));
    [|destruct (dev_blocks (fd sbi) !! blkno)];
    intros [= <- <-]; (split; [apply same_geometry_set_fd; reflexivity|]); cbn; auto.
Qed.

Lemma write_block_frame buf blkno sbi r sbi' :
  numbfs_write_block buf blkno sbi = (r, sbi') ->
  same_geometry sbi sbi'
  /\ deref FreeInodes sbi' = deref FreeInodes sbi
  /\ deref FreeBlocks sbi' = deref FreeBlocks sbi.
Proof.
  unfold numbfs_write_block, pwrite.
  destruct (dev_fault (fd sbi) (dev_clock (fd sbi)));
    [|destruct (dev_blocks (fd sbi) !! blkno)];
    intros [= <- <-]; (split; [apply same_geometry_set_fd; reflexivity|]); cbn; auto.
Qed.

Lemma bitmap_scan_frame n : forall i s buf sbi r sbi',
  bitmap_scan n i s buf sbi = (r, sbi') -> same_geometry sbi sbi'.
Proof.
  induction n as [|n IH]; intros i s buf sbi r sbi'; cbn [bitmap_scan].
  - intros [= <- <-]. apply same_geometry_refl.
  - unfold bind at 1.
    destruct ((if Z.rem i NUMBFS_BLOCKS_PER_BLOCK =? 0
               then numbfs_read_block (numbfs_bmap_blk s i) else ret buf) sbi)
      as [r1 sbi1] eqn:E1.
    assert (G1 : same_geometry sbi sbi1).
    { destruct (Z.rem i NUMBFS_BLOCKS_PER_BLOCK =? 0).
      - apply read_block_frame in E1. tauto.
      - injection E1 as <- <-. apply same_geometry_refl. }
    destruct r1 as [buf1| | |]; try (intros [= <- <-]; assumption).
    unfold bind at 1.
    destruct (buf_get buf1 (numbfs_bmap_byte i)) as [b|]; cbn [defined ret undef];
      [|intros [= <- <-]; assumption].
    destruct (negb (bit_is_set b (numbfs_bmap_bit i))).
    + unfold bind.
      destruct (numbfs_write_block _ _ sbi1) as [r2 sbi2] eqn:E2.
      apply write_block_frame in E2 as [G2 _].
      destruct r2; intros [= <- <-]; eapply same_geometry_trans; eassumption.
    + intros E. apply IH in E. eapply same_geometry_trans; eassumption.
Qed.

Lemma numbfs_alloc_frame c sbi r sbi' :
  numbfs_alloc c sbi = (r, sbi') -> same_geometry sbi sbi'.
Proof.
  assert (H : forall s total, numbfs_bitmap_alloc s total c sbi = (r, sbi') ->
                              same_geometry sbi sbi').
  { intros s total. unfold numbfs_bitmap_alloc, bind at 1.
    destruct (bitmap_scan _ _ _ _ sbi) as [r1 sbi1] eqn:E1.
    apply bitmap_scan_frame in E1.
    destruct r1; try (intros [= <- <-]; assumption).
    unfold bind, modify, ret. intros [= <- <-].
    eapply same_geometry_trans; [eassumption | apply same_geometry_assign]. }
  destruct c; unfold numbfs_alloc, numbfs_alloc_inode, numbfs_alloc_block.
  - destruct (free_inodes sbi =? 0); [intros [= <- <-]; apply same_geometry_refl | apply H].
  - destruct (free_blocks sbi =? 0); [intros [= <- <-]; apply same_geometry_refl | apply H].
Qed.

(** On a medium without faults the allocator takes the lowest clear bit. *)
Lemma numbfs_bitmap_alloc_finds s total c sbi j :
  no_faults (fd sbi) ->
  0 <= j < total ->
  (forall k, 0 <= k < j -> unit_bit (dev_blocks (fd sbi)) s k = Some true) ->
  unit_bit (dev_blocks (fd sbi)) s j = Some false ->
  exists clk,
    numbfs_bitmap_alloc s total c sbi
    = (Ok (Some j),
       assign c (deref c sbi - 1)
              (set_fd (mkdev (with_unit true (dev_blocks (fd sbi)) s j) clk
                             (dev_fault (fd sbi))) sbi)).
Proof.
  intros Hnf Hj Hset Hclear.
  destruct (bitmap_scan_finds (Z.to_nat total) 0 [] sbi s j) as (blk & b & clk & Hblk & Hb & Hscan);
    try assumption; try lia.
  { intros H. exfalso. apply H. reflexivity. }
  exists clk. unfold numbfs_bitmap_alloc, bind at 1. rewrite Hscan.
  unfold bind, modify, ret, with_unit. rewrite Hblk, Hb.
  destruct c; reflexivity.
Qed.

Lemma numbfs_alloc_finds c sbi j :
  no_faults (fd sbi) ->
  deref c sbi <> 0 ->
  0 <= j < region_total c sbi ->
  (forall k, 0 <= k < j ->
     unit_bit (dev_blocks (fd sbi)) (region_start c sbi) k = Some true) ->
  unit_bit (dev_blocks (fd sbi)) (region_start c sbi) j = Some false ->
  exists clk,
    numbfs_alloc c sbi
    = (Ok (Some j),
       assign c (deref c sbi - 1)
              (set_fd (mkdev (with_unit true (dev_blocks (fd sbi)) (region_start c sbi) j)
                             clk (dev_fault (fd sbi))) sbi)).
Proof.
  intros Hnf Hfree Hj Hset Hclear.
  destruct c; cbn [numbfs_alloc deref region_total region_start] in *.
  - unfold numbfs_alloc_inode.
    destruct (Z.eqb_spec (free_inodes sbi) 0); [contradiction|].
    apply numbfs_bitmap_alloc_finds; assumption.
  - unfold numbfs_alloc_block.
    destruct (Z.eqb_spec (free_blocks sbi) 0); [contradiction|].
    apply numbfs_bitmap_alloc_finds; assumption.
Qed.

(** On a medium without faults a free clears the bit of a unit that is in
    use, and stops on one that is not. *)
Lemma numbfs_free_clears c sbi i :
  no_faults (fd sbi) ->
  0 <= i < region_total c sbi ->
  unit_bit (dev_blocks (fd sbi)) (region_start c sbi) i = Some true ->
  exists clk,
    numbfs_free c i sbi
    = (Ok tt,
       assign c (deref c sbi + 1)
              (set_fd (mkdev (with_unit false (dev_blocks (fd sbi)) (region_start c sbi) i)
                             clk (dev_fault (fd sbi))) sbi)).
Proof.
  intros Hnf Hi Hset.
  destruct (unit_bit_inv _ _ _ _ (proj1 Hi) Hset) as (blk & b & Hblk & Hb & Hbit).
  destruct (unit_coords i (proj1 Hi)) as (_ & _ & _ & Hbitr).
  assert (Hrun : forall s, s = region_start c sbi ->
    numbfs_bitmap_free s i c sbi
    = (Ok tt, assign c (deref c sbi + 1)
                (set_fd (mkdev (with_unit false (dev_blocks (fd sbi)) s i)
                               (S (S (dev_clock (fd sbi)))) (dev_fault (fd sbi))) sbi))).
  { intros s ->. unfold numbfs_bitmap_free, bind at 1.
    rewrite (read_block_ok _ _ blk) by (apply Hnf || assumption).
    unfold bind at 1.
    destruct (Z.ltb_spec (numbfs_bmap_bit i) 0); [lia|].
    rewrite Hb. cbn [defined ret]. unfold bind at 1. rewrite Hbit. cbn [negb ret].
    unfold bind at 1, attempt.
    rewrite write_block_ok by (first [apply Hnf | cbn; rewrite Hblk; eauto]).
    unfold bind, modify, ret, with_unit, dev_put. cbn [fd set_fd dev_blocks dev_clock dev_tick dev_fault].
    rewrite Hblk, Hb. destruct c; reflexivity. }
  exists (S (S (dev_clock (fd sbi)))).
  destruct c; cbn [numbfs_free region_total region_start] in *.
  - unfold numbfs_free_inode.
    destruct (Z.geb_spec i (total_inodes sbi)); [lia|]. apply Hrun. reflexivity.
  - unfold numbfs_free_block.
    destruct (Z.geb_spec i (data_blocks sbi)); [lia|]. apply Hrun. reflexivity.
Qed.

(** ** Allocations in a row *)

Lemma fd_assign c v sbi : fd (assign c v sbi) = fd sbi.
Proof. destruct c; reflexivity. Qed.

Lemma region_start_assign c c' v sbi :
  region_start c (assign c' v sbi) = region_start c sbi.
Proof. destruct c, c'; reflexivity. Qed.

Lemma region_total_assign c c' v sbi :
  region_total c (assign c' v sbi) = region_total c sbi.
Proof. destruct c, c'; reflexivity. Qed.

Lemma region_start_set_fd c d sbi : region_start c (set_fd d sbi) = region_start c sbi.
Proof. destruct c; reflexivity. Qed.

Lemma region_total_set_fd c d sbi : region_total c (set_fd d sbi) = region_total c sbi.
Proof. destruct c; reflexivity. Qed.

Lemma deref_assign_same c v sbi : deref c (assign c v sbi) = v.
Proof. destruct c; reflexivity. Qed.

Lemma deref_assign_other c c' v sbi : c <> c' -> deref c (assign c' v sbi) = deref c sbi.
Proof. destruct c, c'; (reflexivity || contradiction). Qed.

Lemma deref_set_fd c d sbi : deref c (set_fd d sbi) = deref c sbi.
Proof. destruct c; reflexivity. Qed.



(** ** A laid-out image *)

Lemma bitmap_blk_in_zone s total i :
  0 <= i < total -> s <= numbfs_bmap_blk s i < s + bitmap_blocks total.
Proof.
  unfold numbfs_bmap_blk, bitmap_blocks, DIV_ROUND_UP.
  change NUMBFS_BLOCKS_PER_BLOCK with 4096. change BITS_PER_BYTE with 8.
  change BYTES_PER_BLOCK with 512. intros Hi.
  Z.quot_rem_to_equations. lia.
Qed.

Lemma bitmap_blocks_nonneg total : 0 <= total -> 0 <= bitmap_blocks total.
Proof.
  unfold bitmap_blocks, DIV_ROUND_UP. change BITS_PER_BYTE with 8.
  change BYTES_PER_BLOCK with 512. intros H. Z.quot_rem_to_equations. lia.
Qed.

Lemma inode_zone_nonneg total : 0 <= total -> 0 <= DIV_ROUND_UP (total * 64) BYTES_PER_BLOCK.
Proof.
  unfold DIV_ROUND_UP. change BYTES_PER_BLOCK with 512. intros H.
  Z.quot_rem_to_equations. lia.
Qed.

Lemma blocks_present_lookup blocks lo hi b :
  blocks_present blocks lo hi = true -> lo <= b < hi ->
  exists buf, blocks !! b = Some buf /\ Z.of_nat (length buf) = BYTES_PER_BLOCK.
Proof.
  unfold blocks_present. rewrite forallb_forall. intros H Hb.
  specialize (H b). rewrite seqZ_In in H. specialize (H ltac:(lia)).
  destruct (blocks !! b) as [buf|]; [|discriminate].
  exists buf. split; [reflexivity | apply Z.eqb_eq; assumption].
Qed.

Lemma blocks_present_keep blocks blocks' lo hi :
  (forall b buf, blocks !! b = Some buf ->
     exists buf', blocks' !! b = Some buf' /\ length buf' = length buf) ->
  blocks_present blocks lo hi = true -> blocks_present blocks' lo hi = true.
Proof.
  unfold blocks_present. rewrite !forallb_forall. intros Hkeep H b Hb.
  specialize (H b Hb). destruct (blocks !! b) as [buf|] eqn:E; [|discriminate].
  destruct (Hkeep b buf E) as (buf' & -> & ->). assumption.
Qed.

Lemma zones_ordered_inv sbi :
  zones_ordered sbi = true ->
  0 <= total_inodes sbi /\ 0 <= data_blocks sbi /\ 0 <= ibitmap_start sbi
  /\ ibitmap_start sbi + bitmap_blocks (total_inodes sbi) <= inode_start sbi
  /\ inode_start sbi + DIV_ROUND_UP (total_inodes sbi * 64) BYTES_PER_BLOCK
     <= bbitmap_start sbi
  /\ bbitmap_start sbi + bitmap_blocks (data_blocks sbi) <= data_start sbi.
Proof.
  unfold zones_ordered. rewrite !andb_true_iff, !Z.leb_le. tauto.
Qed.

Lemma zones_ordered_same sbi sbi' :
  same_geometry sbi sbi' -> zones_ordered sbi' = zones_ordered sbi.
Proof.
  unfold same_geometry, zones_ordered.
  intros (_ & -> & -> & -> & -> & -> & -> & _). reflexivity.
Qed.

Lemma region_in_image c sbi i :
  zones_ordered sbi = true -> 0 <= i < region_total c sbi ->
  ibitmap_start sbi <= numbfs_bmap_blk (region_start c sbi) i
                    < data_start sbi + data_blocks sbi.
Proof.
  intros Hz Hi. apply zones_ordered_inv in Hz as (Hti & Hdb & Hib & H1 & H2 & H3).
  pose proof (bitmap_blk_in_zone (region_start c sbi) _ _ Hi).
  pose proof (bitmap_blocks_nonneg _ Hti). pose proof (bitmap_blocks_nonneg _ Hdb).
  pose proof (inode_zone_nonneg _ Hti).
  destruct c; cbn [region_start region_total] in *; lia.
Qed.

Lemma image_units_defined c sbi i :
  image_ok sbi = true -> 0 <= i < region_total c sbi ->
  is_Some (unit_bit (dev_blocks (fd sbi)) (region_start c sbi) i).
Proof.
  unfold image_ok. rewrite andb_true_iff. intros [Hz Hp] Hi.
  destruct (blocks_present_lookup _ _ _ _ Hp (region_in_image c sbi i Hz Hi))
    as (buf & Hbuf & Hlen).
  destruct (unit_coords i (proj1 Hi)) as (_ & _ & Hbyte & _).
  unfold unit_bit. rewrite Hbuf, buf_get_lookup by lia.
  destruct (lookup_lt_is_Some_2 buf (Z.to_nat (numbfs_bmap_byte i))) as [b ->]; [lia | eauto].
Qed.

Lemma regions_disjoint c c' sbi j k :
  zones_ordered sbi = true -> c <> c' ->
  0 <= j < region_total c sbi -> 0 <= k < region_total c' sbi ->
  numbfs_bmap_blk (region_start c' sbi) k <> numbfs_bmap_blk (region_start c sbi) j.
Proof.
  intros Hz Hc Hj Hk. apply zones_ordered_inv in Hz as (Hti & Hdb & Hib & H1 & H2 & H3).
  pose proof (bitmap_blk_in_zone (region_start c sbi) _ _ Hj).
  pose proof (bitmap_blk_in_zone (region_start c' sbi) _ _ Hk).
  pose proof (inode_zone_nonneg _ Hti).
  destruct c, c'; try contradiction; cbn [region_start region_total] in *; lia.
Qed.

(** ** The counters and the bitmaps, without faults *)

(** The state after the bit of unit [j] of region [c] went to [v] and the
    counter followed. *)
Lemma flip_unit_keeps c v sbi j clk :
  image_ok sbi = true -> bitmap_consistent sbi ->
  0 <= j < region_total c sbi ->
  unit_bit (dev_blocks (fd sbi)) (region_start c sbi) j = Some (negb v) ->
  let sbi' := assign c (deref c sbi + (if v then -1 else 1))
                (set_fd (mkdev (with_unit v (dev_blocks (fd sbi)) (region_start c sbi) j)
                               clk (dev_fault (fd sbi))) sbi) in
  image_ok sbi' = true /\ bitmap_consistent sbi'.
Proof.
  intros Himg Hcons Hj Hbit sbi'.
  assert (Hfd : fd sbi' = mkdev (with_unit v (dev_blocks (fd sbi)) (region_start c sbi) j)
                                clk (dev_fault (fd sbi))).
  { unfold sbi'. rewrite fd_assign. reflexivity. }
  assert (Hgeo : same_geometry sbi sbi').
  { eapply same_geometry_trans; [|apply same_geometry_assign].
    apply same_geometry_set_fd. reflexivity. }
  assert (Hstart : forall c0, region_start c0 sbi' = region_start c0 sbi).
  { intros c0. unfold sbi'. rewrite region_start_assign, region_start_set_fd. reflexivity. }
  assert (Htotal : forall c0, region_total c0 sbi' = region_total c0 sbi).
  { intros c0. unfold sbi'. rewrite region_total_assign, region_total_set_fd. reflexivity. }
  pose proof Himg as Himg0. unfold image_ok in Himg. apply andb_true_iff in Himg as [Hz Hp].
  split.
  - unfold image_ok. rewrite (zones_ordered_same sbi sbi' Hgeo), Hz. cbn [andb].
    destruct Hgeo as (_ & _ & <- & <- & _ & _ & <- & _). rewrite Hfd. cbn [dev_blocks].
    eapply blocks_present_keep; [|exact Hp].
    intros b buf Hb. apply with_unit_length. assumption.
  - assert (Hsame : counter_consistent c sbi').
    { unfold counter_consistent. rewrite Hstart, Htotal, Hfd. cbn [dev_blocks].
      unfold sbi'. rewrite deref_assign_same.
      destruct Hcons as [Hci Hcb].
      assert (Hc : counter_consistent c sbi) by (destruct c; assumption).
      unfold counter_consistent in Hc.
      destruct v; cbn [negb] in Hbit.
      - rewrite popcount_set by assumption. lia.
      - rewrite popcount_clear by assumption. lia. }
    assert (Hother : forall c', c' <> c -> counter_consistent c' sbi').
    { intros c' Hne. unfold counter_consistent. rewrite Hstart, Htotal, Hfd. cbn [dev_blocks].
      unfold sbi'. rewrite deref_assign_other, deref_set_fd by assumption.
      rewrite (popcount_same (dev_blocks (fd sbi))).
      - destruct Hcons. destruct c'; assumption.
      - intros k Hk. unfold unit_bit. rewrite with_unit_other; [reflexivity|].
        apply regions_disjoint; (assumption || congruence). }
    destruct c; split; (assumption || (apply Hother; discriminate)).
Qed.

Lemma flip_unit_consistent c v sbi j clk :
  image_ok sbi = true -> bitmap_consistent sbi -> no_faults (fd sbi) ->
  0 <= j < region_total c sbi ->
  unit_bit (dev_blocks (fd sbi)) (region_start c sbi) j = Some (negb v) ->
  let sbi' := assign c (deref c sbi + (if v then -1 else 1))
                (set_fd (mkdev (with_unit v (dev_blocks (fd sbi)) (region_start c sbi) j)
                               clk (dev_fault (fd sbi))) sbi) in
  image_ok sbi' = true /\ bitmap_consistent sbi' /\ no_faults (fd sbi').
Proof.
  intros Himg Hcons Hnf Hj Hbit sbi'.
  destruct (flip_unit_keeps c v sbi j clk Himg Hcons Hj Hbit) as [Himg' Hcons'].
  split; [assumption|]. split; [assumption|].
  intros n. unfold sbi'. rewrite fd_assign. apply Hnf.
Qed.

Lemma consistent_free_count c sbi :
  image_ok sbi = true -> bitmap_consistent sbi -> deref c sbi <> 0 ->
  popcount (dev_blocks (fd sbi)) (region_start c sbi) (region_total c sbi)
  < region_total c sbi.
Proof.
  intros Himg [Hi Hb] Hne.
  assert (Hc : counter_consistent c sbi) by (destruct c; assumption).
  unfold counter_consistent in Hc.
  unfold image_ok in Himg. apply andb_true_iff in Himg as [Hz _].
  apply zones_ordered_inv in Hz as (Hti & Hdb & _).
  pose proof (popcount_bounds (dev_blocks (fd sbi)) (region_start c sbi) (region_total c sbi)).
  assert (0 <= region_total c sbi) by (destruct c; assumption).
  lia.
Qed.

(** A successful allocation keeps the counters equal to the bitmaps. *)
Lemma alloc_keeps_consistent c sbi r sbi' :
  image_ok sbi = true -> bitmap_consistent sbi -> no_faults (fd sbi) ->
  numbfs_alloc c sbi = (Ok r, sbi') ->
  image_ok sbi' = true /\ bitmap_consistent sbi' /\ no_faults (fd sbi').
Proof.
  intros Himg Hcons Hnf Hrun.
  destruct (Z.eq_dec (deref c sbi) 0) as [Hz|Hnz].
  { exfalso. destruct c; cbn [numbfs_alloc deref] in *;
      unfold numbfs_alloc_inode, numbfs_alloc_block in Hrun; rewrite Hz in Hrun;
      discriminate. }
  destruct (first_clear (dev_blocks (fd sbi)) (region_start c sbi) (region_total c sbi))
    as (j & Hj & Hclear & Hset).
  { intros i Hi. apply image_units_defined; assumption. }
  { apply consistent_free_count; assumption. }
  destruct (numbfs_alloc_finds c sbi j Hnf Hnz Hj Hset Hclear) as (clk & Halloc).
  rewrite Halloc in Hrun. injection Hrun as _ <-.
  apply (flip_unit_consistent c true sbi j clk); assumption.
Qed.

(** A successful release of a unit keeps them equal as well, when no
    transfer fails. *)
Lemma free_keeps_consistent c i sbi sbi' :
  image_ok sbi = true -> bitmap_consistent sbi -> no_faults (fd sbi) ->
  0 <= i ->
  numbfs_free c i sbi = (Ok tt, sbi') ->
  image_ok sbi' = true /\ bitmap_consistent sbi' /\ no_faults (fd sbi').
Proof.
  intros Himg Hcons Hnf Hi Hrun.
  destruct (Z_lt_le_dec i (region_total c sbi)) as [Hlt|Hge].
  2:{ exfalso. destruct c; cbn [numbfs_free region_total] in *;
        unfold numbfs_free_inode, numbfs_free_block in Hrun.
      - destruct (Z.geb_spec i (total_inodes sbi)); [discriminate | lia].
      - destruct (Z.geb_spec i (data_blocks sbi)); [discriminate | lia]. }
  destruct (image_units_defined c sbi i Himg (conj Hi Hlt)) as [[|] Hbit].
  - destruct (numbfs_free_clears c sbi i Hnf (conj Hi Hlt) Hbit) as (clk & Hfree).
    rewrite Hfree in Hrun. injection Hrun as <-.
    apply (flip_unit_consistent c false sbi i clk); try assumption. lia.
  - (* the unit is not in use: BUG_ON *)
    exfalso.
    destruct (unit_bit_inv _ _ _ _ Hi Hbit) as (blk & b & Hblk & Hb & Hb0).
    destruct (unit_coords i Hi) as (_ & _ & _ & Hbitr).
    assert (Hbug : numbfs_bitmap_free (region_start c sbi) i c sbi
                   = (Bug, set_fd (dev_tick (fd sbi)) sbi)).
    { unfold numbfs_bitmap_free, bind at 1.
      rewrite (read_block_ok _ _ blk) by (apply Hnf || assumption).
      unfold bind at 1. destruct (Z.ltb_spec (numbfs_bmap_bit i) 0); [lia|].
      rewrite Hb. cbn [defined ret]. unfold bind at 1. rewrite Hb0. reflexivity. }
    destruct c; cbn [numbfs_free region_total region_start] in *;
      unfold numbfs_free_inode, numbfs_free_block in Hrun.
    + destruct (Z.geb_spec i (total_inodes sbi)); [lia|]. congruence.
    + destruct (Z.geb_spec i (data_blocks sbi)); [lia|]. congruence.
Qed.

(** Any run of allocations and releases that succeed, in any order. *)
Lemma run_keeps_consistent ops : forall sbi sbi',
  image_ok sbi = true -> bitmap_consistent sbi -> no_faults (fd sbi) ->
  frees_nonneg ops ->
  run_ops ops sbi = (Ok tt, sbi') ->
  image_ok sbi' = true /\ bitmap_consistent sbi' /\ no_faults (fd sbi').
Proof.
  induction ops as [|op ops IH]; intros sbi sbi' Himg Hcons Hnf Hops Hrun.
  - injection Hrun as <-. auto.
  - cbn [run_ops] in Hrun. unfold bind at 1 in Hrun.
    destruct (run_op op sbi) as [r sbi1] eqn:Hop.
    destruct r as [[]| | |]; try discriminate.
    assert (H1 : image_ok sbi1 = true /\ bitmap_consistent sbi1 /\ no_faults (fd sbi1)).
    { destruct op as [c|c i]; cbn [run_op] in Hop.
      - unfold bind at 1 in Hop. destruct (numbfs_alloc c sbi) as [r sbi2] eqn:Ha.
        destruct r; try discriminate. injection Hop as <-.
        eapply alloc_keeps_consistent; eassumption.
      - eapply free_keeps_consistent; try eassumption.
        apply (Hops c i). left. reflexivity. }
    destruct H1 as (Himg1 & Hcons1 & Hnf1).
    apply (IH sbi1 sbi'); try assumption.
    intros c i Hin. apply (Hops c i). right. assumption.
Qed.

(** ** Stores into a buffer and loads from it *)

Lemma length_store off bs (buf : block) :
  (off + length bs <= length buf)%nat -> length (store off bs buf) = length buf.
Proof.
  intros H. unfold store. rewrite !length_app, length_take, length_drop. lia.
Qed.

Lemma load_store_same off n bs (buf : block) :
  length bs = n -> (off + n <= length buf)%nat ->
  load off n (store off bs buf) = bs.
Proof.
  intros Hn H. unfold load, store.
  rewrite drop_app_length' by (rewrite length_take; lia).
  rewrite take_app_length' by lia. reflexivity.
Qed.

Lemma load_store_other off n off' bs (buf : block) :
  (off + n <= off' \/ off' + length bs <= off)%nat ->
  (off' + length bs <= length buf)%nat ->
  load off n (store off' bs buf) = load off n buf.
Proof.
  intros Hd H. unfold load, store. destruct Hd as [Hd|Hd].
  - rewrite drop_app_le by (rewrite length_take; lia).
    rewrite take_app_le by (rewrite length_drop, length_take; lia).
    rewrite skipn_firstn_comm, take_take. f_equal. lia.
  - rewrite app_assoc, drop_app_ge by (rewrite length_app, length_take; lia).
    rewrite length_app, length_take, drop_drop. f_equal. f_equal. lia.
Qed.

Lemma length_cpu_to_le16 x : length (cpu_to_le16 x) = 2%nat.
Proof. apply length_le_split. Qed.

Lemma length_cpu_to_le32 x : length (cpu_to_le32 x) = 4%nat.
Proof. apply length_le_split. Qed.

Lemma le16_roundtrip x : is_u16 x -> le16_to_cpu (cpu_to_le16 x) = x.
Proof.
  unfold is_u16, le16_to_cpu, cpu_to_le16. intros H.
  rewrite le_combine_split. apply Z.mod_small. exact H.
Qed.

Lemma le32_roundtrip x : is_int x -> to_int (le32_to_cpu (cpu_to_le32 x)) = x.
Proof.
  unfold is_int, to_int, le32_to_cpu, cpu_to_le32. intros H.
  rewrite le_combine_split. change (2 ^ (Z.of_nat 4 * 8)) with (2 ^ 32).
  rewrite Z.mod_mod by lia.
  change (2 ^ 32) with 4294967296 in *. change (2 ^ 31) with 2147483648 in *.
  destruct (Z.ltb_spec (x mod 4294967296) 2147483648) as [Hlt|Hge];
    Z.div_mod_to_equations; lia.
Qed.

(** The lengths of the buffers under the stores of a goal, innermost first,
    and the loads through the stores. *)
Ltac store_side meta :=
  rewrite ?length_cpu_to_le16, ?length_cpu_to_le32; cbn [length];
  first [ lia
        | match goal with
          | E : length ?x = length meta |- context [length ?x] => rewrite E; lia
          end ].

Ltac know_lengths meta :=
  repeat match goal with
  | |- context [store ?o ?b ?x] =>
      lazymatch goal with
      | _ : length (store o b x) = length meta |- _ => fail
      | _ => idtac
      end;
      let L := fresh "L" in
      assert (L : length (store o b x) = length meta)
        by (rewrite (length_store o b x);
            [ first [reflexivity | assumption] | store_side meta ])
  end.

Ltac load_through meta :=
  repeat first
    [ rewrite load_store_same
        by first [apply length_cpu_to_le16 | apply length_cpu_to_le32 | store_side meta]
    | rewrite load_store_other by store_side meta ].

Lemma length_store_inode i o (meta : block) :
  (o + 64 <= length meta)%nat -> length (store_inode i o meta) = length meta.
Proof.
  intros H. unfold store_inode, store_data, I_INO, I_MODE, I_NLINK, I_UID, I_GID, I_SIZE, I_DATA.
  change (Z.to_nat NUMBFS_NUM_DATA_ENTRY) with 10%nat. cbn [seq fold_left].
  know_lengths meta. assumption.
Qed.

Lemma load_store_inode i o (meta : block) :
  inode_fits i -> (o + 64 <= length meta)%nat ->
  load_inode (store_inode i o meta) o i = i.
Proof.
  intros (Hmode & Hnlink & Huid & Hgid & Hsize & Hlen & Hdata) H.
  destruct i as [n m nl u g sz d]. cbn [mode nlink uid gid size data nid] in *.
  change (Z.to_nat NUMBFS_NUM_DATA_ENTRY) with 10%nat in Hlen.
  do 10 (destruct d as [|? d]; [discriminate|]). destruct d; [|discriminate].
  repeat match goal with H : Forall _ (_ :: _) |- _ => apply Forall_cons in H as [? H] end.
  unfold load_inode, store_inode, store_data, I_INO, I_MODE, I_NLINK, I_UID, I_GID, I_SIZE, I_DATA.
  change (Z.to_nat NUMBFS_NUM_DATA_ENTRY) with 10%nat.
  cbn [seq fold_left List.map nth mode nlink uid gid size data nid].
  know_lengths meta.
  load_through meta.
  rewrite !le16_roundtrip, !le32_roundtrip by assumption.
  reflexivity.
Qed.

(** ** Steps of the monad *)

Lemma bind_ok {S A B : Type} (m : M S A) (k : A -> M S B) s b s' :
  bind m k s = (Ok b, s') ->
  exists a s1, m s = (Ok a, s1) /\ k a s1 = (Ok b, s').
Proof.
  unfold bind. destruct (m s) as [[a| | |] s1]; try discriminate. eauto.
Qed.

Lemma bind_step {S A B : Type} (m : M S A) (k : A -> M S B) s a s1 :
  m s = (Ok a, s1) -> bind m k s = k a s1.
Proof. intros H. unfold bind. rewrite H. reflexivity. Qed.

Lemma on_sbi_inv {A : Type} (m : M numbfs_superblock_info A) i s r st' :
  on_sbi m (i, s) = (r, st') -> exists s', m s = (r, s') /\ st' = (i, s').
Proof.
  unfold on_sbi. cbn [fst snd]. destruct (m s) as [r0 s0]. intros [= <- <-]. eauto.
Qed.

Lemma on_sbi_step {A : Type} (m : M numbfs_superblock_info A) i s r s' :
  m s = (r, s') -> on_sbi m (i, s) = (r, (i, s')).
Proof. intros H. unfold on_sbi. cbn [fst snd]. rewrite H. reflexivity. Qed.

Lemma defined_inv {S A : Type} (o : option A) (s : S) a s' :
  defined o s = (Ok a, s') -> o = Some a /\ s' = s.
Proof. destruct o; cbn; [intros [= <- <-]; auto | discriminate]. Qed.

(** ** Buffers *)

Lemma memcpy_inv dst doff src soff len out :
  memcpy dst doff src soff len = Some out ->
  0 <= doff /\ 0 <= soff /\ 0 <= len
  /\ doff + len <= Z.of_nat (length dst) /\ soff + len <= Z.of_nat (length src)
  /\ out = take (Z.to_nat doff) dst
           ++ take (Z.to_nat len) (drop (Z.to_nat soff) src)
           ++ drop (Z.to_nat (doff + len)) dst.
Proof.
  unfold memcpy.
  destruct (Z.leb_spec 0 doff); [|discriminate].
  destruct (Z.leb_spec 0 soff); [|discriminate].
  destruct (Z.leb_spec 0 len); [|discriminate].
  destruct (Z.leb_spec (doff + len) (Z.of_nat (length dst))); [|discriminate].
  destruct (Z.leb_spec (soff + len) (Z.of_nat (length src))); [|discriminate].
  cbn. intros [= <-]. repeat split; assumption.
Qed.

Lemma memcpy_ok dst doff src soff len :
  0 <= doff -> 0 <= soff -> 0 <= len ->
  doff + len <= Z.of_nat (length dst) -> soff + len <= Z.of_nat (length src) ->
  memcpy dst doff src soff len
  = Some (take (Z.to_nat doff) dst
          ++ take (Z.to_nat len) (drop (Z.to_nat soff) src)
          ++ drop (Z.to_nat (doff + len)) dst).
Proof.
  intros. unfold memcpy.
  destruct (Z.leb_spec 0 doff); [|lia].
  destruct (Z.leb_spec 0 soff); [|lia].
  destruct (Z.leb_spec 0 len); [|lia].
  destruct (Z.leb_spec (doff + len) (Z.of_nat (length dst))); [|lia].
  destruct (Z.leb_spec (soff + len) (Z.of_nat (length src))); [|lia].
  reflexivity.
Qed.

Lemma memcpy_into_block blk off buf len out :
  memcpy blk off buf 0 len = Some out ->
  out = overwrite blk off buf len /\ length out = length blk.
Proof.
  intros H. apply memcpy_inv in H as (H1 & _ & H3 & H4 & H5 & ->).
  unfold overwrite. change (Z.to_nat 0) with 0%nat. rewrite drop_0.
  split; [reflexivity|].
  rewrite !length_app, !length_take, length_drop. lia.
Qed.

(** Reading back what [overwrite] put into a block. *)
Lemma memcpy_back blk off buf len rbuf :
  0 <= off -> 0 <= len ->
  off + len <= Z.of_nat (length blk) -> len <= Z.of_nat (length buf) ->
  len <= Z.of_nat (length rbuf) ->
  memcpy rbuf 0 (overwrite blk off buf len) off len
  = Some (take (Z.to_nat len) buf ++ drop (Z.to_nat len) rbuf).
Proof.
  intros Hoff Hlen Hblk Hbuf Hrbuf.
  assert (Hl : length (overwrite blk off buf len) = length blk).
  { unfold overwrite. rewrite !length_app, !length_take, length_drop. lia. }
  rewrite memcpy_ok by lia.
  change (Z.to_nat 0) with 0%nat. rewrite take_0. cbn [app].
  replace (0 + len) with len by lia. f_equal. f_equal.
  unfold overwrite.
  rewrite drop_app_length' by (rewrite length_take; lia).
  rewrite take_app_length' by (rewrite length_take; lia).
  reflexivity.
Qed.

(** ** The inode record on disk *)

Lemma inode_slot_bound n : (inode_slot n + 64 <= 512)%nat.
Proof.
  unfold inode_slot. change NUMBFS_NODES_PER_BLOCK with 8.
  pose proof (Z.mod_pos_bound n 8 ltac:(lia)). lia.
Qed.

Lemma get_inode_ok ino sbi meta :
  dev_fault (fd sbi) (dev_clock (fd sbi)) = false ->
  dev_blocks (fd sbi) !! numbfs_inode_blk sbi (nid ino) = Some meta ->
  numbfs_get_inode (ino, sbi)
  = (Ok tt, (load_inode meta (inode_slot (nid ino)) ino,
             set_fd (dev_tick (fd sbi)) sbi)).
Proof.
  intros Hf Hb. unfold numbfs_get_inode.
  unfold bind at 1, get_sbi. cbn [snd]. unfold bind at 1, get_inode. cbn [fst].
  rewrite (bind_step _ _ _ meta (ino, set_fd (dev_tick (fd sbi)) sbi)).
  - reflexivity.
  - apply on_sbi_step, read_block_ok; assumption.
Qed.


Lemma dump_inode_inv ino sbi u st' :
  numbfs_dump_inode (ino, sbi) = (Ok u, st') ->
  exists meta,
    dev_blocks (fd sbi) !! numbfs_inode_blk sbi (nid ino) = Some meta
    /\ st' = (ino, set_fd (dev_put (numbfs_inode_blk sbi (nid ino))
                                   (store_inode ino (inode_slot (nid ino)) meta)
                                   (dev_tick (fd sbi))) sbi).
Proof.
  unfold numbfs_dump_inode.
  unfold bind at 1, get_sbi. cbn [snd]. unfold bind at 1, get_inode. cbn [fst].
  intros H. apply bind_ok in H as (meta & st1 & Hread & H).
  apply on_sbi_inv in Hread as (sbi1 & Hread & ->).
  apply read_block_inv in Hread as (_ & Hmeta & ->).
  exists meta. split; [assumption|].
  unfold bind, attempt in H.
  destruct (on_sbi (numbfs_write_block _ _) _) as [r st2] eqn:Hw.
  apply on_sbi_inv in Hw as (sbi2 & Hw & ->).
  destruct r as [[]| | |]; try discriminate.
  apply write_block_inv in Hw as (_ & _ & ->).
  unfold ret in H. injection H as _ <-. reflexivity.
Qed.

(** ** The address translation *)

Lemma data_get_inv idx ino sbi d st' :
  data_get idx (ino, sbi) = (Ok d, st') ->
  0 <= idx /\ data ino !! Z.to_nat idx = Some d /\ st' = (ino, sbi).
Proof.
  unfold data_get, bind, get_inode. cbn [fst].
  destruct (Z.ltb_spec idx 0) as [|Hge]; [discriminate|].
  intros H. apply defined_inv in H as [H ->]. auto.
Qed.

Lemma data_get_ok idx ino sbi d :
  0 <= idx -> data ino !! Z.to_nat idx = Some d ->
  data_get idx (ino, sbi) = (Ok d, (ino, sbi)).
Proof.
  intros Hi Hd. unfold data_get, bind, get_inode. cbn [fst].
  destruct (Z.ltb_spec idx 0); [lia|]. rewrite Hd. reflexivity.
Qed.

Lemma blkaddr_lookup_ok pos ino sbi d :
  0 <= pos -> pos / BYTES_PER_BLOCK < NUMBFS_NUM_DATA_ENTRY ->
  data ino !! Z.to_nat (pos / BYTES_PER_BLOCK) = Some d ->
  numbfs_inode_blkaddr pos false false (ino, sbi) = (Ok d, (ino, sbi)).
Proof.
  intros Hpos Hidx Hd. unfold numbfs_inode_blkaddr.
  rewrite quot_block_nonneg by assumption.
  destruct (Z.geb_spec (pos / BYTES_PER_BLOCK) NUMBFS_NUM_DATA_ENTRY); [lia|].
  unfold bind at 1, ret.
  apply data_get_ok; [|assumption].
  apply Z.div_pos; [assumption | reflexivity].
Qed.

(** What a translation with allocation has done when it returns a block. *)
Lemma blkaddr_alloc_inv pos ino sbi target ino' sbi' :
  numbfs_inode_blkaddr pos true false (ino, sbi) = (Ok target, (ino', sbi')) ->
  let idx := Z.quot pos BYTES_PER_BLOCK in
  0 <= idx < NUMBFS_NUM_DATA_ENTRY
  /\ data ino' !! Z.to_nat idx = Some target
  /\ same_geometry sbi sbi'
  /\ ino' = set_data (data ino') ino
  /\ ((data ino !! Z.to_nat idx = Some target /\ target <> NUMBFS_HOLE
       /\ ino' = ino /\ sbi' = sbi)
      \/ (data ino !! Z.to_nat idx = Some NUMBFS_HOLE
          /\ dev_blocks (fd sbi') !! numbfs_data_blk sbi' target = Some zero_block)).
Proof.
  intros H idx. unfold numbfs_inode_blkaddr in H. fold idx in H.
  destruct (Z.geb_spec idx NUMBFS_NUM_DATA_ENTRY) as [|Hlt]; [discriminate|].
  apply bind_ok in H as ([] & [ino1 sbi1] & Hfill & Hget).
  apply data_get_inv in Hget as (Hidx & Hlook & Hst).
  injection Hst as <- <-.
  apply bind_ok in Hfill as (d & st0 & Hd & Hfill).
  apply data_get_inv in Hd as (_ & Hd & ->).
  destruct (Z.eqb_spec d NUMBFS_HOLE) as [->|Hne].
  - (* a hole: allocate, zero, record *)
    apply bind_ok in Hfill as (res & stA & Halloc & Hfill).
    apply on_sbi_inv in Halloc as (sbiA & Halloc & ->).
    apply bind_ok in Hfill as (blkno & stA' & Hres & Hfill).
    apply defined_inv in Hres as [-> ->].
    unfold bind at 1, get_sbi in Hfill. cbn [snd] in Hfill.
    apply bind_ok in Hfill as ([] & stB & Hzero & Hset).
    apply on_sbi_inv in Hzero as (sbiB & Hzero & ->).
    apply write_block_inv in Hzero as (_ & _ & ->).
    unfold on_inode, modify in Hset. cbn [fst snd] in Hset. injection Hset as <- <-.
    cbn [data set_data] in Hlook.
    assert (Hlt' : (Z.to_nat idx < length (data ino))%nat)
      by (eapply lookup_lt_Some; eassumption).
    rewrite list_lookup_insert_eq in Hlook by assumption. injection Hlook as <-.
    pose proof (numbfs_alloc_frame FreeBlocks sbi _ _ Halloc) as Hgeo.
    split; [lia|]. split.
    { cbn [data set_data]. apply list_lookup_insert_eq. assumption. }
    split.
    { eapply same_geometry_trans; [exact Hgeo|]. apply same_geometry_set_fd. reflexivity. }
    split; [reflexivity|].
    right. split; [assumption|].
    unfold numbfs_data_blk, dev_put. cbn. apply lookup_insert_eq.
  - injection Hfill as <- <-.
    rewrite Hd in Hlook. injection Hlook as <-.
    split; [lia|]. split; [assumption|]. split; [apply same_geometry_refl|].
    split; [destruct ino; reflexivity|].
    left. auto.
Qed.

(** ** A write, from its success *)

Lemma same_geometry_inode_blk sbi sbi' n :
  same_geometry sbi sbi' -> numbfs_inode_blk sbi' n = numbfs_inode_blk sbi n.
Proof. intros (_ & _ & _ & _ & H & _). unfold numbfs_inode_blk. rewrite H. reflexivity. Qed.

Lemma same_geometry_data_blk sbi sbi' b :
  same_geometry sbi sbi' -> numbfs_data_blk sbi' b = numbfs_data_blk sbi b.
Proof.
  intros (_ & _ & _ & _ & _ & _ & H & _). unfold numbfs_data_blk. rewrite H. reflexivity.
Qed.

Lemma inode_blk_set_fd d sbi n : numbfs_inode_blk (set_fd d sbi) n = numbfs_inode_blk sbi n.
Proof. reflexivity. Qed.

Lemma data_blk_set_fd d sbi b : numbfs_data_blk (set_fd d sbi) b = numbfs_data_blk sbi b.
Proof. reflexivity. Qed.

Lemma pwrite_inode_inv buf offset len ino sbi ino' sbi' :
  numbfs_pwrite_inode buf offset len (ino, sbi) = (Ok tt, (ino', sbi')) ->
  let off := offset mod BYTES_PER_BLOCK in
  let idx := offset / BYTES_PER_BLOCK in
  exists target prior meta,
    0 <= offset /\ idx < NUMBFS_NUM_DATA_ENTRY
    /\ 0 <= len /\ off + len <= BYTES_PER_BLOCK
    /\ len <= Z.of_nat (length buf)
    /\ off + len <= Z.of_nat (length prior)
    /\ 0 <= target
    /\ data ino' !! Z.to_nat idx = Some target
    /\ size ino' = Z.max (size ino) (offset + len)
    /\ nid ino' = nid ino
    /\ same_geometry sbi sbi'
    /\ file_block ino sbi idx = Some prior
    /\ dev_blocks (fd sbi')
       !! numbfs_inode_blk sbi (nid ino) = Some (store_inode ino' (inode_slot (nid ino)) meta)
    /\ (numbfs_inode_blk sbi (nid ino) <> numbfs_data_blk sbi target ->
        dev_blocks (fd sbi') !! numbfs_data_blk sbi target
        = Some (overwrite prior off buf len)).
Proof.
  intros H off idx. unfold numbfs_pwrite_inode in H.
  destruct (Z.gtb_spec (Z.rem offset BYTES_PER_BLOCK + len) BYTES_PER_BLOCK) as [|Hspan];
    [discriminate|].
  unfold bind at 1, on_inode, modify in H. cbn [fst snd] in H.
  apply bind_ok in H as (target & [ino2 sbi2] & Haddr & H).
  destruct (Z.ltb_spec target 0) as [|Htarget]; [discriminate|].
  unfold bind at 1, get_sbi in H. cbn [snd] in H.
  apply bind_ok in H as (tmp0 & st3 & Hread & H).
  apply on_sbi_inv in Hread as (sbi3 & Hread & ->).
  apply read_block_inv in Hread as (_ & Htmp0 & ->).
  apply bind_ok in H as (tmp & st3' & Hcpy & H).
  apply defined_inv in Hcpy as [Hcpy ->].
  apply bind_ok in H as ([] & st4 & Hwrite & Hdump).
  apply on_sbi_inv in Hwrite as (sbi4 & Hwrite & ->).
  apply write_block_inv in Hwrite as (_ & _ & ->).
  apply dump_inode_inv in Hdump as (meta & Hmeta & Hst).
  injection Hst as <- ->.
  apply blkaddr_alloc_inv in Haddr as (Hidx & Hlook & Hgeo & Hino2 & Hcase).
  pose proof (memcpy_inv _ _ _ _ _ _ Hcpy) as (Hoff & _ & Hlen & Hfit & Hbuf & _).
  apply memcpy_into_block in Hcpy as [-> Hlentmp].
  assert (Hpos : 0 <= offset).
  { destruct (Z_lt_le_dec offset 0) as [Hneg|]; [|assumption]. exfalso.
    revert Hoff Hidx. unfold BYTES_PER_BLOCK. Z.quot_rem_to_equations. lia. }
  rewrite rem_block_nonneg in * by assumption.
  rewrite quot_block_nonneg in * by assumption.
  fold off in Hspan, Hoff, Hfit, Hmeta. fold idx in Hidx, Hlook, Hcase.
  assert (Hnid : nid ino' = nid ino) by (rewrite Hino2; reflexivity).
  assert (Hsize : size ino' = Z.max (size ino) (offset + len)) by (rewrite Hino2; reflexivity).
  rewrite Hnid in *.
  rewrite ?inode_blk_set_fd, ?data_blk_set_fd in *.
  rewrite (same_geometry_inode_blk _ _ _ Hgeo) in *.
  rewrite (same_geometry_data_blk _ _ _ Hgeo) in *.
  cbn [fd set_fd dev_blocks dev_put dev_tick] in *.
  exists target, tmp0, meta.
  repeat (split; [first [assumption | lia]|]).
  split.
  { unfold file_block. destruct (Z.ltb_spec idx 0); [lia|].
    destruct Hcase as [(Hd & Hne & -> & ->)|(Hd & Hzero)]; cbn [data set_size] in *.
    - rewrite Hd. destruct (Z.eqb_spec target NUMBFS_HOLE); [contradiction | assumption].
    - rewrite Hd, Z.eqb_refl. congruence. }
  split.
  { apply lookup_insert_eq. }
  intros Hne. rewrite lookup_insert_ne by assumption. apply lookup_insert_eq.
Qed.

(** ** A read of a block that is there *)

Lemma pread_inode_ok rbuf offset len ino sbi target blk :
  0 <= offset -> offset / BYTES_PER_BLOCK < NUMBFS_NUM_DATA_ENTRY ->
  offset mod BYTES_PER_BLOCK + len <= BYTES_PER_BLOCK ->
  data ino !! Z.to_nat (offset / BYTES_PER_BLOCK) = Some target ->
  0 <= target -> offset < size ino ->
  dev_fault (fd sbi) (dev_clock (fd sbi)) = false ->
  dev_blocks (fd sbi) !! numbfs_data_blk sbi target = Some blk ->
  numbfs_pread_inode rbuf offset len (ino, sbi)
  = (match memcpy rbuf 0 blk (offset mod BYTES_PER_BLOCK) len with
     | Some out => Ok out
     | None => Undef
     end, (ino, set_fd (dev_tick (fd sbi)) sbi)).
Proof.
  intros Hpos Hidx Hspan Hlook Htarget Hsize Hfault Hblk.
  unfold numbfs_pread_inode. rewrite rem_block_nonneg by assumption.
  destruct (Z.gtb_spec (offset mod BYTES_PER_BLOCK + len) BYTES_PER_BLOCK); [lia|].
  rewrite (bind_step _ _ _ target (ino, sbi)) by (apply blkaddr_lookup_ok; assumption).
  destruct (Z.ltb_spec target 0); [lia|]. cbn [andb].
  unfold bind at 1, get_inode. cbn [fst].
  destruct (Z.geb_spec offset (size ino)); [lia|].
  destruct (Z.eqb_spec target NUMBFS_HOLE) as [E|_]; [unfold NUMBFS_HOLE in E; lia|].
  cbn [orb]. unfold bind at 1, get_sbi. cbn [snd].
  rewrite (bind_step _ _ _ blk (ino, set_fd (dev_tick (fd sbi)) sbi))
    by (apply on_sbi_step, read_block_ok; assumption).
  destruct (memcpy rbuf 0 blk (offset mod BYTES_PER_BLOCK) len); reflexivity.
Qed.

(** ** A write into a hole, on a medium without faults *)




(** ** The two entries of a new directory *)






(** ** A new directory *)

Lemma inode_blk_in_image sbi n :
  zones_ordered sbi = true -> 0 <= n < total_inodes sbi ->
  inode_start sbi <= numbfs_inode_blk sbi n < bbitmap_start sbi.
Proof.
  intros Hz Hn. apply zones_ordered_inv in Hz as (Hti & Hdb & Hib & H1 & H2 & H3).
  pose proof (bitmap_blocks_nonneg _ Hti).
  revert H2. unfold numbfs_inode_blk, DIV_ROUND_UP.
  change NUMBFS_NODES_PER_BLOCK with 8. change BYTES_PER_BLOCK with 512.
  intros H2. Z.to_euclidean_division_equations. lia.
Qed.


Lemma empty_dir_unfold getuid getgid buf pnid :
  numbfs_empty_dir getuid getgid buf pnid
  = (let* res := numbfs_alloc_inode in
     let* nid := defined res in
     with_inode (fresh_dir_inode getuid getgid nid)
                (numbfs_pwrite_inode (dot_entries nid pnid buf) 0 128) ;;
     ret nid).
Proof. reflexivity. Qed.

(** ** Range errors *)

(** C8.  A byte offset whose block index [pos / BYTES_PER_BLOCK] is 10 or
    more makes [numbfs_inode_blkaddr] without extent addressing return
    [-E2BIG], with the allocation flag set or not; the mirror and the
    superblock info, device included, are what they were: nothing is
    allocated, no pointer is touched and no transfer is made. *)
Theorem blkaddr_range_error (inode : numbfs_inode_info) (sbi : numbfs_superblock_info)
    (pos : Z) (alloc : bool) :
  pos / BYTES_PER_BLOCK >= NUMBFS_NUM_DATA_ENTRY ->
  numbfs_inode_blkaddr pos alloc false (inode, sbi) = (Err E2BIG, (inode, sbi)).
Proof.
  intros H. apply index_out_of_range in H as [_ H].
  unfold numbfs_inode_blkaddr. rewrite H. reflexivity.
Qed.

Lemma blkaddr_range_error_witness :
  5120 / BYTES_PER_BLOCK >= NUMBFS_NUM_DATA_ENTRY
  /\ numbfs_inode_blkaddr 5120 true false (empty_inode, small_sbi)
     = (Err E2BIG, (empty_inode, small_sbi)).
Proof.
  split; [vm_compute; discriminate|].
  apply (blkaddr_range_error empty_inode small_sbi 5120 true). vm_compute; discriminate.
Defined.

(** C10.  A write whose span fits in one block but whose block index is 10 or
    more returns [-E2BIG], and the mirror is left with its size set to
    [max (size, offset + len)]: the size grows before the index is checked
    and is not put back. *)
Theorem pwrite_range_error_grows_size (inode : numbfs_inode_info)
    (sbi : numbfs_superblock_info) (buf : block) (offset len : Z) :
  offset mod BYTES_PER_BLOCK + len <= BYTES_PER_BLOCK ->
  offset / BYTES_PER_BLOCK >= NUMBFS_NUM_DATA_ENTRY ->
  numbfs_pwrite_inode buf offset len (inode, sbi)
  = (Err E2BIG, (set_size (Z.max (size inode) (offset + len)) inode, sbi)).
Proof.
  intros Hspan Hidx.
  pose proof (index_out_of_range _ Hidx) as [Hpos _].
  unfold numbfs_pwrite_inode.
  rewrite rem_block_nonneg by assumption.
  destruct (Z.gtb_spec (offset mod BYTES_PER_BLOCK + len) BYTES_PER_BLOCK) as [Hgt|_]; [lia|].
  unfold bind, on_inode, modify. cbn [fst snd].
  rewrite blkaddr_range_error by assumption. reflexivity.
Qed.

Lemma pwrite_range_error_grows_size_witness :
  5120 mod BYTES_PER_BLOCK + 7 <= BYTES_PER_BLOCK
  /\ 5120 / BYTES_PER_BLOCK >= NUMBFS_NUM_DATA_ENTRY
  /\ numbfs_pwrite_inode pattern 5120 7 (empty_inode, small_sbi)
     = (Err E2BIG, (set_size (Z.max (size empty_inode) (5120 + 7)) empty_inode, small_sbi)).
Proof.
  split; [vm_compute; discriminate|]. split; [vm_compute; discriminate|].
  apply (pwrite_range_error_grows_size empty_inode small_sbi pattern 5120 7);
    vm_compute; discriminate.
Defined.

(** ** Write, then read *)

(** C3.  After a successful [numbfs_pwrite_inode] of [len >= 1] bytes at
    [offset], [numbfs_pread_inode] at the same offset and length succeeds and
    its buffer starts with the [len] bytes written (the rest of the buffer is
    kept); and the block of the file is what it was before (zeros for a
    hole) with these [len] bytes at [offset mod BYTES_PER_BLOCK] and every
    other byte as before.  That the span lies in one block and that the block
    index is below 10 follows from the success of the write.  The statement
    is about an image whose inode table lies below its data zone, a read
    buffer that holds [len] bytes and a read whose transfer does not fail. *)
Theorem pwrite_then_pread (ino ino' : numbfs_inode_info)
    (sbi sbi' : numbfs_superblock_info) (wbuf rbuf : block) (offset len : Z) :
  1 <= len ->
  len <= Z.of_nat (length rbuf) ->
  numbfs_inode_blk sbi (nid ino) < data_start sbi ->
  numbfs_pwrite_inode wbuf offset len (ino, sbi) = (Ok tt, (ino', sbi')) ->
  dev_fault (fd sbi') (dev_clock (fd sbi')) = false ->
  exists rbuf' prior,
    numbfs_pread_inode rbuf offset len (ino', sbi')
    = (Ok rbuf', (ino', set_fd (dev_tick (fd sbi')) sbi'))
    /\ take (Z.to_nat len) rbuf' = take (Z.to_nat len) wbuf
    /\ drop (Z.to_nat len) rbuf' = drop (Z.to_nat len) rbuf
    /\ file_block ino sbi (offset / BYTES_PER_BLOCK) = Some prior
    /\ file_block ino' sbi' (offset / BYTES_PER_BLOCK)
       = Some (overwrite prior (offset mod BYTES_PER_BLOCK) wbuf len).
Proof.
  intros Hlen Hrbuf Hzone Hwrite Hfault.
  destruct (pwrite_inode_inv _ _ _ _ _ _ _ Hwrite)
    as (target & prior & meta & Hpos & Hidx & _ & Hspan & Hwbuf & Hprior & Htarget
        & Hlook & Hsize & Hnid & Hgeo & Hbefore & _ & Hafter).
  assert (Hblk : dev_blocks (fd sbi') !! numbfs_data_blk sbi' target
                 = Some (overwrite prior (offset mod BYTES_PER_BLOCK) wbuf len)).
  { rewrite (same_geometry_data_blk _ _ _ Hgeo). apply Hafter.
    unfold numbfs_data_blk. lia. }
  assert (Hoff : 0 <= offset mod BYTES_PER_BLOCK)
    by (apply Z.mod_pos_bound; reflexivity).
  exists (take (Z.to_nat len) wbuf ++ drop (Z.to_nat len) rbuf), prior.
  split; [|split; [|split; [|split]]].
  - rewrite (pread_inode_ok _ _ _ _ _ target _ Hpos Hidx Hspan Hlook Htarget
               ltac:(lia) Hfault Hblk).
    rewrite memcpy_back by lia. reflexivity.
  - rewrite take_app_length'; [reflexivity|]. rewrite length_take. lia.
  - rewrite drop_app_length'; [reflexivity|]. rewrite length_take. lia.
  - assumption.
  - unfold file_block.
    destruct (Z.ltb_spec (offset / BYTES_PER_BLOCK) 0) as [Hneg|_].
    { pose proof (Z.div_pos offset BYTES_PER_BLOCK Hpos eq_refl). lia. }
    rewrite Hlook.
    destruct (Z.eqb_spec target NUMBFS_HOLE) as [E|_]; [unfold NUMBFS_HOLE in E; lia|].
    assumption.
Qed.

Lemma pwrite_then_pread_witness :
  exists rbuf' prior,
    numbfs_pread_inode zero_block 3587 5 (snd written)
    = (Ok rbuf', (fst (snd written),
                  set_fd (dev_tick (fd (snd (snd written)))) (snd (snd written))))
    /\ take (Z.to_nat 5) rbuf' = take (Z.to_nat 5) pattern
    /\ drop (Z.to_nat 5) rbuf' = drop (Z.to_nat 5) zero_block
    /\ file_block empty_inode small_sbi (3587 / BYTES_PER_BLOCK) = Some prior
    /\ file_block (fst (snd written)) (snd (snd written)) (3587 / BYTES_PER_BLOCK)
       = Some (overwrite prior (3587 mod BYTES_PER_BLOCK) pattern 5).
Proof.
  apply (pwrite_then_pread empty_inode (fst (snd written)) small_sbi (snd (snd written))
           pattern zero_block 3587 5).
  - lia.
  - vm_compute. discriminate.
  - vm_compute. reflexivity.
  - vm_compute. reflexivity.
  - vm_compute. reflexivity.
Defined.

(** ** Reads of holes and past the end *)

(** What a read of a hole, or at or past the size, does: it succeeds, makes
    no transfer and leaves in every byte of the buffer the low eight bits of
    [len]. *)
Lemma pread_hole_memset rbuf offset len ino sbi d :
  0 <= offset -> offset / BYTES_PER_BLOCK < NUMBFS_NUM_DATA_ENTRY ->
  offset mod BYTES_PER_BLOCK + len <= BYTES_PER_BLOCK ->
  data ino !! Z.to_nat (offset / BYTES_PER_BLOCK) = Some d ->
  d = NUMBFS_HOLE \/ (0 <= d /\ size ino <= offset) ->
  numbfs_pread_inode rbuf offset len (ino, sbi)
  = (Ok (memset rbuf len BYTES_PER_BLOCK), (ino, sbi)).
Proof.
  intros Hpos Hidx Hspan Hlook Hcase.
  unfold numbfs_pread_inode. rewrite rem_block_nonneg by assumption.
  destruct (Z.gtb_spec (offset mod BYTES_PER_BLOCK + len) BYTES_PER_BLOCK); [lia|].
  rewrite (bind_step _ _ _ d (ino, sbi)) by (apply blkaddr_lookup_ok; assumption).
  destruct Hcase as [->|[Hd Hsize]].
  - change ((NUMBFS_HOLE <? 0) && negb (NUMBFS_HOLE =? NUMBFS_HOLE)) with false.
    cbv iota. unfold bind at 1, get_inode. cbn [fst].
    rewrite Z.eqb_refl, orb_true_r. reflexivity.
  - destruct (Z.ltb_spec d 0); [lia|]. cbn [andb].
    unfold bind at 1, get_inode. cbn [fst].
    destruct (Z.geb_spec offset (size ino)); [|lia]. reflexivity.
Qed.

(** C1.  The read of one byte of a hole of inode 1 of the small image: the
    call succeeds, the state with the device is unchanged, and every byte of
    the buffer is 1, the length, where zeros are due. *)
Theorem pread_hole_not_zero :
  numbfs_pread_inode zero_block 0 1 (empty_inode, small_sbi)
  = (Ok (repeat Byte.x01 512), (empty_inode, small_sbi))
  /\ take 1 (repeat Byte.x01 512) <> [Byte.x00].
Proof. split; [vm_compute; reflexivity | discriminate]. Qed.

(** ** First fit *)



(** ** A release whose write-back fails *)

(** What a release does when the read of the bitmap block succeeds and the
    write-back fails, for a unit in use: it returns 0 with the counter one
    higher, and the blocks of the device are as they were. *)
Lemma numbfs_free_write_fault c sbi i :
  0 <= i < region_total c sbi ->
  unit_bit (dev_blocks (fd sbi)) (region_start c sbi) i = Some true ->
  dev_fault (fd sbi) (dev_clock (fd sbi)) = false ->
  dev_fault (fd sbi) (S (dev_clock (fd sbi))) = true ->
  numbfs_free c i sbi
  = (Ok tt, assign c (deref c sbi + 1) (set_fd (dev_tick (dev_tick (fd sbi))) sbi)).
Proof.
  intros Hi Hset Hread Hwrite.
  destruct (unit_bit_inv _ _ _ _ (proj1 Hi) Hset) as (blk & b & Hblk & Hb & Hbit).
  destruct (unit_coords i (proj1 Hi)) as (_ & _ & _ & Hbitr).
  assert (Hrun : numbfs_bitmap_free (region_start c sbi) i c sbi
                 = (Ok tt, assign c (deref c sbi + 1)
                             (set_fd (dev_tick (dev_tick (fd sbi))) sbi))).
  { unfold numbfs_bitmap_free, bind at 1.
    rewrite (read_block_ok _ _ blk) by assumption.
    unfold bind at 1.
    destruct (Z.ltb_spec (numbfs_bmap_bit i) 0); [lia|].
    rewrite Hb. cbn [defined ret]. unfold bind at 1. rewrite Hbit. cbn [negb ret].
    unfold bind at 1, attempt, numbfs_write_block, pwrite.
    cbn [fd set_fd dev_fault dev_clock dev_tick]. rewrite Hwrite.
    unfold bind, modify, ret. destruct c; reflexivity. }
  destruct c; cbn [numbfs_free region_total region_start] in *.
  - unfold numbfs_free_inode.
    destruct (Z.geb_spec i (total_inodes sbi)); [lia | exact Hrun].
  - unfold numbfs_free_block.
    destruct (Z.geb_spec i (data_blocks sbi)); [lia | exact Hrun].
Qed.

(** C7.  Data block 0 of the small image is in use and the medium fails the
    second transfer, the write-back of the bitmap block: the write returns
    [-EIO], and yet [numbfs_free_block] returns 0, with the counter one
    higher and the bitmap on the device as it was.  [numbfs_free_inode] does
    the same. *)
Theorem free_swallows_write_fault :
  fst (numbfs_write_block (buf_set (buf_set zero_block 0 Byte.x01) 0
                                   (bit_clear Byte.x01 0)) 4
                          (snd (numbfs_read_block 4 faulty_sbi))) = Err EIO
  /\ fst (numbfs_free_block 0 faulty_sbi) = Ok tt
  /\ free_blocks (snd (numbfs_free_block 0 faulty_sbi)) = free_blocks faulty_sbi + 1
  /\ dev_blocks (fd (snd (numbfs_free_block 0 faulty_sbi))) = dev_blocks (fd faulty_sbi)
  /\ fst (numbfs_free_inode 0 faulty_sbi_inodes) = Ok tt
  /\ free_inodes (snd (numbfs_free_inode 0 faulty_sbi_inodes))
     = free_inodes faulty_sbi_inodes + 1
  /\ dev_blocks (fd (snd (numbfs_free_inode 0 faulty_sbi_inodes)))
     = dev_blocks (fd faulty_sbi_inodes).
Proof. vm_compute. repeat split; reflexivity. Qed.

(** C2.  The same release: the counters equal the zero bits of the bitmaps
    before it, the release returns 0, and after it the counter of free
    blocks is one above the zero bits of the block bitmap. *)
Theorem free_breaks_consistency :
  image_ok faulty_sbi = true
  /\ bitmap_consistent faulty_sbi
  /\ fst (numbfs_free_block 0 faulty_sbi) = Ok tt
  /\ ~ bitmap_consistent (snd (numbfs_free_block 0 faulty_sbi)).
Proof.
  split; [vm_compute; reflexivity|]. split; [split; vm_compute; reflexivity|].
  split; [vm_compute; reflexivity|].
  intros [_ H]. vm_compute in H. discriminate.
Qed.

(** ** The geometry of the format tool *)

Lemma readme_geometry :
  exists sbi',
    numbfs_mkfs_geometry (numbfs_init_config (blank_device 0) 4096 (10 * 1024 * 1024))
    = (Ok tt, sbi')
    /\ ibitmap_start sbi' = 2 /\ inode_start sbi' = 3 /\ bbitmap_start sbi' = 515
    /\ data_start sbi' = 520 /\ data_blocks sbi' = 19959.
Proof. eexists. split; [vm_compute; reflexivity|]. repeat split. Qed.

(** Once the geometry has a data block, it is as it has to be. *)
Lemma mkfs_geometry_with_data sbi sbi' :
  0 < total_inodes sbi ->
  numbfs_mkfs_geometry sbi = (Ok tt, sbi') ->
  1 <= data_blocks sbi' ->
  geometry_ok sbi'.
Proof.
  unfold numbfs_mkfs_geometry, geometry_ok, DIV_ROUND_UP, round_up.
  change BYTES_PER_BLOCK with 512. change BITS_PER_BYTE with 8.
  intros Hn.
  destruct (Z.leb_spec (size_bytes sbi)
              (2 * 512 + Z.quot (total_inodes sbi * 64 + 512 - 1) 512 * 512 + 3))
    as [|Hsize]; [discriminate|].
  intros [= <-].
  cbn [data_blocks ibitmap_start inode_start bbitmap_start data_start size_bytes].
  assert (Hpos : 0 <= size_bytes sbi).
  { revert Hsize. Z.quot_rem_to_equations. lia. }
  rewrite <- (Z.quot_div_nonneg (size_bytes sbi) 512) by lia.
  set (total_blocks := Z.quot (size_bytes sbi) 512).
  set (ibitmap := Z.quot (Z.quot (total_inodes sbi + 8 - 1) 8 + 512 - 1) 512).
  set (table := Z.quot (total_inodes sbi * 64 + 512 - 1) 512).
  assert (Hibitmap : 1 <= ibitmap) by (unfold ibitmap; Z.quot_rem_to_equations; lia).
  assert (Htable : 1 <= table) by (unfold table; Z.quot_rem_to_equations; lia).
  set (remain := total_blocks - (2 + ibitmap + table) - 1).
  set (over_remain := Z.quot (Z.quot (remain + 8 - 1) 8 + 512 - 1) 512).
  set (blocks := remain - over_remain).
  set (bbitmap := Z.quot (Z.quot (blocks + 8 - 1) 8 + 512 - 1) 512).
  intros Hd.
  assert (Hbbitmap : 1 <= bbitmap) by (unfold bbitmap; Z.quot_rem_to_equations; lia).
  assert (Hmono : bbitmap <= over_remain).
  { assert (0 <= over_remain) by (unfold over_remain; Z.quot_rem_to_equations; lia).
    assert (blocks <= remain) by (unfold blocks; lia).
    unfold bbitmap, over_remain. Z.quot_rem_to_equations. lia. }
  unfold blocks in *. lia.
Qed.

(** C5.  A device of 1540 bytes and 8 inodes pass the two checks of the
    format tool; the geometry that comes out has [-2] data blocks and a data
    zone that starts where the block bitmap starts, at block 4 of a device of
    3 blocks. *)
Theorem mkfs_accepts_undersized_device :
  valid_num_inodes 8 = true
  /\ exists sbi',
       numbfs_mkfs_geometry (numbfs_init_config (blank_device 3) 8 1540) = (Ok tt, sbi')
       /\ data_blocks sbi' = -2
       /\ bbitmap_start sbi' = 4 /\ data_start sbi' = 4
       /\ size_bytes sbi' / BYTES_PER_BLOCK = 3
       /\ ~ geometry_ok sbi'.
Proof.
  split; [reflexivity|]. eexists. split; [vm_compute; reflexivity|].
  repeat split. intros (_ & _ & H & _). vm_compute in H. discriminate.
Qed.

(** ** The superblock record *)

(** C4.  The record of [disk.h] is 128 bytes and the build check passes, but
    it has eight 4-byte fields before 96 reserved bytes: it has no field for
    the free inodes nor for the data blocks, which the record of the spec and
    the superblock functions have. *)
Theorem super_block_layout :
  struct_size numbfs_super_block = 128%nat
  /\ numbfs_check_ondisk = true
  /\ field_offsets 0 numbfs_super_block
     = [ ("s_magic", 0); ("s_feature", 4); ("s_ibitmap_start", 8);
         ("s_inode_start", 12); ("s_bbitmap_start", 16); ("s_data_start", 20);
         ("s_num_inodes", 24); ("s_nfree_blocks", 28); ("s_reserved", 32) ]%string%nat
  /\ offsetof numbfs_super_block "s_free_inodes" = None
  /\ offsetof numbfs_super_block "s_data_blocks" = None
  /\ offsetof spec_super_block "s_free_inodes" = Some 28%nat
  /\ offsetof spec_super_block "s_data_blocks" = Some 32%nat
  /\ struct_size spec_super_block = 128%nat
  /\ length numbfs_super_block <> length spec_super_block.
Proof. vm_compute. repeat split; try reflexivity. discriminate. Qed.

Lemma inode_offsets :
  field_offsets 0 numbfs_inode
  = [ ("i_ino", I_INO); ("i_nlink", I_NLINK); ("i_uid", I_UID); ("i_gid", I_GID);
      ("i_mode", I_MODE); ("i_size", I_SIZE); ("i_xattr_start", 16);
      ("i_xattr_count", 20); ("reserved2", 21); ("i_data", I_DATA) ]%string%nat
  /\ struct_size numbfs_inode = 64%nat.
Proof. split; reflexivity. Qed.

Lemma dirent_offsets :
  field_offsets 0 numbfs_dirent
  = [ ("name_len", D_NAME_LEN); ("type", D_TYPE); ("name", D_NAME); ("ino", D_INO) ]%string%nat
  /\ struct_size numbfs_dirent = SIZEOF_DIRENT.
Proof. split; reflexivity. Qed.

(** ** The directory bootstrap *)




(** ** The allocator, from its results *)

(** What the loop of the allocator has done when it returns: it has read the
    units in order, it has stopped at the first clear one, and it has written
    nothing else. *)
Lemma bitmap_scan_inv n : forall i buf sbi s r sbi',
  0 <= i ->
  (Z.rem i NUMBFS_BLOCKS_PER_BLOCK <> 0 ->
   dev_blocks (fd sbi) !! numbfs_bmap_blk s i = Some buf) ->
  bitmap_scan n i s buf sbi = (Ok r, sbi') ->
  dev_fault (fd sbi') = dev_fault (fd sbi)
  /\ sbi' = set_fd (fd sbi') sbi
  /\ match r with
     | Some j =>
         i <= j < i + Z.of_nat n
         /\ (forall k, i <= k < j -> unit_bit (dev_blocks (fd sbi)) s k = Some true)
         /\ unit_bit (dev_blocks (fd sbi)) s j = Some false
         /\ dev_blocks (fd sbi') = with_unit true (dev_blocks (fd sbi)) s j
     | None =>
         (forall k, i <= k < i + Z.of_nat n ->
            unit_bit (dev_blocks (fd sbi)) s k = Some true)
         /\ dev_blocks (fd sbi') = dev_blocks (fd sbi)
     end.
Proof.
  induction n as [|n IH]; intros i buf sbi s r sbi' Hi Hbuf Hrun.
  - cbn in Hrun. injection Hrun as <- <-.
    split; [reflexivity|]. split; [destruct sbi; reflexivity|].
    split; [intros k Hk; lia | reflexivity].
  - cbn [bitmap_scan] in Hrun.
    apply bind_ok in Hrun as (blk & sbi1 & Hload & Hrun).
    assert (H1 : dev_blocks (fd sbi) !! numbfs_bmap_blk s i = Some blk
                 /\ dev_blocks (fd sbi1) = dev_blocks (fd sbi)
                 /\ dev_fault (fd sbi1) = dev_fault (fd sbi)
                 /\ sbi1 = set_fd (fd sbi1) sbi).
    { destruct (Z.eqb_spec (Z.rem i NUMBFS_BLOCKS_PER_BLOCK) 0) as [E|N].
      - apply read_block_inv in Hload as (_ & Hblk & ->). auto.
      - injection Hload as <- <-. split; [auto|]. destruct sbi; auto. }
    destruct H1 as (Hblk & Hblocks1 & Hfault1 & Hsbi1).
    apply bind_ok in Hrun as (b & sbi1' & Hb & Hrun).
    apply defined_inv in Hb as [Hb ->].
    assert (Hunit : unit_bit (dev_blocks (fd sbi)) s i
                    = Some (bit_is_set b (numbfs_bmap_bit i))).
    { unfold unit_bit. rewrite Hblk, Hb. reflexivity. }
    destruct (bit_is_set b (numbfs_bmap_bit i)) eqn:Hbit; cbn [negb] in Hrun.
    + (* the bit is set: on to the next unit *)
      apply IH in Hrun as (Hfault & Hsbi & Hr); [|lia|].
      2:{ intros Hr. rewrite Hblocks1, bmap_blk_succ by (assumption || lia). assumption. }
      rewrite Hfault1 in Hfault. split; [assumption|].
      split; [rewrite Hsbi, Hsbi1; reflexivity|].
      rewrite Hblocks1 in Hr.
      destruct r as [j|].
      * destruct Hr as (Hj & Hbelow & Hclear & Hblocks).
        split; [lia|]. split; [|auto].
        intros k Hk. destruct (Z.eq_dec k i) as [->|]; [assumption | apply Hbelow; lia].
      * destruct Hr as (Hall & Hblocks). split; [|assumption].
        intros k Hk. destruct (Z.eq_dec k i) as [->|]; [assumption | apply Hall; lia].
    + (* the first clear bit *)
      apply bind_ok in Hrun as (u & sbi2 & Hwrite & Hret).
      injection Hret as <- <-.
      apply write_block_inv in Hwrite as (_ & _ & ->).
      cbn [fd set_fd dev_put dev_fault dev_blocks].
      split; [assumption|].
      split; [rewrite Hsbi1; reflexivity|].
      split; [lia|]. split; [intros k Hk; lia|]. split; [assumption|].
      unfold with_unit. rewrite Hblocks1, Hblk, Hb. reflexivity.
Qed.

Lemma set_fd_eta sbi1 sbi fault :
  sbi1 = set_fd (fd sbi1) sbi -> dev_fault (fd sbi1) = fault ->
  sbi1 = set_fd (mkdev (dev_blocks (fd sbi1)) (dev_clock (fd sbi1)) fault) sbi.
Proof.
  intros H <-. rewrite H at 1. f_equal. destruct (fd sbi1); reflexivity.
Qed.

(** The same for a call of the allocator on a region. *)
Lemma numbfs_alloc_inv c sbi r sbi' :
  numbfs_alloc c sbi = (Ok r, sbi') ->
  deref c sbi <> 0
  /\ deref c sbi' = deref c sbi - 1
  /\ same_geometry sbi sbi'
  /\ (exists clk, sbi' = assign c (deref c sbi - 1)
                          (set_fd (mkdev (dev_blocks (fd sbi')) clk (dev_fault (fd sbi))) sbi))
  /\ match r with
     | Some j =>
         0 <= j < region_total c sbi
         /\ (forall k, 0 <= k < j ->
               unit_bit (dev_blocks (fd sbi)) (region_start c sbi) k = Some true)
         /\ unit_bit (dev_blocks (fd sbi)) (region_start c sbi) j = Some false
         /\ dev_blocks (fd sbi')
            = with_unit true (dev_blocks (fd sbi)) (region_start c sbi) j
     | None =>
         (forall k, 0 <= k < region_total c sbi ->
            unit_bit (dev_blocks (fd sbi)) (region_start c sbi) k = Some true)
         /\ dev_blocks (fd sbi') = dev_blocks (fd sbi)
     end.
Proof.
  intros Hrun.
  assert (Hfree : deref c sbi <> 0).
  { intros E. destruct c; cbn [numbfs_alloc deref] in *;
      unfold numbfs_alloc_inode, numbfs_alloc_block in Hrun; rewrite E in Hrun;
      discriminate. }
  assert (Hbody : numbfs_bitmap_alloc (region_start c sbi) (region_total c sbi) c sbi
                  = (Ok r, sbi')).
  { destruct c; cbn [numbfs_alloc deref region_start region_total] in *;
      unfold numbfs_alloc_inode, numbfs_alloc_block in Hrun.
    - destruct (Z.eqb_spec (free_inodes sbi) 0); [contradiction | assumption].
    - destruct (Z.eqb_spec (free_blocks sbi) 0); [contradiction | assumption]. }
  split; [assumption|].
  split.
  { unfold numbfs_bitmap_alloc in Hbody.
    apply bind_ok in Hbody as (res & sbi1 & Hscan & Hrest).
    apply bitmap_scan_inv in Hscan as (_ & Hsbi1 & _); [|lia|intros H; exfalso; apply H; reflexivity].
    unfold bind, modify, ret in Hrest. injection Hrest as _ <-.
    rewrite deref_assign_same, Hsbi1, deref_set_fd. reflexivity. }
  split; [apply (numbfs_alloc_frame c sbi (Ok r)); assumption|].
  unfold numbfs_bitmap_alloc in Hbody.
  apply bind_ok in Hbody as (res & sbi1 & Hscan & Hrest).
  apply bitmap_scan_inv in Hscan as (Hfault1 & Hsbi1 & Hres); [|lia|intros H; exfalso; apply H; reflexivity].
  unfold bind, modify, ret in Hrest. injection Hrest as <- <-.
  split.
  { exists (dev_clock (fd sbi1)).
    assert (D : deref c sbi1 = deref c sbi) by (rewrite Hsbi1; apply deref_set_fd).
    rewrite fd_assign, D. f_equal. apply set_fd_eta; assumption. }
  rewrite fd_assign.
  destruct res as [j|].
  - destruct Hres as (Hj & Hbelow & Hclear & Hblocks).
    rewrite Z2Nat.id in Hj; [auto|].
    destruct (Z.le_gt_cases 0 (region_total c sbi)); [assumption|].
    rewrite Z2Nat.nonpos in Hj by lia. lia.
  - destruct Hres as (Hall & Hblocks). split; [|assumption].
    intros k Hk. apply Hall. lia.
Qed.

(** The only error of a block transfer is [-EIO], and a transfer that fails
    leaves the blocks of the device as they were. *)
Lemma read_block_err blkno sbi e sbi' :
  numbfs_read_block blkno sbi = (Err e, sbi') ->
  e = EIO /\ sbi' = set_fd (dev_tick (fd sbi)) sbi.
Proof.
  unfold numbfs_read_block, pread.
  destruct (dev_fault (fd sbi) (dev_clock (fd sbi))).
  - intros [= <- <-]. auto.
  - destruct (dev_blocks (fd sbi) !! blkno); intros [= <- <-]. auto.
Qed.

Lemma write_block_err buf blkno sbi e sbi' :
  numbfs_write_block buf blkno sbi = (Err e, sbi') ->
  e = EIO /\ sbi' = set_fd (dev_tick (fd sbi)) sbi.
Proof.
  unfold numbfs_write_block, pwrite.
  destruct (dev_fault (fd sbi) (dev_clock (fd sbi))).
  - intros [= <- <-]. auto.
  - destruct (dev_blocks (fd sbi) !! blkno); intros [= <- <-]. auto.
Qed.

Lemma bind_err {S A B : Type} (m : M S A) (k : A -> M S B) s e s' :
  bind m k s = (Err e, s') ->
  m s = (Err e, s') \/ exists a s1, m s = (Ok a, s1) /\ k a s1 = (Err e, s').
Proof.
  unfold bind. destruct (m s) as [[a| | |] s1]; intros H; try discriminate.
  - right. eauto.
  - left. injection H as <- <-. reflexivity.
Qed.

(** A loop of the allocator that fails has failed on a transfer, and has
    written nothing. *)
Lemma bitmap_scan_err n : forall i buf sbi s e sbi',
  bitmap_scan n i s buf sbi = (Err e, sbi') ->
  e = EIO
  /\ dev_blocks (fd sbi') = dev_blocks (fd sbi)
  /\ sbi' = set_fd (fd sbi') sbi.
Proof.
  induction n as [|n IH]; intros i buf sbi s e sbi' Hrun; [discriminate|].
  cbn [bitmap_scan] in Hrun.
  apply bind_err in Hrun as [Hload | (blk & sbi1 & Hload & Hrun)].
  { destruct (Z.rem i NUMBFS_BLOCKS_PER_BLOCK =? 0); [|discriminate].
    apply read_block_err in Hload as [-> ->]. auto. }
  assert (H1 : dev_blocks (fd sbi1) = dev_blocks (fd sbi) /\ sbi1 = set_fd (fd sbi1) sbi).
  { destruct (Z.rem i NUMBFS_BLOCKS_PER_BLOCK =? 0).
    - apply read_block_inv in Hload as (_ & _ & ->). auto.
    - injection Hload as _ <-. destruct sbi; auto. }
  destruct H1 as [Hblocks1 Hsbi1].
  apply bind_err in Hrun as [Hb | (b & sbi1' & Hb & Hrun)].
  { destruct (buf_get blk (numbfs_bmap_byte i)); discriminate. }
  apply defined_inv in Hb as [Hb ->].
  destruct (bit_is_set b (numbfs_bmap_bit i)); cbn [negb] in Hrun.
  - apply IH in Hrun as (-> & Hblocks & Hsbi).
    split; [reflexivity|]. split; [congruence|].
    rewrite Hsbi, Hsbi1. reflexivity.
  - apply bind_err in Hrun as [Hw | (u & sbi2 & _ & Hret)]; [|discriminate].
    apply write_block_err in Hw as [-> ->].
    split; [reflexivity|]. split; [assumption|]. rewrite Hsbi1. reflexivity.
Qed.

(** The loop over a region without a clear unit, on a medium without
    faults. *)
Lemma bitmap_scan_full n : forall i buf sbi s,
  no_faults (fd sbi) ->
  0 <= i ->
  (Z.rem i NUMBFS_BLOCKS_PER_BLOCK <> 0 ->
   dev_blocks (fd sbi) !! numbfs_bmap_blk s i = Some buf) ->
  (forall k, i <= k < i + Z.of_nat n -> unit_bit (dev_blocks (fd sbi)) s k = Some true) ->
  exists clk,
    bitmap_scan n i s buf sbi
    = (Ok None, set_fd (mkdev (dev_blocks (fd sbi)) clk (dev_fault (fd sbi))) sbi).
Proof.
  induction n as [|n IH]; intros i buf sbi s Hnf Hi Hbuf Hset.
  - exists (dev_clock (fd sbi)). destruct sbi as [[] ]. reflexivity.
  - destruct (unit_bit_inv _ _ _ _ Hi (Hset i ltac:(lia))) as (blk & b & Hblk & Hb & Hbv).
    assert (Hload : exists sbi1,
               (if Z.rem i NUMBFS_BLOCKS_PER_BLOCK =? 0
                then numbfs_read_block (numbfs_bmap_blk s i)
                else ret buf) sbi = (Ok blk, sbi1)
               /\ dev_blocks (fd sbi1) = dev_blocks (fd sbi)
               /\ dev_fault (fd sbi1) = dev_fault (fd sbi)
               /\ sbi1 = set_fd (fd sbi1) sbi).
    { destruct (Z.eqb_spec (Z.rem i NUMBFS_BLOCKS_PER_BLOCK) 0) as [E|N].
      - exists (set_fd (dev_tick (fd sbi)) sbi). split; [|auto].
        apply read_block_ok; [apply Hnf | assumption].
      - exists sbi. rewrite (Hbuf N) in Hblk. injection Hblk as ->.
        split; [reflexivity|]. destruct sbi; auto. }
    destruct Hload as (sbi1 & Hrun & Hblocks1 & Hfault1 & Hsbi1).
    cbn [bitmap_scan]. unfold bind at 1. rewrite Hrun.
    unfold bind at 1. rewrite Hb. cbn [defined ret]. rewrite Hbv. cbn [negb].
    destruct (IH (i + 1) blk sbi1 s) as (clk & Hscan).
    + intros k. rewrite Hfault1. apply Hnf.
    + lia.
    + intros Hr. rewrite Hblocks1, bmap_blk_succ by (assumption || lia). assumption.
    + intros k Hk. rewrite Hblocks1. apply Hset. lia.
    + exists clk. rewrite Hscan, Hblocks1, Hfault1, Hsbi1. reflexivity.
Qed.

(** Setting a bit that is clear and clearing it again gives the byte back;
    checked on every byte and every bit position. *)
Lemma bit_set_clear b j :
  0 <= j < 8 -> bit_is_set b j = false -> bit_clear (bit_set b j) j = b.
Proof.
  intros Hj.
  assert (H : forallb (fun b => forallb (fun j =>
                implb (negb (bit_is_set b j)) (Byte.eqb (bit_clear (bit_set b j) j) b))
              (seqZ 0 8)) (List.map byte.of_Z (seqZ 0 256)) = true)
    by (vm_compute; reflexivity).
  rewrite forallb_forall in H. specialize (H b (all_bytes b)).
  rewrite forallb_forall in H. specialize (H j (bits_small j Hj)).
  intros Hclear. rewrite Hclear in H. cbn [negb implb] in H.
  apply Byte.byte_dec_bl in H. assumption.
Qed.

(** A unit marked and released: the blocks are those before the mark. *)
Lemma with_unit_undo (blocks : gmap Z block) s j :
  0 <= j -> unit_bit blocks s j = Some false ->
  with_unit false (with_unit true blocks s j) s j = blocks.
Proof.
  intros Hj Hbit.
  destruct (unit_bit_inv _ _ _ _ Hj Hbit) as (blk & b & Hblk & Hb & Hbv).
  destruct (unit_coords j Hj) as (_ & _ & Hbyte & Hbitr).
  rewrite buf_get_lookup in Hb by lia.
  assert (Hlen : (Z.to_nat (numbfs_bmap_byte j) < length blk)%nat)
    by (apply lookup_lt_is_Some; eauto).
  unfold with_unit. rewrite Hblk, buf_get_lookup, Hb by lia.
  rewrite lookup_insert_eq.
  rewrite buf_get_lookup by lia. unfold buf_set.
  rewrite list_lookup_insert_eq by assumption.
  rewrite insert_insert_eq, list_insert_insert_eq.
  change BITS_PER_BYTE with 8 in Hbitr.
  rewrite bit_set_clear by assumption.
  rewrite list_insert_id by assumption.
  apply insert_id. assumption.
Qed.

(** The release of a unit that is not in use, when the read of its bitmap
    block goes through: the [BUG_ON] fires before anything is written. *)
Lemma numbfs_free_bug c sbi i :
  0 <= i < region_total c sbi ->
  unit_bit (dev_blocks (fd sbi)) (region_start c sbi) i = Some false ->
  dev_fault (fd sbi) (dev_clock (fd sbi)) = false ->
  numbfs_free c i sbi = (Bug, set_fd (dev_tick (fd sbi)) sbi).
Proof.
  intros Hi Hbit Hread.
  destruct (unit_bit_inv _ _ _ _ (proj1 Hi) Hbit) as (blk & b & Hblk & Hb & Hb0).
  destruct (unit_coords i (proj1 Hi)) as (_ & _ & _ & Hbitr).
  assert (Hbug : numbfs_bitmap_free (region_start c sbi) i c sbi
                 = (Bug, set_fd (dev_tick (fd sbi)) sbi)).
  { unfold numbfs_bitmap_free, bind at 1.
    rewrite (read_block_ok _ _ blk) by assumption.
    unfold bind at 1. destruct (Z.ltb_spec (numbfs_bmap_bit i) 0); [lia|].
    rewrite Hb. cbn [defined ret]. unfold bind at 1. rewrite Hb0. reflexivity. }
  destruct c; cbn [numbfs_free region_total region_start] in *;
    unfold numbfs_free_inode, numbfs_free_block.
  - destruct (Z.geb_spec i (total_inodes sbi)); [lia | assumption].
  - destruct (Z.geb_spec i (data_blocks sbi)); [lia | assumption].
Qed.

Lemma region_same_geometry c sbi sbi' :
  same_geometry sbi sbi' ->
  region_start c sbi' = region_start c sbi /\ region_total c sbi' = region_total c sbi.
Proof.
  intros (_ & Hti & Hdb & Hib & _ & Hbb & _). destruct c; cbn; auto.
Qed.

(** What a release has done when it returns 0 for a unit index that is not
    negative, on a medium without faults. *)
Lemma numbfs_free_inv c i sbi sbi' :
  no_faults (fd sbi) -> 0 <= i ->
  numbfs_free c i sbi = (Ok tt, sbi') ->
  i < region_total c sbi
  /\ unit_bit (dev_blocks (fd sbi)) (region_start c sbi) i = Some true
  /\ exists clk,
       sbi' = assign c (deref c sbi + 1)
                (set_fd (mkdev (with_unit false (dev_blocks (fd sbi)) (region_start c sbi) i)
                               clk (dev_fault (fd sbi))) sbi).
Proof.
  intros Hnf Hi Hrun.
  assert (Hlt : i < region_total c sbi).
  { destruct (Z_lt_le_dec i (region_total c sbi)) as [|Hge]; [assumption|].
    exfalso. destruct c; cbn [numbfs_free region_total] in *;
      unfold numbfs_free_inode, numbfs_free_block in Hrun.
    - destruct (Z.geb_spec i (total_inodes sbi)); [discriminate | lia].
    - destruct (Z.geb_spec i (data_blocks sbi)); [discriminate | lia]. }
  split; [assumption|].
  destruct (unit_bit (dev_blocks (fd sbi)) (region_start c sbi) i) as [[|]|] eqn:Hbit.
  - split; [reflexivity|].
    destruct (numbfs_free_clears c sbi i Hnf (conj Hi Hlt) Hbit) as (clk & Hfree).
    exists clk. congruence.
  - rewrite (numbfs_free_bug c sbi i (conj Hi Hlt) Hbit (Hnf _)) in Hrun. discriminate.
  - exfalso.
    assert (Hbody : numbfs_bitmap_free (region_start c sbi) i c sbi = (Ok tt, sbi')).
    { destruct c; cbn [numbfs_free region_total region_start] in *;
        unfold numbfs_free_inode, numbfs_free_block in Hrun.
      - destruct (Z.geb_spec i (total_inodes sbi)); [lia | assumption].
      - destruct (Z.geb_spec i (data_blocks sbi)); [lia | assumption]. }
    unfold numbfs_bitmap_free in Hbody.
    apply bind_ok in Hbody as (blk & sbi1 & Hread & Hrest).
    apply read_block_inv in Hread as (_ & Hblk & _).
    apply bind_ok in Hrest as (b & sbi2 & Hb & _).
    apply defined_inv in Hb as [Hb _].
    destruct (numbfs_bmap_bit i <? 0); [discriminate|].
    unfold unit_bit in Hbit. rewrite Hblk, Hb in Hbit. discriminate.
Qed.

(** ** The allocator: what a user can rely on *)

(** X1.  Whenever an allocation returns a unit, on either region and on any
    medium, this unit is below the unit count, it was clear and every unit
    below it was in use; afterwards its bit is set, the bit of no other unit
    has changed, no block but its bitmap block has changed, and the counter
    of the region is one lower. *)
Theorem alloc_returns_lowest_free_unit (c : counter)
    (sbi sbi' : numbfs_superblock_info) (j : Z) :
  numbfs_alloc c sbi = (Ok (Some j), sbi') ->
  0 <= j < region_total c sbi
  /\ (forall k, 0 <= k < j ->
        unit_bit (dev_blocks (fd sbi)) (region_start c sbi) k = Some true)
  /\ unit_bit (dev_blocks (fd sbi)) (region_start c sbi) j = Some false
  /\ (forall k, 0 <= k ->
        unit_bit (dev_blocks (fd sbi')) (region_start c sbi) k
        = if k =? j then Some true
          else unit_bit (dev_blocks (fd sbi)) (region_start c sbi) k)
  /\ (forall b, b <> numbfs_bmap_blk (region_start c sbi) j ->
        dev_blocks (fd sbi') !! b = dev_blocks (fd sbi) !! b)
  /\ deref c sbi' = deref c sbi - 1.
Proof.
  intros Hrun.
  apply numbfs_alloc_inv in Hrun as (_ & Hcnt & _ & _ & Hj & Hbelow & Hclear & Hblocks).
  split; [assumption|]. split; [assumption|]. split; [assumption|].
  rewrite Hblocks. split; [|split; [|assumption]].
  - intros k Hk. apply with_unit_bits; [lia | rewrite Hclear; eauto | assumption].
  - intros b Hb. apply with_unit_other. assumption.
Qed.

Lemma alloc_returns_lowest_free_unit_witness :
  0 <= 0 < region_total FreeBlocks small_sbi
  /\ deref FreeBlocks (snd (numbfs_alloc FreeBlocks small_sbi))
     = deref FreeBlocks small_sbi - 1.
Proof.
  destruct (alloc_returns_lowest_free_unit FreeBlocks small_sbi
              (snd (numbfs_alloc FreeBlocks small_sbi)) 0)
    as (H1 & _ & _ & _ & _ & H2).
  - vm_compute. reflexivity.
  - split; assumption.
Defined.

(** X2.  On a laid-out image and a medium without faults, an allocation on
    a region whose counter is not zero and whose bitmap has a clear unit
    returns a unit. *)
Theorem alloc_succeeds_when_unit_free (c : counter) (sbi : numbfs_superblock_info) :
  image_ok sbi = true ->
  no_faults (fd sbi) ->
  deref c sbi <> 0 ->
  popcount (dev_blocks (fd sbi)) (region_start c sbi) (region_total c sbi)
  < region_total c sbi ->
  exists j sbi', numbfs_alloc c sbi = (Ok (Some j), sbi').
Proof.
  intros Himg Hnf Hcnt Hpop.
  destruct (first_clear (dev_blocks (fd sbi)) (region_start c sbi) (region_total c sbi))
    as (j & Hj & Hclear & Hset); [|assumption|].
  { intros i Hi. apply image_units_defined; assumption. }
  destruct (numbfs_alloc_finds c sbi j Hnf Hcnt Hj Hset Hclear) as (clk & Halloc).
  eauto.
Qed.

Lemma alloc_succeeds_when_unit_free_witness :
  exists j sbi', numbfs_alloc FreeInodes small_sbi = (Ok (Some j), sbi').
Proof.
  apply (alloc_succeeds_when_unit_free FreeInodes small_sbi).
  - vm_compute. reflexivity.
  - intros k. reflexivity.
  - vm_compute. discriminate.
  - vm_compute. reflexivity.
Defined.

(** X3.  The counter and the bitmap out of step: when the counter of a
    region is not zero and every unit of the region is in use, an allocation
    on a medium without faults returns 0, stores no unit through [res],
    leaves the blocks as they were and still takes one off the counter. *)
Theorem alloc_on_full_bitmap (c : counter) (sbi : numbfs_superblock_info) :
  no_faults (fd sbi) ->
  deref c sbi <> 0 ->
  (forall k, 0 <= k < region_total c sbi ->
     unit_bit (dev_blocks (fd sbi)) (region_start c sbi) k = Some true) ->
  exists sbi',
    numbfs_alloc c sbi = (Ok None, sbi')
    /\ dev_blocks (fd sbi') = dev_blocks (fd sbi)
    /\ deref c sbi' = deref c sbi - 1.
Proof.
  intros Hnf Hcnt Hfull.
  destruct (bitmap_scan_full (Z.to_nat (region_total c sbi)) 0 [] sbi (region_start c sbi))
    as (clk & Hscan); try assumption; try lia.
  { intros H. exfalso. apply H. reflexivity. }
  { intros k Hk. apply Hfull. lia. }
  assert (Hbody : numbfs_bitmap_alloc (region_start c sbi) (region_total c sbi) c sbi
                  = (Ok None,
                     assign c (deref c sbi - 1)
                       (set_fd (mkdev (dev_blocks (fd sbi)) clk (dev_fault (fd sbi))) sbi))).
  { unfold numbfs_bitmap_alloc, bind at 1. rewrite Hscan.
    unfold bind, modify, ret. destruct c; reflexivity. }
  exists (assign c (deref c sbi - 1)
            (set_fd (mkdev (dev_blocks (fd sbi)) clk (dev_fault (fd sbi))) sbi)).
  split; [|split].
  - destruct c; cbn [numbfs_alloc deref region_total region_start] in *;
      unfold numbfs_alloc_inode, numbfs_alloc_block.
    + destruct (Z.eqb_spec (free_inodes sbi) 0); [contradiction | exact Hbody].
    + destruct (Z.eqb_spec (free_blocks sbi) 0); [contradiction | exact Hbody].
  - rewrite fd_assign. reflexivity.
  - rewrite deref_assign_same. reflexivity.
Qed.

Lemma alloc_on_full_bitmap_witness :
  exists sbi',
    numbfs_alloc FreeBlocks drifted_sbi = (Ok None, sbi')
    /\ dev_blocks (fd sbi') = dev_blocks (fd drifted_sbi)
    /\ deref FreeBlocks sbi' = deref FreeBlocks drifted_sbi - 1.
Proof.
  apply (alloc_on_full_bitmap FreeBlocks drifted_sbi).
  - intros k. reflexivity.
  - vm_compute. discriminate.
  - intros k Hk. change (region_total FreeBlocks drifted_sbi) with 3 in Hk.
    assert (Hcases : k = 0 \/ k = 1 \/ k = 2) by lia.
    destruct Hcases as [-> | [-> | ->]]; vm_compute; reflexivity.
Defined.

(** X4.  On a laid-out image whose counters equal the clear bits of the
    bitmaps, every allocation that returns 0 returns a unit and leaves the
    image laid out and the counters equal to the clear bits, whatever the
    faults of the medium. *)
Theorem alloc_success_keeps_counters (c : counter) (sbi sbi' : numbfs_superblock_info)
    (r : option Z) :
  image_ok sbi = true ->
  bitmap_consistent sbi ->
  numbfs_alloc c sbi = (Ok r, sbi') ->
  (exists j, r = Some j) /\ image_ok sbi' = true /\ bitmap_consistent sbi'.
Proof.
  intros Himg Hcons Hrun.
  apply numbfs_alloc_inv in Hrun as (Hcnt & _ & _ & (clk & Hsbi') & Hr).
  destruct r as [j|].
  - destruct Hr as (Hj & Hbelow & Hclear & Hblocks).
    split; [eauto|].
    rewrite Hblocks in Hsbi'. rewrite Hsbi'.
    apply (flip_unit_keeps c true sbi j clk); assumption.
  - exfalso. destruct Hr as [Hfull _].
    pose proof (consistent_free_count c sbi Himg Hcons Hcnt) as Hlt.
    assert (Hall : popcount (dev_blocks (fd sbi)) (region_start c sbi) (region_total c sbi)
                   = Z.max 0 (region_total c sbi)).
    { unfold popcount. rewrite filter_all.
      - rewrite length_seqZ. lia.
      - intros k Hk. apply seqZ_In in Hk. unfold unit_is_set.
        rewrite Hfull by lia. reflexivity. }
    lia.
Qed.

Lemma alloc_success_keeps_counters_witness :
  (exists j, fst (numbfs_alloc FreeBlocks one_used_sbi) = Ok (Some j))
  /\ bitmap_consistent (snd (numbfs_alloc FreeBlocks one_used_sbi)).
Proof.
  destruct (alloc_success_keeps_counters FreeBlocks one_used_sbi
              (snd (numbfs_alloc FreeBlocks one_used_sbi)) (Some 0))
    as ((j & Hj) & _ & Hcons).
  - vm_compute. reflexivity.
  - split; vm_compute; reflexivity.
  - vm_compute. reflexivity.
  - split; [|assumption]. exists 0. vm_compute. reflexivity.
Defined.

(** X5.  On a medium without faults, every run of allocations and of
    releases at indices that are not negative, on the two regions and in any
    order, that returns 0 at each step leaves a laid-out image laid out and
    the counters equal to the clear bits of the bitmaps.  The release has no
    lower bound check: the condition on the indices is needed. *)
Theorem run_without_faults_keeps_counters (ops : list bitmap_op)
    (sbi sbi' : numbfs_superblock_info) :
  image_ok sbi = true ->
  bitmap_consistent sbi ->
  no_faults (fd sbi) ->
  frees_nonneg ops ->
  run_ops ops sbi = (Ok tt, sbi') ->
  image_ok sbi' = true /\ bitmap_consistent sbi'.
Proof.
  intros Himg Hcons Hnf Hops Hrun.
  destruct (run_keeps_consistent ops sbi sbi' Himg Hcons Hnf Hops Hrun) as (H1 & H2 & _).
  auto.
Qed.

Lemma run_without_faults_keeps_counters_witness :
  bitmap_consistent
    (snd (run_ops [Alloc FreeBlocks; Alloc FreeInodes; Alloc FreeBlocks;
                   Free FreeBlocks 0; Alloc FreeBlocks; Free FreeInodes 0] small_sbi)).
Proof.
  destruct (run_without_faults_keeps_counters
              [Alloc FreeBlocks; Alloc FreeInodes; Alloc FreeBlocks;
               Free FreeBlocks 0; Alloc FreeBlocks; Free FreeInodes 0]
              small_sbi
              (snd (run_ops [Alloc FreeBlocks; Alloc FreeInodes; Alloc FreeBlocks;
                             Free FreeBlocks 0; Alloc FreeBlocks; Free FreeInodes 0]
                            small_sbi)))
    as [_ H].
  - vm_compute. reflexivity.
  - split; vm_compute; reflexivity.
  - intros k. reflexivity.
  - intros c i [E | [E | [E | [E | [E | [E | []]]]]]]; inversion E; lia.
  - vm_compute. reflexivity.
  - assumption.
Defined.

(** X6.  An allocation and the release of the unit it returned, on a medium
    without faults: the release returns 0, and the blocks of the device and
    the two counters are those before the allocation. *)
Theorem alloc_then_free_restores (c : counter) (sbi sbi1 : numbfs_superblock_info)
    (j : Z) :
  no_faults (fd sbi) ->
  numbfs_alloc c sbi = (Ok (Some j), sbi1) ->
  exists sbi2,
    numbfs_free c j sbi1 = (Ok tt, sbi2)
    /\ dev_blocks (fd sbi2) = dev_blocks (fd sbi)
    /\ free_inodes sbi2 = free_inodes sbi
    /\ free_blocks sbi2 = free_blocks sbi
    /\ same_geometry sbi sbi2.
Proof.
  intros Hnf Hrun.
  apply numbfs_alloc_inv in Hrun as (_ & _ & Hgeo & (clk & Hsbi1) & Hj & _ & Hclear & Hblocks).
  destruct (region_same_geometry c sbi sbi1 Hgeo) as [Hstart Htotal].
  assert (Hnf1 : no_faults (fd sbi1)).
  { intros k. destruct Hgeo as (_ & _ & _ & _ & _ & _ & _ & _ & <-). apply Hnf. }
  destruct (numbfs_free_clears c sbi1 j Hnf1) as (clk2 & Hfree).
  { rewrite Htotal. assumption. }
  { rewrite Hstart, Hblocks.
    rewrite with_unit_bits by (lia || rewrite Hclear; eauto).
    rewrite Z.eqb_refl. reflexivity. }
  eexists. split; [exact Hfree|].
  rewrite Hstart, Hblocks, with_unit_undo by (lia || assumption).
  rewrite fd_assign. cbn [fd set_fd dev_blocks].
  split; [reflexivity|].
  rewrite Hsbi1.
  split; [|split].
  - destruct c; reflexivity || (cbn; lia).
  - destruct c; reflexivity || (cbn; lia).
  - eapply same_geometry_trans; [exact Hgeo|].
    rewrite <- Hsbi1.
    eapply same_geometry_trans; [|apply same_geometry_assign].
    apply same_geometry_set_fd. reflexivity.
Qed.

Lemma alloc_then_free_restores_witness :
  exists sbi2,
    numbfs_free FreeBlocks 0 (snd (numbfs_alloc FreeBlocks one_used_sbi)) = (Ok tt, sbi2)
    /\ dev_blocks (fd sbi2) = dev_blocks (fd one_used_sbi)
    /\ free_inodes sbi2 = free_inodes one_used_sbi
    /\ free_blocks sbi2 = free_blocks one_used_sbi
    /\ same_geometry one_used_sbi sbi2.
Proof.
  apply (alloc_then_free_restores FreeBlocks one_used_sbi
           (snd (numbfs_alloc FreeBlocks one_used_sbi)) 0).
  - intros k. reflexivity.
  - vm_compute. reflexivity.
Defined.

(** X7.  A unit released twice, on a medium without faults: when the first
    release returns 0, the second trips the [BUG_ON]; it has read the bitmap
    block and written nothing, and the counters are those after the first
    release. *)
Theorem double_free_is_fatal (c : counter) (sbi sbi1 : numbfs_superblock_info) (i : Z) :
  no_faults (fd sbi) ->
  0 <= i ->
  numbfs_free c i sbi = (Ok tt, sbi1) ->
  numbfs_free c i sbi1 = (Bug, set_fd (dev_tick (fd sbi1)) sbi1).
Proof.
  intros Hnf Hi Hrun.
  apply numbfs_free_inv in Hrun as (Hlt & Hset & clk & ->); try assumption.
  apply numbfs_free_bug.
  - rewrite region_total_assign, region_total_set_fd. lia.
  - rewrite fd_assign, region_start_assign, region_start_set_fd. cbn [fd set_fd dev_blocks].
    rewrite with_unit_bits by (lia || rewrite Hset; eauto).
    rewrite Z.eqb_refl. reflexivity.
  - rewrite fd_assign. apply Hnf.
Qed.

Lemma double_free_is_fatal_witness :
  numbfs_free FreeBlocks 1 (snd (numbfs_free FreeBlocks 1 one_used_sbi))
  = (Bug, set_fd (dev_tick (fd (snd (numbfs_free FreeBlocks 1 one_used_sbi))))
                 (snd (numbfs_free FreeBlocks 1 one_used_sbi))).
Proof.
  apply (double_free_is_fatal FreeBlocks one_used_sbi).
  - intros k. reflexivity.
  - lia.
  - vm_compute. reflexivity.
Defined.

(** The errors of the body of a release: a read that fails, with nothing
    written. *)
Lemma bitmap_free_err s i c sbi e sbi' :
  numbfs_bitmap_free s i c sbi = (Err e, sbi') ->
  e = EIO /\ sbi' = set_fd (dev_tick (fd sbi)) sbi.
Proof.
  unfold numbfs_bitmap_free. intros Hrun.
  apply bind_err in Hrun as [Hread | (blk & sbi1 & _ & Hrun)].
  { apply read_block_err in Hread. assumption. }
  exfalso.
  apply bind_err in Hrun as [Hb | (b & sbi2 & _ & Hrun)].
  { destruct (if numbfs_bmap_bit i <? 0 then None else buf_get blk (numbfs_bmap_byte i));
      discriminate. }
  apply bind_err in Hrun as [Hbug | (u & sbi3 & _ & Hrun)].
  { destruct (negb (bit_is_set b (numbfs_bmap_bit i))); discriminate. }
  apply bind_err in Hrun as [Hw | (r & sbi4 & _ & Hrun)].
  { unfold attempt in Hw. destruct (numbfs_write_block _ _ sbi3). discriminate. }
  unfold bind, modify, ret in Hrun. discriminate.
Qed.

(** X8.  The bounds check of a release is one-sided: [numbfs_free_block] and
    [numbfs_free_inode] return [-EINVAL] exactly for the indices at or above
    the unit count, and then nothing has changed; no negative index is
    refused with it. *)
Theorem free_einval_iff (c : counter) (sbi sbi' : numbfs_superblock_info) (i : Z) :
  numbfs_free c i sbi = (Err EINVAL, sbi') <-> (region_total c sbi <= i /\ sbi' = sbi).
Proof.
  split.
  - intros Hrun.
    destruct (Z_lt_le_dec i (region_total c sbi)) as [Hlt|Hge].
    + exfalso.
      assert (Hbody : numbfs_bitmap_free (region_start c sbi) i c sbi = (Err EINVAL, sbi')).
      { destruct c; cbn [numbfs_free region_total region_start] in *;
          unfold numbfs_free_inode, numbfs_free_block in Hrun.
        - destruct (Z.geb_spec i (total_inodes sbi)); [lia | assumption].
        - destruct (Z.geb_spec i (data_blocks sbi)); [lia | assumption]. }
      apply bitmap_free_err in Hbody as [E _]. discriminate.
    + split; [assumption|].
      destruct c; cbn [numbfs_free region_total] in *;
        unfold numbfs_free_inode, numbfs_free_block in Hrun.
      * destruct (Z.geb_spec i (total_inodes sbi)); [congruence | lia].
      * destruct (Z.geb_spec i (data_blocks sbi)); [congruence | lia].
  - intros [Hge ->].
    destruct c; cbn [numbfs_free region_total] in *;
      unfold numbfs_free_inode, numbfs_free_block.
    + destruct (Z.geb_spec i (total_inodes sbi)); [reflexivity | lia].
    + destruct (Z.geb_spec i (data_blocks sbi)); [reflexivity | lia].
Qed.

(** The errors of an allocation. *)
Lemma numbfs_alloc_errors c sbi e sbi' :
  numbfs_alloc c sbi = (Err e, sbi') -> e = ENOMEM \/ e = EIO.
Proof.
  intros Hrun.
  destruct (Z.eq_dec (deref c sbi) 0) as [Hz|Hnz].
  - left. destruct c; cbn [numbfs_alloc deref] in *;
      unfold numbfs_alloc_inode, numbfs_alloc_block in Hrun; rewrite Hz in Hrun;
      cbn in Hrun; injection Hrun as <- _; reflexivity.
  - right.
    assert (Hbody : numbfs_bitmap_alloc (region_start c sbi) (region_total c sbi) c sbi
                    = (Err e, sbi')).
    { destruct c; cbn [numbfs_alloc deref region_start region_total] in *;
        unfold numbfs_alloc_inode, numbfs_alloc_block in Hrun.
      - destruct (Z.eqb_spec (free_inodes sbi) 0); [contradiction | assumption].
      - destruct (Z.eqb_spec (free_blocks sbi) 0); [contradiction | assumption]. }
    unfold numbfs_bitmap_alloc in Hbody.
    apply bind_err in Hbody as [Hscan | (res & sbi1 & _ & Hrest)].
    2:{ unfold bind, modify, ret in Hrest. discriminate. }
    apply bitmap_scan_err in Hscan as (-> & _). reflexivity.
Qed.

(** X9.  An allocation that fails has changed neither a counter nor the
    geometry: the counter is lowered after the loop only.  It fails with
    [-ENOMEM] exactly when the counter of the region is zero, and then
    nothing at all has changed; any other failure is [-EIO]. *)
Theorem alloc_failure_keeps_counters (c : counter) (sbi sbi' : numbfs_superblock_info)
    (e : Z) :
  numbfs_alloc c sbi = (Err e, sbi') ->
  free_inodes sbi' = free_inodes sbi
  /\ free_blocks sbi' = free_blocks sbi
  /\ same_geometry sbi sbi'
  /\ ((e = ENOMEM /\ deref c sbi = 0 /\ sbi' = sbi) \/ (e = EIO /\ deref c sbi <> 0)).
Proof.
  intros Hrun.
  pose proof (numbfs_alloc_frame c sbi (Err e) sbi' Hrun) as Hgeo.
  destruct (Z.eq_dec (deref c sbi) 0) as [Hz|Hnz].
  - assert (E : e = ENOMEM /\ sbi' = sbi).
    { destruct c; cbn [numbfs_alloc deref] in *;
        unfold numbfs_alloc_inode, numbfs_alloc_block in Hrun; rewrite Hz in Hrun;
        cbn in Hrun; injection Hrun as <- <-; auto. }
    destruct E as [-> ->]. auto 10.
  - assert (Hbody : numbfs_bitmap_alloc (region_start c sbi) (region_total c sbi) c sbi
                    = (Err e, sbi')).
    { destruct c; cbn [numbfs_alloc deref region_start region_total] in *;
        unfold numbfs_alloc_inode, numbfs_alloc_block in Hrun.
      - destruct (Z.eqb_spec (free_inodes sbi) 0); [contradiction | assumption].
      - destruct (Z.eqb_spec (free_blocks sbi) 0); [contradiction | assumption]. }
    unfold numbfs_bitmap_alloc in Hbody.
    apply bind_err in Hbody as [Hscan | (res & sbi1 & _ & Hrest)].
    2:{ unfold bind, modify, ret in Hrest. discriminate. }
    apply bitmap_scan_err in Hscan as (-> & _ & Hsbi).
    split; [rewrite Hsbi; reflexivity|].
    split; [rewrite Hsbi; reflexivity|].
    split; [assumption|]. right. auto.
Qed.

Lemma alloc_failure_keeps_counters_witness :
  free_blocks (snd (numbfs_alloc FreeBlocks faulty_sbi)) = free_blocks faulty_sbi
  /\ fst (numbfs_alloc FreeBlocks faulty_sbi) = Err EIO.
Proof.
  destruct (alloc_failure_keeps_counters FreeBlocks faulty_sbi
              (snd (numbfs_alloc FreeBlocks faulty_sbi)) EIO)
    as (_ & H & _).
  - vm_compute. reflexivity.
  - split; [exact H | vm_compute; reflexivity].
Defined.

(** ** The inode record: store, then load *)

(** The loads of a record see only the id of the mirror they fill. *)
Lemma load_inode_nid buf o i i' : nid i = nid i' -> load_inode buf o i = load_inode buf o i'.
Proof. unfold load_inode. intros ->. reflexivity. Qed.

(** The stores of a record leave the records beside it. *)
Lemma load_inode_other_slot i x o o' (meta : block) :
  (o + 64 <= o' \/ o' + 64 <= o)%nat ->
  (o + 64 <= length meta)%nat ->
  load_inode (store_inode i o meta) o' x = load_inode meta o' x.
Proof.
  intros Hd H.
  unfold load_inode, store_inode, store_data, I_INO, I_MODE, I_NLINK, I_UID, I_GID, I_SIZE, I_DATA.
  change (Z.to_nat NUMBFS_NUM_DATA_ENTRY) with 10%nat.
  cbn [seq fold_left List.map].
  know_lengths meta.
  repeat rewrite load_store_other by store_side meta.
  reflexivity.
Qed.

Lemma inode_slot_disjoint n n' :
  n / NUMBFS_NODES_PER_BLOCK = n' / NUMBFS_NODES_PER_BLOCK -> n <> n' ->
  (inode_slot n + 64 <= inode_slot n' \/ inode_slot n' + 64 <= inode_slot n)%nat.
Proof.
  unfold inode_slot. change NUMBFS_NODES_PER_BLOCK with 8. intros Hq Hne.
  pose proof (Z.mod_pos_bound n 8 ltac:(lia)).
  pose proof (Z.mod_pos_bound n' 8 ltac:(lia)).
  pose proof (Z.div_mod n 8 ltac:(lia)).
  pose proof (Z.div_mod n' 8 ltac:(lia)).
  lia.
Qed.

Lemma inode_block_present sbi n :
  image_ok sbi = true -> 0 <= n < total_inodes sbi ->
  exists meta, dev_blocks (fd sbi) !! numbfs_inode_blk sbi n = Some meta
               /\ length meta = 512%nat.
Proof.
  intros Himg Hn. unfold image_ok in Himg. apply andb_true_iff in Himg as [Hz Hp].
  pose proof (inode_blk_in_image sbi n Hz Hn) as Hblk.
  pose proof (zones_ordered_inv sbi Hz) as (Hti & Hdb & Hib & Hi1 & Hi2 & Hi3).
  pose proof (bitmap_blocks_nonneg _ Hti). pose proof (bitmap_blocks_nonneg _ Hdb).
  destruct (blocks_present_lookup _ _ _ (numbfs_inode_blk sbi n) Hp) as (meta & Hm & Hlen);
    [lia|].
  exists meta. split; [assumption|]. change BYTES_PER_BLOCK with 512 in Hlen. lia.
Qed.

Lemma sample_inode_fits : inode_fits sample_inode.
Proof.
  unfold inode_fits, is_int, is_u16, sample_inode, NUMBFS_HOLE.
  cbn [mode nlink uid gid size data].
  repeat (split; [first [lia | reflexivity]|]).
  repeat (apply List.Forall_cons; [lia|]). apply List.Forall_nil.
Qed.

(** X10.  A mirror stored and loaded again.  On a laid-out image, when
    [numbfs_dump_inode] returns 0 for a mirror whose fields fit the record
    (the link count and the two ids in 16 bits, ten pointers), a
    [numbfs_get_inode] for the same inode number whose read goes through
    fills in exactly the fields that were stored, and changes no block. *)
Theorem dump_then_get_inode (ino other ino' : numbfs_inode_info)
    (sbi sbi' : numbfs_superblock_info) :
  image_ok sbi = true ->
  0 <= nid ino < total_inodes sbi ->
  inode_fits ino ->
  numbfs_dump_inode (ino, sbi) = (Ok tt, (ino', sbi')) ->
  dev_fault (fd sbi') (dev_clock (fd sbi')) = false ->
  nid other = nid ino ->
  numbfs_get_inode (other, sbi') = (Ok tt, (ino, set_fd (dev_tick (fd sbi')) sbi')).
Proof.
  intros Himg Hn Hfits Hdump Hread Hnid.
  destruct (inode_block_present sbi (nid ino) Himg Hn) as (meta0 & Hmeta0 & Hlen).
  apply dump_inode_inv in Hdump as (meta & Hmeta & Hst).
  injection Hst as -> ->.
  rewrite Hmeta0 in Hmeta. injection Hmeta as <-.
  pose proof (inode_slot_bound (nid ino)) as Hslot.
  rewrite (get_inode_ok other _ (store_inode ino (inode_slot (nid ino)) meta0)).
  - rewrite Hnid, (load_inode_nid _ _ other ino Hnid).
    rewrite load_store_inode by (assumption || lia). reflexivity.
  - assumption.
  - rewrite Hnid. cbn [fd set_fd dev_put dev_blocks]. rewrite inode_blk_set_fd.
    apply lookup_insert_eq.
Qed.

Lemma dump_then_get_inode_witness :
  numbfs_get_inode (mkinode 5 0 0 0 0 0 [],
                    snd (snd (numbfs_dump_inode
                                (sample_inode, small_sbi))))
  = (Ok tt, (sample_inode,
             set_fd (dev_tick (fd (snd (snd (numbfs_dump_inode
                                               (sample_inode, small_sbi))))))
                    (snd (snd (numbfs_dump_inode
                                 (sample_inode, small_sbi)))))).
Proof.
  apply (dump_then_get_inode (sample_inode) (mkinode 5 0 0 0 0 0 [])
           (sample_inode) small_sbi).
  - vm_compute. reflexivity.
  - vm_compute. split; [discriminate | reflexivity].
  - apply sample_inode_fits.
  - vm_compute. reflexivity.
  - reflexivity.
  - reflexivity.
Defined.

(** X11.  The store of one inode leaves the others.  On a laid-out image,
    after [numbfs_dump_inode] has returned 0 for inode [nid], a
    [numbfs_get_inode] for any other inode number of the table fills in what
    it would have filled in before, when the read goes through in both
    cases. *)
Theorem dump_inode_keeps_other_inodes (ino other ino' : numbfs_inode_info)
    (sbi sbi' : numbfs_superblock_info) :
  image_ok sbi = true ->
  0 <= nid ino < total_inodes sbi ->
  0 <= nid other < total_inodes sbi ->
  nid other <> nid ino ->
  numbfs_dump_inode (ino, sbi) = (Ok tt, (ino', sbi')) ->
  dev_fault (fd sbi) (dev_clock (fd sbi)) = false ->
  dev_fault (fd sbi') (dev_clock (fd sbi')) = false ->
  exists got,
    numbfs_get_inode (other, sbi) = (Ok tt, (got, set_fd (dev_tick (fd sbi)) sbi))
    /\ numbfs_get_inode (other, sbi') = (Ok tt, (got, set_fd (dev_tick (fd sbi')) sbi')).
Proof.
  intros Himg Hn Hn' Hne Hdump Hread Hread'.
  destruct (inode_block_present sbi (nid ino) Himg Hn) as (meta0 & Hmeta0 & Hlen).
  destruct (inode_block_present sbi (nid other) Himg Hn') as (meta1 & Hmeta1 & Hlen1).
  apply dump_inode_inv in Hdump as (meta & Hmeta & Hst).
  injection Hst as -> ->.
  rewrite Hmeta0 in Hmeta. injection Hmeta as <-.
  pose proof (inode_slot_bound (nid ino)) as Hslot.
  exists (load_inode meta1 (inode_slot (nid other)) other).
  split; [apply get_inode_ok; assumption|].
  destruct (Z.eq_dec (numbfs_inode_blk sbi (nid other)) (numbfs_inode_blk sbi (nid ino)))
    as [Hsame|Hdiff].
  - rewrite (get_inode_ok other _ (store_inode ino (inode_slot (nid ino)) meta0)).
    + rewrite Hsame, Hmeta0 in Hmeta1. injection Hmeta1 as <-.
      rewrite load_inode_other_slot; [reflexivity| |lia].
      apply inode_slot_disjoint; [|congruence].
      unfold numbfs_inode_blk in Hsame. lia.
    + assumption.
    + cbn [fd set_fd dev_put dev_blocks]. rewrite inode_blk_set_fd, Hsame.
      apply lookup_insert_eq.
  - apply get_inode_ok; [assumption|].
    cbn [fd set_fd dev_put dev_blocks]. rewrite inode_blk_set_fd.
    rewrite lookup_insert_ne by congruence. assumption.
Qed.

Lemma dump_inode_keeps_other_inodes_witness :
  exists got,
    numbfs_get_inode (mkinode 4 0 0 0 0 0 [], small_sbi)
    = (Ok tt, (got, set_fd (dev_tick (fd small_sbi)) small_sbi))
    /\ numbfs_get_inode (mkinode 4 0 0 0 0 0 [],
                         snd (snd (numbfs_dump_inode
                                     (sample_inode, small_sbi))))
       = (Ok tt, (got,
                  set_fd (dev_tick (fd (snd (snd (numbfs_dump_inode
                                                    (sample_inode, small_sbi))))))
                         (snd (snd (numbfs_dump_inode
                                      (sample_inode, small_sbi)))))).
Proof.
  apply (dump_inode_keeps_other_inodes (sample_inode)
           (mkinode 4 0 0 0 0 0 []) (sample_inode) small_sbi).
  - vm_compute. reflexivity.
  - vm_compute. split; [discriminate | reflexivity].
  - vm_compute. split; [discriminate | reflexivity].
  - discriminate.
  - vm_compute. reflexivity.
  - reflexivity.
  - reflexivity.
Defined.

(** ** Reads change nothing *)

Lemma read_block_state blkno sbi r sbi' :
  numbfs_read_block blkno sbi = (r, sbi') -> sbi' = set_fd (dev_tick (fd sbi)) sbi.
Proof.
  unfold numbfs_read_block, pread.
  destruct (dev_fault (fd sbi) (dev_clock (fd sbi))).
  - intros [= <- <-]. reflexivity.
  - destruct (dev_blocks (fd sbi) !! blkno); intros [= <- <-]; reflexivity.
Qed.

Lemma data_get_state idx st r st' : data_get idx st = (r, st') -> st' = st.
Proof.
  unfold data_get, bind, get_inode.
  destruct (if idx <? 0 then None else data (fst st) !! Z.to_nat idx);
    intros [= <- <-]; reflexivity.
Qed.

(** A translation without allocation makes no transfer and changes
    nothing. *)
Lemma blkaddr_lookup_state pos extent st r st' :
  numbfs_inode_blkaddr pos false extent st = (r, st') -> st' = st.
Proof.
  unfold numbfs_inode_blkaddr. destruct extent; [intros [= <- <-]; reflexivity|].
  destruct (Z.quot pos BYTES_PER_BLOCK >=? NUMBFS_NUM_DATA_ENTRY);
    [intros [= <- <-]; reflexivity|].
  unfold bind at 1, ret. apply data_get_state.
Qed.

(** X12.  A read never writes.  Whatever [numbfs_pread_inode] returns, an
    error included, the mirror is as it was, and so are the blocks of the
    device, the two counters and the geometry; it makes one transfer at
    most. *)
Theorem pread_never_writes (rbuf : block) (offset len : Z)
    (ino ino' : numbfs_inode_info) (sbi sbi' : numbfs_superblock_info)
    (r : result block) :
  numbfs_pread_inode rbuf offset len (ino, sbi) = (r, (ino', sbi')) ->
  ino' = ino
  /\ dev_blocks (fd sbi') = dev_blocks (fd sbi)
  /\ free_inodes sbi' = free_inodes sbi
  /\ free_blocks sbi' = free_blocks sbi
  /\ same_geometry sbi sbi'
  /\ (dev_clock (fd sbi') <= S (dev_clock (fd sbi)))%nat.
Proof.
  assert (Hsame : forall r0, (r0, (ino, sbi)) = (r, (ino', sbi')) ->
            ino' = ino /\ dev_blocks (fd sbi') = dev_blocks (fd sbi)
            /\ free_inodes sbi' = free_inodes sbi /\ free_blocks sbi' = free_blocks sbi
            /\ same_geometry sbi sbi'
            /\ (dev_clock (fd sbi') <= S (dev_clock (fd sbi)))%nat).
  { intros r0 [= _ <- <-]. repeat split; lia. }
  assert (Htick : forall r0, (r0, (ino, set_fd (dev_tick (fd sbi)) sbi)) = (r, (ino', sbi')) ->
            ino' = ino /\ dev_blocks (fd sbi') = dev_blocks (fd sbi)
            /\ free_inodes sbi' = free_inodes sbi /\ free_blocks sbi' = free_blocks sbi
            /\ same_geometry sbi sbi'
            /\ (dev_clock (fd sbi') <= S (dev_clock (fd sbi)))%nat).
  { intros r0 [= _ <- <-]. cbn. repeat split; lia. }
  unfold numbfs_pread_inode.
  destruct (Z.rem offset BYTES_PER_BLOCK + len >? BYTES_PER_BLOCK); [apply Hsame|].
  unfold bind at 1.
  destruct (numbfs_inode_blkaddr offset false false (ino, sbi)) as [r1 st1] eqn:Haddr.
  apply blkaddr_lookup_state in Haddr as ->.
  destruct r1 as [target| | |]; try apply Hsame.
  destruct ((target <? 0) && negb (target =? NUMBFS_HOLE)); [apply Hsame|].
  unfold bind at 1, get_inode. cbn [fst].
  destruct ((offset >=? size ino) || (target =? NUMBFS_HOLE)); [apply Hsame|].
  unfold bind at 1, get_sbi. cbn [snd].
  unfold bind, on_sbi. cbn [fst snd].
  destruct (numbfs_read_block (numbfs_data_blk sbi target) sbi) as [r2 sbi2] eqn:Hread.
  apply read_block_state in Hread as ->.
  destruct r2 as [tmp| | |]; try apply Htick.
  destruct (memcpy rbuf 0 tmp (Z.rem offset BYTES_PER_BLOCK) len); apply Htick.
Qed.

Lemma pread_never_writes_witness :
  dev_blocks (fd (snd (snd (numbfs_pread_inode zero_block 3587 5 (snd written)))))
  = dev_blocks (fd (snd (snd written))).
Proof.
  destruct (pread_never_writes zero_block 3587 5 (fst (snd written))
              (fst (snd (numbfs_pread_inode zero_block 3587 5 (snd written))))
              (snd (snd written))
              (snd (snd (numbfs_pread_inode zero_block 3587 5 (snd written))))
              (fst (numbfs_pread_inode zero_block 3587 5 (snd written))))
    as (_ & H & _).
  - vm_compute. reflexivity.
  - exact H.
Defined.

(** ** Holes read in whole blocks *)

Lemma byte_of_Z_multiple len : len mod 256 = 0 -> byte.of_Z len = Byte.x00.
Proof.
  intros H. apply byte.unsigned_inj.
  rewrite byte.unsigned_of_Z. unfold byte.wrap. change (2 ^ 8) with 256.
  rewrite H. reflexivity.
Qed.

(** A hole read with a length whose low byte is 0. *)
Lemma pread_hole_zero rbuf offset len ino sbi d :
  0 <= offset -> offset / BYTES_PER_BLOCK < NUMBFS_NUM_DATA_ENTRY ->
  offset mod BYTES_PER_BLOCK + len <= BYTES_PER_BLOCK ->
  data ino !! Z.to_nat (offset / BYTES_PER_BLOCK) = Some d ->
  d = NUMBFS_HOLE \/ (0 <= d /\ size ino <= offset) ->
  len mod 256 = 0 ->
  Z.of_nat (length rbuf) = BYTES_PER_BLOCK ->
  numbfs_pread_inode rbuf offset len (ino, sbi) = (Ok zero_block, (ino, sbi)).
Proof.
  intros Hpos Hidx Hspan Hlook Hcase Hlen Hbuf.
  rewrite (pread_hole_memset rbuf offset len ino sbi d) by assumption.
  unfold memset, zero_block. rewrite byte_of_Z_multiple by assumption.
  rewrite drop_ge by lia. rewrite app_nil_r. reflexivity.
Qed.

(** X13.  Where a hole does read as zeros: for a read of a hole, or at or
    past the size, whose length is a multiple of 256 (the whole block, 256
    bytes, or nothing) into a buffer of [BYTES_PER_BLOCK] bytes,
    [numbfs_pread_inode] returns 0 with the buffer all zeros, and makes no
    transfer. *)
Theorem pread_hole_whole_block_is_zero (rbuf : block) (offset len : Z)
    (ino : numbfs_inode_info) (sbi : numbfs_superblock_info) (d : Z) :
  0 <= offset -> offset / BYTES_PER_BLOCK < NUMBFS_NUM_DATA_ENTRY ->
  offset mod BYTES_PER_BLOCK + len <= BYTES_PER_BLOCK ->
  data ino !! Z.to_nat (offset / BYTES_PER_BLOCK) = Some d ->
  d = NUMBFS_HOLE \/ (0 <= d /\ size ino <= offset) ->
  len mod 256 = 0 ->
  Z.of_nat (length rbuf) = BYTES_PER_BLOCK ->
  numbfs_pread_inode rbuf offset len (ino, sbi) = (Ok zero_block, (ino, sbi)).
Proof. apply pread_hole_zero. Qed.

Lemma pread_hole_whole_block_is_zero_witness :
  numbfs_pread_inode pattern 1024 512 (snd written) = (Ok zero_block, snd written).
Proof.
  apply (pread_hole_whole_block_is_zero pattern 1024 512 (fst (snd written))
           (snd (snd written)) NUMBFS_HOLE).
  - lia.
  - vm_compute. reflexivity.
  - vm_compute. discriminate.
  - vm_compute. reflexivity.
  - left. reflexivity.
  - reflexivity.
  - vm_compute. reflexivity.
Defined.

(** ** Writes: the mirror and the range error *)

(** What a translation with allocation does to the mirror when it returns a
    block: nothing, or the one pointer of the position, to a block number
    that is not negative. *)
Lemma blkaddr_alloc_mirror pos ino sbi target ino' sbi' :
  numbfs_inode_blkaddr pos true false (ino, sbi) = (Ok target, (ino', sbi')) ->
  let idx := Z.quot pos BYTES_PER_BLOCK in
  (ino' = ino /\ data ino !! Z.to_nat idx = Some target)
  \/ (0 <= target
      /\ ino' = set_data (<[Z.to_nat idx := target]> (data ino)) ino).
Proof.
  intros H idx. unfold numbfs_inode_blkaddr in H. fold idx in H.
  destruct (Z.geb_spec idx NUMBFS_NUM_DATA_ENTRY) as [|Hlt]; [discriminate|].
  apply bind_ok in H as ([] & [ino1 sbi1] & Hfill & Hget).
  apply data_get_inv in Hget as (Hidx & Hlook & Hst).
  injection Hst as <- <-.
  apply bind_ok in Hfill as (d & st0 & Hd & Hfill).
  apply data_get_inv in Hd as (_ & Hd & ->).
  destruct (Z.eqb_spec d NUMBFS_HOLE) as [->|Hne].
  - apply bind_ok in Hfill as (res & stA & Halloc & Hfill).
    apply on_sbi_inv in Halloc as (sbiA & Halloc & ->).
    apply bind_ok in Hfill as (blkno & stA' & Hres & Hfill).
    apply defined_inv in Hres as [-> ->].
    unfold bind at 1, get_sbi in Hfill. cbn [snd] in Hfill.
    apply bind_ok in Hfill as ([] & stB & Hzero & Hset).
    apply on_sbi_inv in Hzero as (sbiB & Hzero & ->).
    unfold on_inode, modify in Hset. cbn [fst snd] in Hset. injection Hset as <- <-.
    cbn [data set_data] in Hlook.
    assert (Hlt' : (Z.to_nat idx < length (data ino))%nat)
      by (eapply lookup_lt_Some; eassumption).
    rewrite list_lookup_insert_eq in Hlook by assumption. injection Hlook as <-.
    apply (numbfs_alloc_inv FreeBlocks) in Halloc as (_ & _ & _ & _ & Hj & _).
    right. split; [lia | reflexivity].
  - injection Hfill as <- <-. left. split; [reflexivity | assumption].
Qed.

(** The mirror after a write that returns 0. *)
Lemma pwrite_inode_mirror buf offset len ino ino' sbi sbi' :
  numbfs_pwrite_inode buf offset len (ino, sbi) = (Ok tt, (ino', sbi')) ->
  size ino' = Z.max (size ino) (offset + len)
  /\ nid ino' = nid ino /\ mode ino' = mode ino /\ nlink ino' = nlink ino
  /\ uid ino' = uid ino /\ gid ino' = gid ino
  /\ length (data ino') = length (data ino)
  /\ forall k, k <> Z.to_nat (offset / BYTES_PER_BLOCK) ->
               data ino' !! k = data ino !! k.
Proof.
  intros H.
  pose proof (pwrite_inode_inv _ _ _ _ _ _ _ H) as (_ & _ & _ & Hpos & _).
  unfold numbfs_pwrite_inode in H.
  destruct (Z.rem offset BYTES_PER_BLOCK + len >? BYTES_PER_BLOCK); [discriminate|].
  unfold bind at 1, on_inode, modify in H. cbn [fst snd] in H.
  apply bind_ok in H as (target & [ino2 sbi2] & Haddr & H).
  destruct (target <? 0); [discriminate|].
  unfold bind at 1, get_sbi in H. cbn [snd] in H.
  apply bind_ok in H as (tmp0 & st3 & Hread & H).
  apply on_sbi_inv in Hread as (sbi3 & _ & ->).
  apply bind_ok in H as (tmp & st3' & Hcpy & H).
  apply defined_inv in Hcpy as [_ ->].
  apply bind_ok in H as ([] & st4 & Hwrite & Hdump).
  apply on_sbi_inv in Hwrite as (sbi4 & _ & ->).
  apply dump_inode_inv in Hdump as (meta & _ & Hst).
  injection Hst as <- _.
  apply blkaddr_alloc_mirror in Haddr.
  rewrite quot_block_nonneg in Haddr by assumption.
  destruct Haddr as [[-> _] | [_ ->]]; cbn [size nid mode nlink uid gid data set_size set_data].
  - repeat (split; [reflexivity|]). reflexivity.
  - repeat (split; [reflexivity|]).
    split; [apply length_insert|].
    intros k Hk. apply list_lookup_insert_ne. congruence.
Qed.

(** X14.  What a write does to the mirror.  When [numbfs_pwrite_inode]
    returns 0, the size of the mirror is the maximum of its size and
    [offset + len], the pointer array has the length it had and differs at
    most in the pointer of the block written, and no other field has
    changed: the blocks never written stay holes. *)
Theorem pwrite_changes_one_pointer (buf : block) (offset len : Z)
    (ino ino' : numbfs_inode_info) (sbi sbi' : numbfs_superblock_info) :
  numbfs_pwrite_inode buf offset len (ino, sbi) = (Ok tt, (ino', sbi')) ->
  size ino' = Z.max (size ino) (offset + len)
  /\ nid ino' = nid ino /\ mode ino' = mode ino /\ nlink ino' = nlink ino
  /\ uid ino' = uid ino /\ gid ino' = gid ino
  /\ length (data ino') = length (data ino)
  /\ forall k, k <> Z.to_nat (offset / BYTES_PER_BLOCK) ->
               data ino' !! k = data ino !! k.
Proof. apply pwrite_inode_mirror. Qed.

Lemma pwrite_changes_one_pointer_witness :
  size (fst (snd written)) = Z.max (size empty_inode) (3587 + 5)
  /\ forall k, k <> Z.to_nat (3587 / BYTES_PER_BLOCK) ->
               data (fst (snd written)) !! k = data empty_inode !! k.
Proof.
  destruct (pwrite_changes_one_pointer pattern 3587 5 empty_inode (fst (snd written))
              small_sbi (snd (snd written)))
    as (H1 & _ & _ & _ & _ & _ & _ & H2).
  - reflexivity.
  - split; assumption.
Defined.

(** The errors of the steps of a write. *)
Lemma dump_inode_err st e st' : numbfs_dump_inode st = (Err e, st') -> e = EIO.
Proof.
  unfold numbfs_dump_inode.
  unfold bind at 1, get_sbi. unfold bind at 1, get_inode.
  intros H. apply bind_err in H as [Hread | (meta & st1 & _ & H)].
  - destruct st as [ino sbi]. unfold on_sbi in Hread. cbn [fst snd] in Hread.
    destruct (numbfs_read_block _ sbi) as [r sbi1] eqn:Hr.
    injection Hread as E _. subst r. apply read_block_err in Hr as [-> _]. reflexivity.
  - unfold bind, attempt in H.
    destruct (on_sbi (numbfs_write_block _ _) st1) as [r st2].
    destruct r; cbn in H; first [discriminate | injection H as E _; subst e; reflexivity].
Qed.

Lemma blkaddr_alloc_err pos ino sbi e st' :
  numbfs_inode_blkaddr pos true false (ino, sbi) = (Err e, st') ->
  e = E2BIG /\ Z.quot pos BYTES_PER_BLOCK >= NUMBFS_NUM_DATA_ENTRY
  \/ e = ENOMEM \/ e = EIO.
Proof.
  unfold numbfs_inode_blkaddr. set (idx := Z.quot pos BYTES_PER_BLOCK).
  destruct (Z.geb_spec idx NUMBFS_NUM_DATA_ENTRY) as [Hge|Hlt].
  { intros [= <- _]. left. split; [reflexivity | lia]. }
  intros H. right.
  apply bind_err in H as [Hfill | ([] & st1 & _ & Hget)].
  2:{ unfold data_get, bind, get_inode in Hget.
      destruct (if idx <? 0 then None else data (fst st1) !! Z.to_nat idx); discriminate. }
  apply bind_err in Hfill as [Hd | (d & st0 & _ & Hfill)].
  { unfold data_get, bind, get_inode in Hd. cbn [fst] in Hd.
    destruct (if idx <? 0 then None else data ino !! Z.to_nat idx); discriminate. }
  destruct (d =? NUMBFS_HOLE); [|discriminate].
  apply bind_err in Hfill as [Halloc | (res & stA & _ & Hfill)].
  { destruct st0 as [ino0 sbi0]. unfold on_sbi in Halloc. cbn [fst snd] in Halloc.
    destruct (numbfs_alloc_block sbi0) as [r sbiA] eqn:Ha.
    injection Halloc as E _. subst r.
    apply (numbfs_alloc_errors FreeBlocks) in Ha. tauto. }
  apply bind_err in Hfill as [Hres | (blkno & stA' & _ & Hfill)].
  { destruct res; discriminate. }
  unfold bind at 1, get_sbi in Hfill.
  apply bind_err in Hfill as [Hzero | ([] & stB & _ & Hset)]; [|discriminate].
  destruct stA' as [inoA sbiA]. unfold on_sbi in Hzero. cbn [fst snd] in Hzero.
  destruct (numbfs_write_block _ _ sbiA) as [r sbiB] eqn:Hw.
  injection Hzero as E _. subst r. apply write_block_err in Hw as [-> _]. auto.
Qed.

(** X15.  The range error of a write, exactly.  For an offset that is not
    negative and a mirror whose pointers are holes or block numbers,
    [numbfs_pwrite_inode] returns [-E2BIG] if and only if the span leaves
    its block ([offset % BYTES_PER_BLOCK + len > BYTES_PER_BLOCK]) or the
    block index is 10 or more; no failure of an allocation or of a transfer
    comes out as this error. *)
Theorem pwrite_range_error_iff (buf : block) (offset len : Z)
    (ino : numbfs_inode_info) (sbi : numbfs_superblock_info) :
  0 <= offset ->
  pointers_valid ino ->
  fst (numbfs_pwrite_inode buf offset len (ino, sbi)) = Err E2BIG
  <-> (offset mod BYTES_PER_BLOCK + len > BYTES_PER_BLOCK
       \/ offset / BYTES_PER_BLOCK >= NUMBFS_NUM_DATA_ENTRY).
Proof.
  intros Hpos [Hlen Hptr]. split.
  - destruct (numbfs_pwrite_inode buf offset len (ino, sbi)) as [r st'] eqn:H.
    cbn [fst]. intros ->.
    unfold numbfs_pwrite_inode in H. rewrite rem_block_nonneg in H by assumption.
    destruct (Z.gtb_spec (offset mod BYTES_PER_BLOCK + len) BYTES_PER_BLOCK) as [Hspan|Hspan];
      [left; lia|].
    right.
    unfold bind at 1, on_inode, modify in H. cbn [fst snd] in H.
    apply bind_err in H as [Haddr | (target & [ino2 sbi2] & Haddr & H)].
    { apply blkaddr_alloc_err in Haddr as [[_ Hge] | [E | E]]; try discriminate.
      rewrite quot_block_nonneg in Hge by assumption. assumption. }
    exfalso.
    apply blkaddr_alloc_mirror in Haddr.
    assert (Htarget : target = NUMBFS_HOLE \/ 0 <= target).
    { destruct Haddr as [[_ Hlook] | [Hge _]]; [|auto].
      cbn [data set_size] in Hlook.
      exact (Forall_lookup_1 _ _ _ _ Hptr Hlook). }
    destruct (Z.ltb_spec target 0) as [Hneg|Hge].
    { injection H as E _. unfold E2BIG, NUMBFS_HOLE in *. lia. }
    unfold bind at 1, get_sbi in H. cbn [snd] in H.
    apply bind_err in H as [Hread | (tmp0 & [ino3 sbi3] & _ & H)].
    { unfold on_sbi in Hread. cbn [fst snd] in Hread.
      destruct (numbfs_read_block _ sbi2) as [r sbi3] eqn:Hr.
      injection Hread as E _. subst r. apply read_block_err in Hr as [E _]. discriminate. }
    apply bind_err in H as [Hcpy | (tmp & st3' & _ & H)].
    { destruct (memcpy tmp0 _ buf 0 len); discriminate. }
    apply bind_err in H as [Hwrite | ([] & st4 & _ & Hdump)].
    { destruct st3' as [ino4 sbi4]. unfold on_sbi in Hwrite. cbn [fst snd] in Hwrite.
      destruct (numbfs_write_block _ _ sbi4) as [r sbi5] eqn:Hw.
      injection Hwrite as E _. subst r. apply write_block_err in Hw as [E _]. discriminate. }
    apply dump_inode_err in Hdump. discriminate.
  - intros Hcase. unfold numbfs_pwrite_inode. rewrite rem_block_nonneg by assumption.
    destruct (Z.gtb_spec (offset mod BYTES_PER_BLOCK + len) BYTES_PER_BLOCK) as [Hspan|Hspan];
      [reflexivity|].
    destruct Hcase as [Hc|Hc]; [lia|].
    unfold bind at 1, on_inode, modify. cbn [fst snd].
    unfold bind, numbfs_inode_blkaddr. rewrite quot_block_nonneg by assumption.
    destruct (Z.geb_spec (offset / BYTES_PER_BLOCK) NUMBFS_NUM_DATA_ENTRY); [reflexivity | lia].
Qed.

Lemma pwrite_range_error_iff_witness :
  fst (numbfs_pwrite_inode pattern 500 20 (sample_inode, small_sbi)) = Err E2BIG
  <-> (500 mod BYTES_PER_BLOCK + 20 > BYTES_PER_BLOCK
       \/ 500 / BYTES_PER_BLOCK >= NUMBFS_NUM_DATA_ENTRY).
Proof.
  apply (pwrite_range_error_iff pattern 500 20 sample_inode small_sbi).
  - lia.
  - split; [reflexivity|].
    unfold sample_inode, NUMBFS_HOLE. cbn [data].
    repeat (apply List.Forall_cons; [lia|]). apply List.Forall_nil.
Defined.

(** X26.  A write leaves the holes reading as zeros.  After
    [numbfs_pwrite_inode] has returned 0 for some block of a file, the read
    of the whole of any other block of the file whose pointer was a hole
    returns 0 with [BYTES_PER_BLOCK] zero bytes, without a transfer. *)
Theorem pwrite_leaves_holes_reading_zero (buf rbuf : block) (offset len k : Z)
    (ino ino' : numbfs_inode_info) (sbi sbi' : numbfs_superblock_info) :
  numbfs_pwrite_inode buf offset len (ino, sbi) = (Ok tt, (ino', sbi')) ->
  0 <= k < NUMBFS_NUM_DATA_ENTRY ->
  k <> offset / BYTES_PER_BLOCK ->
  data ino !! Z.to_nat k = Some NUMBFS_HOLE ->
  Z.of_nat (length rbuf) = BYTES_PER_BLOCK ->
  numbfs_pread_inode rbuf (k * BYTES_PER_BLOCK) BYTES_PER_BLOCK (ino', sbi')
  = (Ok zero_block, (ino', sbi')).
Proof.
  intros Hwrite Hk Hne Hhole Hbuf.
  pose proof (pwrite_inode_inv _ _ _ _ _ _ _ Hwrite) as (_ & _ & _ & Hpos & _).
  pose proof (pwrite_inode_mirror _ _ _ _ _ _ _ Hwrite) as (_ & _ & _ & _ & _ & _ & _ & Hdata).
  assert (Hidx : 0 <= offset / BYTES_PER_BLOCK)
    by (apply Z.div_pos; [assumption | reflexivity]).
  assert (Hq : k * BYTES_PER_BLOCK / BYTES_PER_BLOCK = k)
    by (apply Z.div_mul; discriminate).
  apply (pread_hole_zero rbuf (k * BYTES_PER_BLOCK) BYTES_PER_BLOCK ino' sbi' NUMBFS_HOLE).
  - change BYTES_PER_BLOCK with 512. lia.
  - rewrite Hq. lia.
  - rewrite Z.mod_mul by discriminate. lia.
  - rewrite Hq, Hdata by lia. assumption.
  - left. reflexivity.
  - reflexivity.
  - assumption.
Qed.

Lemma pwrite_leaves_holes_reading_zero_witness :
  numbfs_pread_inode pattern (3 * BYTES_PER_BLOCK) BYTES_PER_BLOCK (snd written)
  = (Ok zero_block, snd written).
Proof.
  apply (pwrite_leaves_holes_reading_zero pattern pattern 3587 5 3 empty_inode
           (fst (snd written)) small_sbi (snd (snd written))).
  - reflexivity.
  - vm_compute. split; [discriminate | reflexivity].
  - vm_compute. discriminate.
  - reflexivity.
  - vm_compute. reflexivity.
Defined.

(** ** The geometry of a device that is large enough *)

(** X16.  A device with room for the two reserved blocks, the inode bitmap,
    the inode table and three blocks more, and small enough for the [int]s of
    the computation (the threshold of the size check, and the block count
    with the 7 that the ceiling division adds), passes the size check of
    [numbfs_mkfs], and its geometry is sound: the inode bitmap starts at
    block 2, the zones follow one another in the order of the format, each
    as long as its content needs, there is at least one data block, every
    data block is counted free, and the data zone ends inside the device.
    On a device of at most 2 GiB the byte offset of every block of the image
    fits an [int]. *)
Theorem mkfs_geometry_of_large_device (sbi : numbfs_superblock_info) :
  0 < total_inodes sbi ->
  BYTES_PER_BLOCK * (2 + bitmap_blocks (total_inodes sbi)
                     + DIV_ROUND_UP (total_inodes sbi * 64) BYTES_PER_BLOCK + 3)
  <= size_bytes sbi ->
  2 * BYTES_PER_BLOCK + round_up (total_inodes sbi * 64) BYTES_PER_BLOCK + 3 <= INT_MAX ->
  Z.quot (size_bytes sbi) BYTES_PER_BLOCK + 7 <= INT_MAX ->
  exists sbi',
    numbfs_mkfs_geometry sbi = (Ok tt, sbi')
    /\ total_inodes sbi' = total_inodes sbi
    /\ ibitmap_start sbi' = 2
    /\ inode_start sbi' = ibitmap_start sbi' + bitmap_blocks (total_inodes sbi)
    /\ bbitmap_start sbi'
       = inode_start sbi' + DIV_ROUND_UP (total_inodes sbi * 64) BYTES_PER_BLOCK
    /\ data_start sbi' = bbitmap_start sbi' + bitmap_blocks (data_blocks sbi')
    /\ 1 <= data_blocks sbi'
    /\ free_blocks sbi' = data_blocks sbi'
    /\ zones_ordered sbi' = true
    /\ geometry_ok sbi'
    /\ is_int (data_start sbi' + data_blocks sbi')
    /\ (size_bytes sbi <= 2 ^ 31 -> offsets_fit sbi').
Proof.
  intros Hn Hsize Hthreshold Hblocks.
  destruct (numbfs_mkfs_geometry sbi) as [r sbi'] eqn:Hrun.
  pose proof Hrun as Hrun0.
  unfold numbfs_mkfs_geometry in Hrun. unfold bitmap_blocks, DIV_ROUND_UP, round_up in *.
  change BYTES_PER_BLOCK with 512 in *. change BITS_PER_BYTE with 8 in *.
  set (ibitmap := Z.quot (Z.quot (total_inodes sbi + 8 - 1) 8 + 512 - 1) 512) in *.
  set (table := Z.quot (total_inodes sbi * 64 + 512 - 1) 512) in *.
  assert (Hibitmap : 1 <= ibitmap) by (unfold ibitmap; Z.quot_rem_to_equations; lia).
  assert (Htable : 1 <= table) by (unfold table; Z.quot_rem_to_equations; lia).
  destruct (Z.leb_spec (size_bytes sbi) (2 * 512 + table * 512 + 3)) as [|_]; [lia|].
  injection Hrun as <- <-.
  set (total_blocks := Z.quot (size_bytes sbi) 512) in *.
  assert (Htb : 2 + ibitmap + table + 3 <= total_blocks).
  { unfold total_blocks. Z.quot_rem_to_equations. lia. }
  set (remain := total_blocks - (2 + ibitmap + table) - 1) in *.
  set (over_remain := Z.quot (Z.quot (remain + 8 - 1) 8 + 512 - 1) 512) in *.
  assert (Hdata : 1 <= remain - over_remain).
  { assert (2 <= remain) by (unfold remain; lia).
    unfold over_remain. Z.quot_rem_to_equations. lia. }
  assert (Hgeo : geometry_ok
                   (mksbi (fd sbi) (feature sbi) (total_inodes sbi) (free_inodes sbi)
                      (remain - over_remain) (remain - over_remain) 2 (2 + ibitmap)
                      (2 + ibitmap + table)
                      (2 + ibitmap + table
                       + Z.quot (Z.quot (remain - over_remain + 8 - 1) 8 + 512 - 1) 512)
                      (size_bytes sbi))).
  { eapply (mkfs_geometry_with_data sbi); [assumption | exact Hrun0 |].
    cbn [data_blocks]. assumption. }
  eexists. split; [reflexivity|].
  cbn [total_inodes ibitmap_start inode_start bbitmap_start data_start data_blocks
       free_blocks].
  repeat (split; [first [reflexivity | assumption]|]).
  split.
  { unfold zones_ordered, bitmap_blocks, DIV_ROUND_UP.
    cbn [total_inodes ibitmap_start inode_start bbitmap_start data_start data_blocks].
    change BYTES_PER_BLOCK with 512. change BITS_PER_BYTE with 8.
    fold ibitmap table.
    repeat (apply andb_true_intro; split); apply Z.leb_le; lia. }
  split; [exact Hgeo|].
  destruct Hgeo as (_ & _ & _ & _ & Hend).
  cbn [data_start data_blocks size_bytes] in Hend.
  change BYTES_PER_BLOCK with 512 in Hend.
  assert (Hdiv : size_bytes sbi / 512 = total_blocks).
  { unfold total_blocks. symmetry. apply Z.quot_div_nonneg; lia. }
  rewrite Hdiv in Hend.
  split.
  - unfold is_int, INT_MAX in *.
    cbn [data_start data_blocks].
    set (over := Z.quot (Z.quot (remain - over_remain + 8 - 1) 8 + 512 - 1) 512) in *.
    assert (0 <= over) by (unfold over; Z.quot_rem_to_equations; lia).
    lia.
  - intros Hsmall. unfold offsets_fit, INT_MAX.
    cbn [data_start data_blocks]. change BYTES_PER_BLOCK with 512.
    assert (total_blocks * 512 <= size_bytes sbi).
    { unfold total_blocks. Z.quot_rem_to_equations. lia. }
    set (over := Z.quot (Z.quot (remain - over_remain + 8 - 1) 8 + 512 - 1) 512) in *.
    lia.
Qed.

Lemma mkfs_geometry_of_large_device_witness :
  exists sbi',
    numbfs_mkfs_geometry (numbfs_init_config (blank_device 8) 8 4096) = (Ok tt, sbi')
    /\ data_start sbi' = 5 /\ data_blocks sbi' = 2 /\ offsets_fit sbi'.
Proof.
  destruct (mkfs_geometry_of_large_device (numbfs_init_config (blank_device 8) 8 4096))
    as (sbi' & Hrun & Hrest).
  - reflexivity.
  - vm_compute. discriminate.
  - vm_compute. discriminate.
  - vm_compute. discriminate.
  - exists sbi'. split; [exact Hrun|].
    destruct Hrest as (_ & _ & _ & _ & _ & _ & _ & _ & _ & _ & Hfit).
    specialize (Hfit ltac:(vm_compute; discriminate)).
    vm_compute in Hrun. injection Hrun as <-. repeat split. exact Hfit.
Defined.

(** ** A directory when no data block is left *)

Lemma blkaddr_hole_without_block pos ino sbi :
  0 <= pos -> pos / BYTES_PER_BLOCK < NUMBFS_NUM_DATA_ENTRY ->
  data ino !! Z.to_nat (pos / BYTES_PER_BLOCK) = Some NUMBFS_HOLE ->
  free_blocks sbi = 0 ->
  numbfs_inode_blkaddr pos true false (ino, sbi) = (Err ENOMEM, (ino, sbi)).
Proof.
  intros Hpos Hidx Hd Hfree. unfold numbfs_inode_blkaddr.
  rewrite quot_block_nonneg by assumption.
  destruct (Z.geb_spec (pos / BYTES_PER_BLOCK) NUMBFS_NUM_DATA_ENTRY); [lia|].
  assert (0 <= pos / BYTES_PER_BLOCK) by (apply Z.div_pos; [assumption | reflexivity]).
  unfold bind at 1. unfold bind at 1.
  rewrite (data_get_ok _ _ _ NUMBFS_HOLE) by assumption.
  rewrite Z.eqb_refl. unfold bind at 1, on_sbi. cbn [fst snd].
  unfold numbfs_alloc_block. rewrite Hfree. reflexivity.
Qed.

(** X17.  A directory that cannot be made for lack of a data block keeps
    its inode.  On a laid-out image with consistent counters and a medium
    without faults, with a free inode and no free data block,
    [numbfs_empty_dir] returns [-ENOMEM]; the inode it has taken stays marked
    in the inode bitmap and the counter of free inodes stays one lower. *)
Theorem empty_dir_without_block_keeps_inode (sbi : numbfs_superblock_info)
    (getuid getgid pnid : Z) (buf : block) :
  image_ok sbi = true ->
  bitmap_consistent sbi ->
  no_faults (fd sbi) ->
  1 <= free_inodes sbi ->
  free_blocks sbi = 0 ->
  exists nid sbi',
    numbfs_empty_dir getuid getgid buf pnid sbi = (Err ENOMEM, sbi')
    /\ 0 <= nid < total_inodes sbi
    /\ unit_bit (dev_blocks (fd sbi)) (ibitmap_start sbi) nid = Some false
    /\ unit_bit (dev_blocks (fd sbi')) (ibitmap_start sbi') nid = Some true
    /\ free_inodes sbi' = free_inodes sbi - 1.
Proof.
  intros Himg Hcons Hnf Hfi Hfb.
  destruct (first_clear (dev_blocks (fd sbi)) (region_start FreeInodes sbi)
              (region_total FreeInodes sbi)) as (j1 & Hj1 & Hclear1 & Hset1).
  { intros i Hi. apply image_units_defined; assumption. }
  { apply consistent_free_count; try assumption. cbn [deref]. lia. }
  destruct (numbfs_alloc_finds FreeInodes sbi j1 Hnf) as (clk1 & Halloc1);
    try assumption.
  { cbn [deref]. lia. }
  cbn [region_start region_total numbfs_alloc deref assign] in *.
  set (B1 := with_unit true (dev_blocks (fd sbi)) (ibitmap_start sbi) j1) in *.
  set (sbi1 := set_free_inodes (free_inodes sbi - 1)
                 (set_fd (mkdev B1 clk1 (dev_fault (fd sbi))) sbi)) in *.
  set (ino0 := fresh_dir_inode getuid getgid j1).
  set (dots := dot_entries j1 pnid buf).
  assert (Hwrite : numbfs_pwrite_inode dots 0 128 (ino0, sbi1)
                   = (Err ENOMEM, (set_size (Z.max (size ino0) (0 + 128)) ino0, sbi1))).
  { unfold numbfs_pwrite_inode.
    change (Z.rem 0 BYTES_PER_BLOCK + 128 >? BYTES_PER_BLOCK) with false. cbv iota.
    unfold bind at 1, on_inode, modify. cbn [fst snd].
    unfold bind. rewrite blkaddr_hole_without_block; try reflexivity; try lia.
    exact Hfb. }
  exists j1, sbi1. split.
  { rewrite empty_dir_unfold. unfold bind at 1.
    unfold numbfs_alloc_inode in *. rewrite Halloc1. fold sbi1.
    unfold bind at 1. cbn [defined ret].
    unfold bind at 1, with_inode. fold ino0 dots. rewrite Hwrite. reflexivity. }
  split; [assumption|]. split; [assumption|]. split; [|reflexivity].
  change (dev_blocks (fd sbi1)) with B1. change (ibitmap_start sbi1) with (ibitmap_start sbi).
  unfold B1. rewrite with_unit_bits by (lia || rewrite Hclear1; eauto).
  rewrite Z.eqb_refl. reflexivity.
Qed.

Lemma empty_dir_without_block_keeps_inode_witness :
  exists nid sbi',
    numbfs_empty_dir 1000 1000 zero_block 1 no_block_sbi = (Err ENOMEM, sbi')
    /\ 0 <= nid < total_inodes no_block_sbi
    /\ unit_bit (dev_blocks (fd no_block_sbi)) (ibitmap_start no_block_sbi) nid = Some false
    /\ unit_bit (dev_blocks (fd sbi')) (ibitmap_start sbi') nid = Some true
    /\ free_inodes sbi' = free_inodes no_block_sbi - 1.
Proof.
  apply (empty_dir_without_block_keeps_inode no_block_sbi 1000 1000 1 zero_block).
  - vm_compute. reflexivity.
  - split; vm_compute; reflexivity.
  - intros k. reflexivity.
  - vm_compute. discriminate.
  - reflexivity.
Defined.

(** ** The superblock *)

(** The offsets of the fields that [disk.h] declares under the names that
    the code uses. *)
Lemma super_offsets :
  offsetof numbfs_super_block "s_magic" = Some S_MAGIC
  /\ offsetof numbfs_super_block "s_feature" = Some S_FEATURE
  /\ offsetof numbfs_super_block "s_ibitmap_start" = Some S_IBITMAP_START
  /\ offsetof numbfs_super_block "s_inode_start" = Some S_INODE_START
  /\ offsetof numbfs_super_block "s_bbitmap_start" = Some S_BBITMAP_START
  /\ offsetof numbfs_super_block "s_data_start" = Some S_DATA_START.
Proof. vm_compute. repeat split; reflexivity. Qed.

Lemma get_superblock_read d sbi buf :
  dev_fault d (dev_clock d) = false ->
  dev_blocks d !! 1 = Some buf ->
  numbfs_get_superblock d sbi
  = if negb (le32_to_cpu (load S_MAGIC 4 buf) =? NUMBFS_MAGIC)
    then (Err EINVAL, set_fd (dev_tick d) sbi)
    else (Ok tt, load_super buf (set_fd (dev_tick d) sbi)).
Proof.
  intros Hf Hb. unfold numbfs_get_superblock.
  unfold bind at 1, modify.
  change (Z.quot NUMBFS_SUPER_OFFSET BYTES_PER_BLOCK) with 1.
  unfold bind. rewrite (read_block_ok 1 (set_fd d sbi) buf) by assumption.
  cbn [fd set_fd].
  destruct (negb (le32_to_cpu (load S_MAGIC 4 buf) =? NUMBFS_MAGIC)); reflexivity.
Qed.

(** X18.  The signature that [numbfs_get_superblock] asks for.  When the
    read of block 1 goes through, the call returns 0 if the block starts
    with the bytes 42 4D 55 4E (hexadecimal), and [-EINVAL] if it starts
    with anything else; in the second case the mirror is bound to the device
    and none of its other fields has changed. *)
Theorem get_superblock_signature (d : device) (sbi : numbfs_superblock_info)
    (buf : block) :
  dev_fault d (dev_clock d) = false ->
  dev_blocks d !! 1 = Some buf ->
  (4 <= length buf)%nat ->
  (take 4 buf = magic_bytes ->
   numbfs_get_superblock d sbi = (Ok tt, load_super buf (set_fd (dev_tick d) sbi)))
  /\ (take 4 buf <> magic_bytes ->
      numbfs_get_superblock d sbi = (Err EINVAL, set_fd (dev_tick d) sbi)).
Proof.
  intros Hf Hb Hlen.
  rewrite (get_superblock_read d sbi buf Hf Hb).
  unfold load, S_MAGIC, le32_to_cpu. rewrite drop_0.
  split; intros Hsig.
  - rewrite Hsig. reflexivity.
  - destruct (Z.eqb_spec (le_combine (take 4 buf)) NUMBFS_MAGIC) as [E|]; [|reflexivity].
    exfalso. apply Hsig.
    rewrite <- (split_le_combine' (take 4 buf) 4) by (rewrite length_take; lia).
    rewrite E. reflexivity.
Qed.

Lemma get_superblock_signature_witness :
  (take 4 zero_block = magic_bytes ->
   numbfs_get_superblock (blank_device 8) small_sbi
   = (Ok tt, load_super zero_block (set_fd (dev_tick (blank_device 8)) small_sbi)))
  /\ (take 4 zero_block <> magic_bytes ->
      numbfs_get_superblock (blank_device 8) small_sbi
      = (Err EINVAL, set_fd (dev_tick (blank_device 8)) small_sbi)).
Proof.
  apply (get_superblock_signature (blank_device 8) small_sbi zero_block).
  - reflexivity.
  - vm_compute. reflexivity.
  - vm_compute. lia.
Defined.

Lemma length_memset s c n : (Z.to_nat n <= length (memset s c n))%nat.
Proof. unfold memset. rewrite length_app, repeat_length. lia. Qed.

Lemma load_store_super sbi (buf : block) x :
  super_fits sbi ->
  le32_to_cpu (load S_MAGIC 4 (store_super sbi buf)) = NUMBFS_MAGIC
  /\ load_super (store_super sbi buf) x
     = mksbi (fd x) 0 (total_inodes sbi) (free_inodes sbi) (data_blocks sbi)
             (free_blocks sbi) (ibitmap_start sbi) (inode_start sbi)
             (bbitmap_start sbi) (data_start sbi) (size_bytes x).
Proof.
  intros (H1 & H2 & H3 & H4 & H5 & H6 & H7 & H8).
  unfold load_super, store_super, S_MAGIC, S_FEATURE, S_IBITMAP_START, S_INODE_START,
    S_BBITMAP_START, S_DATA_START, S_TOTAL_INODES, S_FREE_INODES, S_DATA_BLOCKS,
    S_FREE_BLOCKS.
  pose proof (length_memset buf 0 BYTES_PER_BLOCK) as Hm.
  change (Z.to_nat BYTES_PER_BLOCK) with 512%nat in Hm.
  set (meta := memset buf 0 BYTES_PER_BLOCK) in *.
  assert (Hmagic : length (le_split 4 NUMBFS_MAGIC) = 4%nat) by reflexivity.
  assert (L0 : length (store 0 (le_split 4 NUMBFS_MAGIC) meta) = length meta)
    by (rewrite length_store; [reflexivity | rewrite Hmagic; lia]).
  know_lengths meta.
  split.
  - repeat rewrite load_store_other by store_side meta.
    rewrite load_store_same by (reflexivity || lia). reflexivity.
  - repeat first
      [ rewrite load_store_same
          by first [apply length_cpu_to_le32 | store_side meta]
      | rewrite load_store_other by first [store_side meta | rewrite Hmagic; lia] ].
    rewrite !le32_roundtrip by (assumption || (unfold is_int; lia)).
    reflexivity.
Qed.

(** X19.  The superblock written and read again, on a little-endian host.
    After the last step of [numbfs_mkfs] has returned 0 for a mirror whose
    fields fit 32 bits, a [numbfs_get_superblock] on the device, whose read
    goes through, returns 0 and fills in the four zone starts and the four
    counts of that mirror, and feature bits 0; it leaves the size of the
    mirror it fills as it was. *)
Theorem mkfs_super_then_get_superblock (sbi sbi' any : numbfs_superblock_info)
    (buf : block) :
  super_fits sbi ->
  numbfs_mkfs_super buf sbi = (Ok tt, sbi') ->
  dev_fault (fd sbi') (dev_clock (fd sbi')) = false ->
  numbfs_get_superblock (fd sbi') any
  = (Ok tt, mksbi (dev_tick (fd sbi')) 0 (total_inodes sbi) (free_inodes sbi)
                  (data_blocks sbi) (free_blocks sbi) (ibitmap_start sbi)
                  (inode_start sbi) (bbitmap_start sbi) (data_start sbi)
                  (size_bytes any)).
Proof.
  intros Hfits Hrun Hread.
  unfold numbfs_mkfs_super, bind, get in Hrun.
  change (Z.quot NUMBFS_SUPER_OFFSET BYTES_PER_BLOCK) with 1 in Hrun.
  apply write_block_inv in Hrun as (_ & _ & ->).
  cbn [fd set_fd] in *.
  rewrite (get_superblock_read _ any (store_super sbi buf)); [|assumption|].
  2:{ cbn [dev_put dev_blocks]. apply lookup_insert_eq. }
  destruct (load_store_super sbi buf
              (set_fd (dev_tick (dev_put 1 (store_super sbi buf) (fd sbi))) any) Hfits)
    as [Hmagic Hload].
  rewrite Hmagic, Z.eqb_refl. cbn [negb]. rewrite Hload. reflexivity.
Qed.

Lemma mkfs_super_then_get_superblock_witness :
  numbfs_get_superblock (fd (snd (numbfs_mkfs_super pattern small_sbi))) drifted_sbi
  = (Ok tt, mksbi (dev_tick (fd (snd (numbfs_mkfs_super pattern small_sbi)))) 0
                  (total_inodes small_sbi) (free_inodes small_sbi)
                  (data_blocks small_sbi) (free_blocks small_sbi)
                  (ibitmap_start small_sbi) (inode_start small_sbi)
                  (bbitmap_start small_sbi) (data_start small_sbi)
                  (size_bytes drifted_sbi)).
Proof.
  apply (mkfs_super_then_get_superblock small_sbi
           (snd (numbfs_mkfs_super pattern small_sbi)) drifted_sbi pattern).
  - unfold super_fits, is_int. vm_compute. repeat split; discriminate.
  - vm_compute. reflexivity.
  - reflexivity.
Defined.

(** ** The zones after the format *)





Lemma repeat_replicate {A : Type} (x : A) n : repeat x n = replicate n x.
Proof. induction n as [|n IH]; cbn; [reflexivity | rewrite IH; reflexivity]. Qed.







(** ** Counting the free units, as the tests do *)

Lemma assert_read_block_ok blkno sbi buf :
  dev_fault (fd sbi) (dev_clock (fd sbi)) = false ->
  dev_blocks (fd sbi) !! blkno = Some buf ->
  assert_read_block blkno sbi = (Ok buf, set_fd (dev_tick (fd sbi)) sbi).
Proof.
  intros Hf Hb. unfold assert_read_block, bind, attempt.
  rewrite (read_block_ok _ _ buf) by assumption. reflexivity.
Qed.

Lemma count_loop_ok n : forall i buf cnt sbi s,
  no_faults (fd sbi) ->
  0 <= i ->
  (Z.rem i NUMBFS_BLOCKS_PER_BLOCK <> 0 ->
   dev_blocks (fd sbi) !! numbfs_bmap_blk s i = Some buf) ->
  (forall k, i <= k < i + Z.of_nat n -> is_Some (unit_bit (dev_blocks (fd sbi)) s k)) ->
  exists clk,
    count_loop n i s buf cnt sbi
    = (Ok (cnt + Z.of_nat (length (List.filter (unit_is_clear (dev_blocks (fd sbi)) s)
                                               (seqZ i (Z.of_nat n))))),
       set_fd (mkdev (dev_blocks (fd sbi)) clk (dev_fault (fd sbi))) sbi).
Proof.
  induction n as [|n IH]; intros i buf cnt sbi s Hnf Hi Hbuf Hdef.
  - exists (dev_clock (fd sbi)). cbn. rewrite Z.add_0_r. destruct sbi as [[] ]. reflexivity.
  - destruct (Hdef i ltac:(lia)) as [v Hv].
    destruct (unit_bit_inv _ _ _ _ Hi Hv) as (blk & b & Hblk & Hb & Hbv).
    assert (Hload : exists sbi1,
               (if Z.rem i NUMBFS_BLOCKS_PER_BLOCK =? 0
                then assert_read_block (numbfs_bmap_blk s i)
                else ret buf) sbi = (Ok blk, sbi1)
               /\ dev_blocks (fd sbi1) = dev_blocks (fd sbi)
               /\ dev_fault (fd sbi1) = dev_fault (fd sbi)
               /\ sbi1 = set_fd (fd sbi1) sbi).
    { destruct (Z.eqb_spec (Z.rem i NUMBFS_BLOCKS_PER_BLOCK) 0) as [E|N].
      - exists (set_fd (dev_tick (fd sbi)) sbi). split; [|auto].
        apply assert_read_block_ok; [apply Hnf | assumption].
      - exists sbi. rewrite (Hbuf N) in Hblk. injection Hblk as ->.
        split; [reflexivity|]. destruct sbi; auto. }
    destruct Hload as (sbi1 & Hrun & Hblocks1 & Hfault1 & Hsbi1).
    cbn [count_loop]. unfold bind at 1. rewrite Hrun.
    unfold bind at 1. rewrite Hb. cbn [defined ret]. rewrite Hbv.
    destruct (IH (i + 1) blk (if negb v then cnt + 1 else cnt) sbi1 s) as (clk & Hloop).
    + intros k. rewrite Hfault1. apply Hnf.
    + lia.
    + intros Hr. rewrite Hblocks1, bmap_blk_succ by (assumption || lia). assumption.
    + intros k Hk. rewrite Hblocks1. apply Hdef. lia.
    + exists clk. rewrite Hloop, Hblocks1, Hfault1, Hsbi1. f_equal. f_equal.
      rewrite Nat2Z.inj_succ, (seqZ_cons i) by lia.
      replace (Z.succ i) with (i + 1) by lia.
      replace (Z.pred (Z.succ (Z.of_nat n))) with (Z.of_nat n) by lia.
      cbn [List.filter]. unfold unit_is_clear at 2. rewrite Hv.
      destruct v; cbn [negb length]; lia.
Qed.

(** Where every unit has a bit, the clear ones are those that are not
    set. *)
Lemma clear_units_count blocks s (l : list Z) :
  (forall k, In k l -> is_Some (unit_bit blocks s k)) ->
  Z.of_nat (length (List.filter (unit_is_clear blocks s) l))
  = Z.of_nat (length l) - Z.of_nat (length (List.filter (unit_is_set blocks s) l)).
Proof.
  induction l as [|x l IH]; intros Hdef; [reflexivity|].
  cbn [List.filter length]. unfold unit_is_clear at 1, unit_is_set at 1.
  destruct (Hdef x ltac:(left; reflexivity)) as [v Hv]. rewrite Hv.
  specialize (IH ltac:(intros k Hk; apply Hdef; right; assumption)).
  destruct v; cbn [length]; lia.
Qed.

Lemma numbfs_count_ok c sbi :
  image_ok sbi = true ->
  no_faults (fd sbi) ->
  exists clk,
    numbfs_count c sbi
    = (Ok (region_total c sbi
           - popcount (dev_blocks (fd sbi)) (region_start c sbi) (region_total c sbi)),
       set_fd (mkdev (dev_blocks (fd sbi)) clk (dev_fault (fd sbi))) sbi).
Proof.
  intros Himg Hnf.
  pose proof Himg as Himg0. unfold image_ok in Himg0. apply andb_true_iff in Himg0 as [Hz _].
  pose proof (zones_ordered_inv sbi Hz) as (Hti & Hdb & _).
  assert (Htot : 0 <= region_total c sbi) by (destruct c; assumption).
  destruct (count_loop_ok (Z.to_nat (region_total c sbi)) 0 [] 0 sbi (region_start c sbi))
    as (clk & Hloop); try assumption; try lia.
  { intros H. exfalso. apply H. reflexivity. }
  { intros k Hk. apply image_units_defined; [assumption | lia]. }
  exists clk.
  rewrite Z2Nat.id in Hloop by assumption.
  rewrite clear_units_count in Hloop.
  2:{ intros k Hk. apply seqZ_In in Hk. apply image_units_defined; [assumption | lia]. }
  rewrite length_seqZ, Z2Nat.id in Hloop by assumption.
  unfold popcount.
  destruct c; cbn [numbfs_count region_start region_total] in *;
    unfold numbfs_inode_count, numbfs_block_count, bind, get; exact Hloop.
Qed.

(** X22.  The count of the tests.  On a laid-out image and a medium without
    faults, [numbfs_block_count] and [numbfs_inode_count] return the number
    of clear units of their bitmap and leave the blocks as they were; the
    assertion [sbi.free_blocks == numbfs_block_count()] of the tests, and the
    one on inodes, holds exactly when the counter equals the unit count less
    the set bits. *)
Theorem count_matches_counter_iff (c : counter) (sbi : numbfs_superblock_info) :
  image_ok sbi = true ->
  no_faults (fd sbi) ->
  dev_blocks (fd (snd (numbfs_count c sbi))) = dev_blocks (fd sbi)
  /\ fst (numbfs_count c sbi)
     = Ok (region_total c sbi
           - popcount (dev_blocks (fd sbi)) (region_start c sbi) (region_total c sbi))
  /\ (fst (numbfs_count c sbi) = Ok (deref c sbi) <-> counter_consistent c sbi).
Proof.
  intros Himg Hnf.
  destruct (numbfs_count_ok c sbi Himg Hnf) as (clk & Hrun).
  rewrite Hrun. cbn [fst snd fd set_fd dev_blocks].
  split; [reflexivity|]. split; [reflexivity|].
  unfold counter_consistent. split.
  - intros [= E]. lia.
  - intros ->. reflexivity.
Qed.

Lemma count_matches_counter_iff_witness :
  fst (numbfs_count FreeBlocks one_used_sbi) = Ok (deref FreeBlocks one_used_sbi)
  <-> counter_consistent FreeBlocks one_used_sbi.
Proof.
  destruct (count_matches_counter_iff FreeBlocks one_used_sbi) as (_ & _ & H).
  - vm_compute. reflexivity.
  - intros k. reflexivity.
  - exact H.
Defined.

(** ** Counting the units in use, as the inspect tool does *)

(** [count_bit] counts the set bits of a byte; checked on every byte. *)
Lemma count_bit_spec b :
  count_bit b = Z.of_nat (length (List.filter (bit_is_set b) (seqZ 0 8))).
Proof.
  assert (H : forallb (fun b => count_bit b
                         =? Z.of_nat (length (List.filter (bit_is_set b) (seqZ 0 8))))
                      (List.map byte.of_Z (seqZ 0 256)) = true)
    by (vm_compute; reflexivity).
  rewrite forallb_forall in H. apply Z.eqb_eq. apply H. apply all_bytes.
Qed.

Lemma units_set_app blocks s m n1 n2 :
  0 <= n1 -> 0 <= n2 ->
  units_set blocks s m (n1 + n2)
  = units_set blocks s m n1 + units_set blocks s (m + n1) n2.
Proof.
  intros H1 H2. unfold units_set.
  rewrite seqZ_app, List.filter_app, length_app by assumption. lia.
Qed.

Lemma units_set_popcount blocks s total : popcount blocks s total = units_set blocks s 0 total.
Proof. reflexivity. Qed.

Lemma units_set_none blocks s m n :
  (forall k, m <= k < m + n -> unit_bit blocks s k = Some false) ->
  units_set blocks s m n = 0.
Proof.
  intros H. unfold units_set.
  rewrite (filter_same (fun _ => false)).
  - induction (seqZ m n) as [|x l IH]; [reflexivity | exact IH].
  - intros k Hk. apply seqZ_In in Hk. unfold unit_is_set. rewrite H by assumption.
    reflexivity.
Qed.

Lemma filter_map_length {A B : Type} (f : B -> bool) (g : A -> B) (l : list A) :
  length (List.filter f (List.map g l)) = length (List.filter (fun x => f (g x)) l).
Proof.
  induction l as [|a l IH]; [reflexivity|].
  cbn [List.map List.filter]. destruct (f (g a)); cbn [length]; rewrite IH; reflexivity.
Qed.

(** The units of one byte of a bitmap block. *)
Lemma unit_in_byte (blocks : gmap Z block) s q y t (buf : block) b :
  0 <= q -> 0 <= y < BYTES_PER_BLOCK -> 0 <= t < 8 ->
  blocks !! (s + q) = Some buf ->
  buf !! Z.to_nat y = Some b ->
  unit_is_set blocks s (NUMBFS_BLOCKS_PER_BLOCK * q + 8 * y + t) = bit_is_set b t.
Proof.
  intros Hq Hy Ht Hbuf Hb.
  change BYTES_PER_BLOCK with 512 in Hy.
  set (u := NUMBFS_BLOCKS_PER_BLOCK * q + 8 * y + t).
  assert (Hu : 0 <= u) by (unfold u; change NUMBFS_BLOCKS_PER_BLOCK with 4096; lia).
  assert (Hblk : numbfs_bmap_blk s u = s + q).
  { unfold numbfs_bmap_blk, u. change NUMBFS_BLOCKS_PER_BLOCK with 4096.
    Z.quot_rem_to_equations. lia. }
  assert (Hbyte : numbfs_bmap_byte u = y).
  { unfold numbfs_bmap_byte, u. change NUMBFS_BLOCKS_PER_BLOCK with 4096.
    change BITS_PER_BYTE with 8. Z.quot_rem_to_equations. lia. }
  assert (Hbit : numbfs_bmap_bit u = t).
  { unfold numbfs_bmap_bit, u. change NUMBFS_BLOCKS_PER_BLOCK with 4096.
    change BITS_PER_BYTE with 8. Z.quot_rem_to_equations. lia. }
  unfold unit_is_set, unit_bit. rewrite Hblk, Hbuf, Hbyte, Hbit.
  rewrite buf_get_lookup, Hb by lia. destruct (bit_is_set b t); reflexivity.
Qed.

Lemma units_set_byte (blocks : gmap Z block) s q y (buf : block) b :
  0 <= q -> 0 <= y < BYTES_PER_BLOCK ->
  blocks !! (s + q) = Some buf ->
  buf !! Z.to_nat y = Some b ->
  units_set blocks s (NUMBFS_BLOCKS_PER_BLOCK * q + 8 * y) 8 = count_bit b.
Proof.
  intros Hq Hy Hbuf Hb. rewrite count_bit_spec. unfold units_set. f_equal.
  replace (NUMBFS_BLOCKS_PER_BLOCK * q + 8 * y)
    with ((NUMBFS_BLOCKS_PER_BLOCK * q + 8 * y) + 0) at 1 by lia.
  rewrite <- fmap_add_seqZ.
  change (Z.add (NUMBFS_BLOCKS_PER_BLOCK * q + 8 * y) <$> seqZ 0 8)
    with (List.map (Z.add (NUMBFS_BLOCKS_PER_BLOCK * q + 8 * y)) (seqZ 0 8)).
  rewrite filter_map_length. f_equal.
  apply filter_same. intros t Ht. apply seqZ_In in Ht.
  apply (unit_in_byte blocks s q y t buf b); (assumption || lia).
Qed.

(** The loop of [numbfs_fsck_used] on a block of a bitmap. *)
Lemma fsck_used_loop_units (blocks : gmap Z block) s q (buf : block) n : forall y ret,
  0 <= q -> 0 <= y -> y + Z.of_nat n <= BYTES_PER_BLOCK ->
  blocks !! (s + q) = Some buf ->
  Z.of_nat (length buf) = BYTES_PER_BLOCK ->
  fsck_used_loop n y buf ret
  = Some (ret + units_set blocks s (NUMBFS_BLOCKS_PER_BLOCK * q + 8 * y) (8 * Z.of_nat n)).
Proof.
  induction n as [|n IH]; intros y ret Hq Hy Hn Hbuf Hlen.
  - cbn [fsck_used_loop]. change (8 * Z.of_nat 0) with 0.
    unfold units_set. rewrite seqZ_nil by lia. cbn [List.filter length].
    rewrite Z.add_0_r. reflexivity.
  - cbn [fsck_used_loop]. rewrite buf_get_lookup by assumption.
    destruct (lookup_lt_is_Some_2 buf (Z.to_nat y) ltac:(lia)) as [b Hb].
    rewrite Hb. rewrite (IH (y + 1) (ret + count_bit b)) by (assumption || lia).
    f_equal.
    replace (8 * Z.of_nat (S n)) with (8 + 8 * Z.of_nat n) by lia.
    rewrite (units_set_app blocks s (NUMBFS_BLOCKS_PER_BLOCK * q + 8 * y) 8 (8 * Z.of_nat n))
      by lia.
    rewrite (units_set_byte blocks s q y buf b) by (assumption || lia).
    replace (NUMBFS_BLOCKS_PER_BLOCK * q + 8 * (y + 1))
      with (NUMBFS_BLOCKS_PER_BLOCK * q + 8 * y + 8) by lia.
    lia.
Qed.

Lemma fsck_used_units (blocks : gmap Z block) s q (buf : block) :
  0 <= q ->
  blocks !! (s + q) = Some buf ->
  Z.of_nat (length buf) = BYTES_PER_BLOCK ->
  numbfs_fsck_used buf
  = Some (units_set blocks s (NUMBFS_BLOCKS_PER_BLOCK * q) NUMBFS_BLOCKS_PER_BLOCK).
Proof.
  intros Hq Hbuf Hlen. unfold numbfs_fsck_used.
  rewrite (fsck_used_loop_units blocks s q buf (Z.to_nat BYTES_PER_BLOCK) 0 0);
    try assumption; try lia.
  rewrite Z.mul_0_r, Z.add_0_r, Z.add_0_l. reflexivity.
Qed.

(** The loop over the blocks of a bitmap, on a medium without faults. *)
Lemma fsck_count_units s n : forall q cnt sbi,
  no_faults (fd sbi) ->
  0 <= q ->
  (forall b, s + q <= b < s + q + Z.of_nat n ->
     exists buf, dev_blocks (fd sbi) !! b = Some buf
                 /\ Z.of_nat (length buf) = BYTES_PER_BLOCK) ->
  exists clk,
    fsck_count n (s + q) cnt sbi
    = (Ok (cnt + units_set (dev_blocks (fd sbi)) s (NUMBFS_BLOCKS_PER_BLOCK * q)
                           (NUMBFS_BLOCKS_PER_BLOCK * Z.of_nat n)),
       set_fd (mkdev (dev_blocks (fd sbi)) clk (dev_fault (fd sbi))) sbi).
Proof.
  induction n as [|n IH]; intros q cnt sbi Hnf Hq Hpresent.
  - exists (dev_clock (fd sbi)). cbn [fsck_count].
    change (NUMBFS_BLOCKS_PER_BLOCK * Z.of_nat 0) with 0.
    unfold units_set. rewrite seqZ_nil by lia. cbn [List.filter length].
    rewrite Z.add_0_r. destruct sbi as [[] ]. reflexivity.
  - destruct (Hpresent (s + q) ltac:(lia)) as (buf & Hbuf & Hlen).
    cbn [fsck_count]. unfold pread. rewrite Hnf, Hbuf.
    unfold bind. rewrite (fsck_used_units (dev_blocks (fd sbi)) s q buf) by assumption.
    cbn [defined ret].
    destruct (IH (q + 1)
                (cnt + units_set (dev_blocks (fd sbi)) s (NUMBFS_BLOCKS_PER_BLOCK * q)
                                 NUMBFS_BLOCKS_PER_BLOCK)
                (set_fd (dev_tick (fd sbi)) sbi)) as (clk & Hloop).
    + intros k. apply Hnf.
    + lia.
    + intros b Hb. cbn [fd set_fd dev_tick dev_blocks]. apply Hpresent. lia.
    + exists clk. replace (s + q + 1) with (s + (q + 1)) by lia.
      rewrite Hloop. cbn [fd set_fd dev_tick dev_blocks dev_fault].
      apply (f_equal2 pair); [f_equal | reflexivity].
      replace (NUMBFS_BLOCKS_PER_BLOCK * Z.of_nat (S n))
        with (NUMBFS_BLOCKS_PER_BLOCK + NUMBFS_BLOCKS_PER_BLOCK * Z.of_nat n)
        by (change NUMBFS_BLOCKS_PER_BLOCK with 4096; lia).
      rewrite (units_set_app (dev_blocks (fd sbi)) s (NUMBFS_BLOCKS_PER_BLOCK * q)
                 NUMBFS_BLOCKS_PER_BLOCK (NUMBFS_BLOCKS_PER_BLOCK * Z.of_nat n))
        by (change NUMBFS_BLOCKS_PER_BLOCK with 4096; lia).
      replace (NUMBFS_BLOCKS_PER_BLOCK * (q + 1))
        with (NUMBFS_BLOCKS_PER_BLOCK * q + NUMBFS_BLOCKS_PER_BLOCK)
        by (change NUMBFS_BLOCKS_PER_BLOCK with 4096; lia).
      lia.
Qed.

Lemma bitmap_blocks_cover total :
  0 <= total -> total <= NUMBFS_BLOCKS_PER_BLOCK * bitmap_blocks total.
Proof.
  unfold bitmap_blocks, DIV_ROUND_UP.
  change NUMBFS_BLOCKS_PER_BLOCK with 4096. change BITS_PER_BYTE with 8.
  change BYTES_PER_BLOCK with 512. intros H. Z.quot_rem_to_equations. lia.
Qed.

Lemma region_zone sbi c :
  zones_ordered sbi = true ->
  0 <= region_total c sbi
  /\ ibitmap_start sbi <= region_start c sbi
  /\ region_start c sbi + bitmap_blocks (region_total c sbi) <= region_end c sbi
  /\ region_end c sbi <= data_start sbi + data_blocks sbi.
Proof.
  intros Hz. apply zones_ordered_inv in Hz as (Hti & Hdb & Hib & H1 & H2 & H3).
  pose proof (bitmap_blocks_nonneg _ Hti). pose proof (bitmap_blocks_nonneg _ Hdb).
  pose proof (inode_zone_nonneg _ Hti).
  destruct c; cbn [region_total region_start region_end]; lia.
Qed.

(** What the usage report of the inspect tool counts, on a laid-out image
    and a medium without faults, when the bits past the unit count are
    clear: the units in use. *)
Lemma numbfs_fsck_usage_ok c sbi :
  image_ok sbi = true ->
  no_faults (fd sbi) ->
  padding_clear (dev_blocks (fd sbi)) (region_start c sbi) (region_end c sbi)
                (region_total c sbi) ->
  exists clk,
    numbfs_fsck_usage c sbi
    = (if negb (popcount (dev_blocks (fd sbi)) (region_start c sbi) (region_total c sbi)
                =? region_total c sbi - deref c sbi)
       then Bug
       else Ok (popcount (dev_blocks (fd sbi)) (region_start c sbi) (region_total c sbi)),
       set_fd (mkdev (dev_blocks (fd sbi)) clk (dev_fault (fd sbi))) sbi).
Proof.
  intros Himg Hnf Hpad.
  pose proof Himg as Himg0. unfold image_ok in Himg0. apply andb_true_iff in Himg0 as [Hz Hp].
  destruct (region_zone sbi c Hz) as (Htot & Hlo & Hzone & Hhi).
  pose proof (bitmap_blocks_cover _ Htot) as Hcover.
  pose proof (bitmap_blocks_nonneg _ Htot) as Hbn.
  set (s := region_start c sbi) in *. set (e := region_end c sbi) in *.
  set (total := region_total c sbi) in *.
  destruct (fsck_count_units s (Z.to_nat (e - s)) 0 0 sbi Hnf) as (clk & Hloop); [lia| |].
  { intros b Hb. apply (blocks_present_lookup _ _ _ b Hp). lia. }
  rewrite Z.add_0_r, Z.mul_0_r, Z.add_0_l, Z2Nat.id in Hloop by lia.
  assert (Hcnt : units_set (dev_blocks (fd sbi)) s 0 (NUMBFS_BLOCKS_PER_BLOCK * (e - s))
                 = popcount (dev_blocks (fd sbi)) s total).
  { replace (NUMBFS_BLOCKS_PER_BLOCK * (e - s))
      with (total + (NUMBFS_BLOCKS_PER_BLOCK * (e - s) - total)) by lia.
    rewrite (units_set_app (dev_blocks (fd sbi)) s 0 total
               (NUMBFS_BLOCKS_PER_BLOCK * (e - s) - total))
      by (change NUMBFS_BLOCKS_PER_BLOCK with 4096 in *; lia).
    rewrite (units_set_none _ _ (0 + total)).
    - rewrite units_set_popcount. lia.
    - intros k Hk. apply Hpad. lia. }
  rewrite Hcnt in Hloop.
  exists clk.
  assert (Hbody : forall free,
    free = deref c sbi ->
    (let* cnt := fsck_count (Z.to_nat (e - s)) s 0 in
     if negb (cnt =? total - free) then bug else ret cnt) sbi
    = (if negb (popcount (dev_blocks (fd sbi)) s total =? total - deref c sbi)
       then Bug else Ok (popcount (dev_blocks (fd sbi)) s total),
       set_fd (mkdev (dev_blocks (fd sbi)) clk (dev_fault (fd sbi))) sbi)).
  { intros free ->. unfold bind. rewrite Hloop.
    destruct (negb (popcount (dev_blocks (fd sbi)) s total =? total - deref c sbi));
      reflexivity. }
  destruct c; cbn [numbfs_fsck_usage]; unfold numbfs_fsck_inodes, numbfs_fsck_blocks;
    unfold bind at 1, get; apply Hbody; reflexivity.
Qed.

(** X23.  The usage report of the inspect tool and the counters.  On a
    laid-out image whose bitmap has no bit set past its unit count, and a
    medium without faults, the report of [numbfs_fsck] on inodes, and the
    one on blocks, writes nothing; it counts [total - free] units in use when
    the free counter equals the unit count less the set bits, and trips its
    [BUG_ON] when it does not. *)
Theorem fsck_usage_follows_counter (c : counter) (sbi : numbfs_superblock_info) :
  image_ok sbi = true ->
  no_faults (fd sbi) ->
  padding_clear (dev_blocks (fd sbi)) (region_start c sbi) (region_end c sbi)
                (region_total c sbi) ->
  dev_blocks (fd (snd (numbfs_fsck_usage c sbi))) = dev_blocks (fd sbi)
  /\ (counter_consistent c sbi ->
      fst (numbfs_fsck_usage c sbi) = Ok (region_total c sbi - deref c sbi))
  /\ (~ counter_consistent c sbi -> fst (numbfs_fsck_usage c sbi) = Bug).
Proof.
  intros Himg Hnf Hpad.
  destruct (numbfs_fsck_usage_ok c sbi Himg Hnf Hpad) as (clk & Hrun).
  rewrite Hrun. cbn [fst snd fd set_fd dev_blocks].
  split; [reflexivity|]. unfold counter_consistent.
  destruct (Z.eqb_spec (popcount (dev_blocks (fd sbi)) (region_start c sbi)
                                 (region_total c sbi))
                       (region_total c sbi - deref c sbi)) as [E|N]; cbn [negb].
  - split; [intros _; f_equal; lia | intros H; exfalso; apply H; lia].
  - split; [intros H; exfalso; apply N; lia | reflexivity].
Qed.

Lemma fsck_usage_follows_counter_witness :
  fst (numbfs_fsck_usage FreeBlocks one_used_sbi)
  = Ok (region_total FreeBlocks one_used_sbi - deref FreeBlocks one_used_sbi).
Proof.
  destruct (fsck_usage_follows_counter FreeBlocks one_used_sbi) as (_ & H & _).
  - vm_compute. reflexivity.
  - intros k. reflexivity.
  - intros i Hi.
    change (region_total FreeBlocks one_used_sbi) with 3 in Hi.
    change (NUMBFS_BLOCKS_PER_BLOCK
            * (region_end FreeBlocks one_used_sbi - region_start FreeBlocks one_used_sbi))
      with 4096 in Hi.
    assert (Hall : forallb (unit_is_clear (dev_blocks (fd one_used_sbi))
                                          (region_start FreeBlocks one_used_sbi))
                           (seqZ 3 4093) = true) by (vm_compute; reflexivity).
    rewrite forallb_forall in Hall. specialize (Hall i).
    rewrite seqZ_In in Hall. specialize (Hall ltac:(lia)).
    unfold unit_is_clear in Hall.
    destruct (unit_bit (dev_blocks (fd one_used_sbi))
                       (region_start FreeBlocks one_used_sbi) i) as [[|]|];
      (reflexivity || discriminate).
  - apply H. vm_compute. reflexivity.
Defined.

(** ** Writes of files and the counters *)

(** A block put into the inode table or at or past the start of the data
    zone: the image stays laid out and the counters keep their relation to
    the bitmaps. *)
Lemma put_outside_bitmaps_keeps sbi (buf : block) b clk flt :
  image_ok sbi = true -> bitmap_consistent sbi ->
  (inode_start sbi <= b < bbitmap_start sbi \/ data_start sbi <= b) ->
  (b < data_start sbi + data_blocks sbi -> Z.of_nat (length buf) = BYTES_PER_BLOCK) ->
  let sbi' := set_fd (mkdev (<[b := buf]> (dev_blocks (fd sbi))) clk flt) sbi in
  image_ok sbi' = true /\ bitmap_consistent sbi'.
Proof.
  intros Himg Hcons Hb Hlen sbi'.
  pose proof Himg as Himg0. unfold image_ok in Himg0. apply andb_true_iff in Himg0 as [Hz Hp].
  pose proof (zones_ordered_inv sbi Hz) as (Hti & Hdb & Hib & Hz1 & Hz2 & Hz3).
  pose proof (bitmap_blocks_nonneg _ Hti) as Hbi.
  pose proof (bitmap_blocks_nonneg _ Hdb) as Hbb.
  pose proof (inode_zone_nonneg _ Hti) as Hit.
  split.
  - unfold image_ok. change (zones_ordered sbi') with (zones_ordered sbi). rewrite Hz.
    cbn [andb]. unfold sbi'. cbn [fd set_fd dev_blocks ibitmap_start data_start data_blocks].
    unfold blocks_present in *. rewrite forallb_forall in *. intros x Hx.
    destruct (Z.eq_dec x b) as [->|Hne].
    + rewrite lookup_insert_eq. apply Z.eqb_eq. apply Hlen.
      apply seqZ_In in Hx. lia.
    + rewrite lookup_insert_ne by congruence. apply Hp. assumption.
  - assert (Hc : forall c, counter_consistent c sbi' ).
    { intros c. unfold counter_consistent.
      change (deref c sbi') with (deref c sbi).
      change (region_total c sbi') with (region_total c sbi).
      change (region_start c sbi') with (region_start c sbi).
      unfold sbi'. cbn [fd set_fd dev_blocks].
      rewrite (popcount_same (dev_blocks (fd sbi))).
      - destruct Hcons. destruct c; assumption.
      - intros k Hk. unfold unit_bit. rewrite lookup_insert_ne; [reflexivity|].
        pose proof (bitmap_blk_in_zone (region_start c sbi) (region_total c sbi) k Hk).
        destruct c; cbn [region_start region_total] in *; lia. }
    split; apply Hc.
Qed.

(** A translation with allocation that returns a block. *)
Lemma blkaddr_alloc_keeps pos ino sbi target ino' sbi' :
  image_ok sbi = true -> bitmap_consistent sbi ->
  numbfs_inode_blkaddr pos true false (ino, sbi) = (Ok target, (ino', sbi')) ->
  image_ok sbi' = true /\ bitmap_consistent sbi'
  /\ same_geometry sbi sbi' /\ nid ino' = nid ino.
Proof.
  intros Himg Hcons H.
  pose proof (blkaddr_alloc_inv _ _ _ _ _ _ H) as (_ & _ & Hgeo & Hino & _).
  assert (Hnid : nid ino' = nid ino) by (rewrite Hino; reflexivity).
  unfold numbfs_inode_blkaddr in H.
  destruct (Z.quot pos BYTES_PER_BLOCK >=? NUMBFS_NUM_DATA_ENTRY); [discriminate|].
  apply bind_ok in H as ([] & [ino1 sbi1] & Hfill & Hget).
  apply data_get_inv in Hget as (_ & _ & Hst). injection Hst as <- <-.
  apply bind_ok in Hfill as (d & st0 & Hd & Hfill).
  apply data_get_inv in Hd as (_ & _ & ->).
  destruct (d =? NUMBFS_HOLE).
  - apply bind_ok in Hfill as (res & stA & Halloc & Hfill).
    apply on_sbi_inv in Halloc as (sbiA & Halloc & ->).
    apply bind_ok in Hfill as (blkno & stA' & Hres & Hfill).
    apply defined_inv in Hres as [-> ->].
    unfold bind at 1, get_sbi in Hfill. cbn [snd] in Hfill.
    apply bind_ok in Hfill as ([] & stB & Hzero & Hset).
    apply on_sbi_inv in Hzero as (sbiB & Hzero & ->).
    unfold on_inode, modify in Hset. cbn [fst snd] in Hset. injection Hset as _ <-.
    apply write_block_inv in Hzero as (_ & _ & ->).
    pose proof (numbfs_alloc_inv FreeBlocks sbi _ _ Halloc)
      as (_ & _ & HgeoA & (clk & HsbiA) & Hj & _ & Hclear & Hblocks).
    cbn [region_total region_start] in *.
    rewrite Hblocks in HsbiA.
    destruct (flip_unit_keeps FreeBlocks true sbi blkno clk Himg Hcons Hj Hclear)
      as [HimgA HconsA].
    cbn [region_start deref] in HimgA, HconsA.
    replace (free_blocks sbi + -1) with (deref FreeBlocks sbi - 1) in * by (cbn; lia).
    rewrite <- HsbiA in HimgA, HconsA.
    destruct HgeoA as (_ & _ & Hdb & _ & _ & _ & Hds & _).
    destruct (put_outside_bitmaps_keeps sbiA zero_block (numbfs_data_blk sbiA blkno)
                (S (dev_clock (fd sbiA))) (dev_fault (fd sbiA)) HimgA HconsA)
      as [HimgB HconsB].
    { right. unfold numbfs_data_blk. lia. }
    { intros _. reflexivity. }
    auto.
  - injection Hfill as _ <-. auto using same_geometry_refl.
Qed.

(** A write that returns 0 on an inode of the table. *)
Lemma pwrite_inode_keeps buf offset len ino sbi ino' sbi' :
  image_ok sbi = true ->
  bitmap_consistent sbi ->
  0 <= nid ino < total_inodes sbi ->
  numbfs_pwrite_inode buf offset len (ino, sbi) = (Ok tt, (ino', sbi')) ->
  image_ok sbi' = true /\ bitmap_consistent sbi'.
Proof.
  intros Himg Hcons Hnid H.
  unfold numbfs_pwrite_inode in H.
  destruct (Z.rem offset BYTES_PER_BLOCK + len >? BYTES_PER_BLOCK); [discriminate|].
  unfold bind at 1, on_inode, modify in H. cbn [fst snd] in H.
  apply bind_ok in H as (target & [ino2 sbi2] & Haddr & H).
  destruct (Z.ltb_spec target 0) as [|Htarget]; [discriminate|].
  unfold bind at 1, get_sbi in H. cbn [snd] in H.
  apply bind_ok in H as (tmp0 & st3 & Hread & H).
  apply on_sbi_inv in Hread as (sbi3 & Hread & ->).
  apply read_block_inv in Hread as (_ & Htmp0 & ->).
  apply bind_ok in H as (tmp & st3' & Hcpy & H).
  apply defined_inv in Hcpy as [Hcpy ->].
  apply bind_ok in H as ([] & st4 & Hwrite & Hdump).
  apply on_sbi_inv in Hwrite as (sbi4 & Hwrite & ->).
  apply write_block_inv in Hwrite as (_ & _ & ->).
  apply dump_inode_inv in Hdump as (meta & Hmeta & Hst).
  injection Hst as _ ->.
  apply blkaddr_alloc_keeps in Haddr as (Himg2 & Hcons2 & Hgeo & Hnid2); try assumption.
  cbn [nid set_size] in Hnid2.
  apply memcpy_into_block in Hcpy as [_ Hlentmp].
  pose proof Himg2 as Himg0. unfold image_ok in Himg0. apply andb_true_iff in Himg0 as [Hz2 Hp2].
  (* the data block *)
  destruct (put_outside_bitmaps_keeps sbi2 tmp (numbfs_data_blk sbi2 target)
              (S (S (dev_clock (fd sbi2)))) (dev_fault (fd sbi2)) Himg2 Hcons2)
    as [Himg4 Hcons4].
  { right. unfold numbfs_data_blk. lia. }
  { intros Hin.
    destruct (blocks_present_lookup _ _ _ (numbfs_data_blk sbi2 target) Hp2)
      as (old & Hold & Hlen).
    - pose proof (zones_ordered_inv sbi2 Hz2) as (Hti & Hdb & Hib & Hz1 & Hz2' & Hz3).
      pose proof (bitmap_blocks_nonneg _ Hti). pose proof (bitmap_blocks_nonneg _ Hdb).
      pose proof (inode_zone_nonneg _ Hti).
      unfold numbfs_data_blk in *. lia.
    - cbn [fd set_fd dev_tick dev_blocks] in Htmp0. rewrite Hold in Htmp0.
      injection Htmp0 as <-. rewrite Hlentmp. assumption. }
  set (sbi4 := set_fd (mkdev (<[numbfs_data_blk sbi2 target := tmp]> (dev_blocks (fd sbi2)))
                             (S (S (dev_clock (fd sbi2)))) (dev_fault (fd sbi2))) sbi2) in *.
  (* the block of the inode *)
  assert (Hti2 : total_inodes sbi2 = total_inodes sbi) by (destruct Hgeo as (_ & <- & _); reflexivity).
  pose proof Himg4 as Himg0. unfold image_ok in Himg0. apply andb_true_iff in Himg0 as [Hz4 Hp4].
  pose proof (inode_blk_in_image sbi4 (nid ino2) Hz4) as Hiblk.
  change (total_inodes sbi4) with (total_inodes sbi2) in Hiblk.
  rewrite Hti2 in Hiblk. rewrite <- Hnid2 in Hnid. specialize (Hiblk Hnid).
  assert (Hmeta2 : dev_blocks (fd sbi4) !! numbfs_inode_blk sbi4 (nid ino2) = Some meta)
    by exact Hmeta.
  pose proof (zones_ordered_inv sbi4 Hz4) as (Hti & Hdb & Hib & Hz1 & Hz2' & Hz3).
  pose proof (bitmap_blocks_nonneg _ Hti). pose proof (bitmap_blocks_nonneg _ Hdb).
  destruct (blocks_present_lookup _ _ _ (numbfs_inode_blk sbi4 (nid ino2)) Hp4)
    as (meta' & Hmeta' & Hlenm); [lia|].
  rewrite Hmeta' in Hmeta2. injection Hmeta2 as <-.
  pose proof (inode_slot_bound (nid ino2)) as Hslot.
  change BYTES_PER_BLOCK with 512 in Hlenm.
  assert (Hlast : (inode_start sbi4 <= numbfs_inode_blk sbi4 (nid ino2) < bbitmap_start sbi4
                   \/ data_start sbi4 <= numbfs_inode_blk sbi4 (nid ino2))
                  /\ (numbfs_inode_blk sbi4 (nid ino2) < data_start sbi4 + data_blocks sbi4 ->
                      Z.of_nat (length (store_inode ino2 (inode_slot (nid ino2)) meta'))
                      = BYTES_PER_BLOCK)).
  { split; [left; exact Hiblk|]. intros _.
    rewrite length_store_inode by lia. change BYTES_PER_BLOCK with 512. exact Hlenm. }
  destruct Hlast as [Hwhere Hlen].
  exact (put_outside_bitmaps_keeps sbi4
           (store_inode ino2 (inode_slot (nid ino2)) meta')
           (numbfs_inode_blk sbi4 (nid ino2))
           (S (S (dev_clock (fd sbi4)))) (dev_fault (fd sbi4)) Himg4 Hcons4 Hwhere Hlen).
Qed.

(** The pointers of the mirror stay inside the image: a translation puts in
    only what the allocator has returned. *)
Lemma pointers_in_image_geometry i sbi sbi' :
  same_geometry sbi sbi' -> pointers_in_image i sbi -> pointers_in_image i sbi'.
Proof.
  intros (_ & _ & Hdb & _). unfold pointers_in_image. rewrite Hdb. trivial.
Qed.

Lemma offsets_fit_geometry sbi sbi' :
  same_geometry sbi sbi' -> offsets_fit sbi -> offsets_fit sbi'.
Proof.
  intros (_ & _ & Hdb & _ & _ & _ & Hds & _). unfold offsets_fit.
  rewrite Hdb, Hds. trivial.
Qed.

Lemma blkaddr_alloc_pointers pos ino sbi target ino' sbi' :
  numbfs_inode_blkaddr pos true false (ino, sbi) = (Ok target, (ino', sbi')) ->
  pointers_in_image ino sbi ->
  pointers_in_image ino' sbi'.
Proof.
  intros H Hptr.
  pose proof (blkaddr_alloc_inv _ _ _ _ _ _ H) as (_ & _ & Hgeo & _).
  apply (pointers_in_image_geometry _ sbi sbi' Hgeo).
  unfold numbfs_inode_blkaddr in H.
  destruct (Z.quot pos BYTES_PER_BLOCK >=? NUMBFS_NUM_DATA_ENTRY); [discriminate|].
  apply bind_ok in H as ([] & [ino1 sbi1] & Hfill & Hget).
  apply data_get_inv in Hget as (_ & _ & Hst). injection Hst as <- <-.
  apply bind_ok in Hfill as (d & st0 & Hd & Hfill).
  apply data_get_inv in Hd as (_ & _ & ->).
  destruct (d =? NUMBFS_HOLE).
  - apply bind_ok in Hfill as (res & stA & Halloc & Hfill).
    apply on_sbi_inv in Halloc as (sbiA & Halloc & ->).
    apply bind_ok in Hfill as (blkno & stA' & Hres & Hfill).
    apply defined_inv in Hres as [-> ->].
    unfold bind at 1, get_sbi in Hfill. cbn [snd] in Hfill.
    apply bind_ok in Hfill as ([] & stB & Hzero & Hset).
    apply on_sbi_inv in Hzero as (sbiB & Hzero & ->).
    unfold on_inode, modify in Hset. cbn [fst snd] in Hset. injection Hset as <- _.
    apply (numbfs_alloc_inv FreeBlocks) in Halloc as (_ & _ & _ & _ & Hj & _).
    cbn [region_total] in Hj.
    unfold pointers_in_image in *. cbn [data set_data].
    apply Forall_insert; [assumption | right; assumption].
  - injection Hfill as <- _. assumption.
Qed.

Lemma pwrite_inode_pointers buf offset len ino ino' sbi sbi' :
  numbfs_pwrite_inode buf offset len (ino, sbi) = (Ok tt, (ino', sbi')) ->
  pointers_in_image ino sbi ->
  pointers_in_image ino' sbi'.
Proof.
  intros H Hptr.
  pose proof (pwrite_inode_inv _ _ _ _ _ _ _ H)
    as (_ & _ & _ & _ & _ & _ & _ & _ & _ & _ & _ & _ & _ & Hgeo & _).
  unfold numbfs_pwrite_inode in H.
  destruct (Z.rem offset BYTES_PER_BLOCK + len >? BYTES_PER_BLOCK); [discriminate|].
  unfold bind at 1, on_inode, modify in H. cbn [fst snd] in H.
  apply bind_ok in H as (target & [ino2 sbi2] & Haddr & H).
  destruct (target <? 0); [discriminate|].
  unfold bind at 1, get_sbi in H. cbn [snd] in H.
  apply bind_ok in H as (tmp0 & st3 & Hread & H).
  apply on_sbi_inv in Hread as (sbi3 & _ & ->).
  apply bind_ok in H as (tmp & st3' & Hcpy & H).
  apply defined_inv in Hcpy as [_ ->].
  apply bind_ok in H as ([] & st4 & Hwrite & Hdump).
  apply on_sbi_inv in Hwrite as (sbi4 & _ & ->).
  apply dump_inode_inv in Hdump as (meta & _ & Hst).
  injection Hst as <- _.
  pose proof (blkaddr_alloc_inv _ _ _ _ _ _ Haddr) as (_ & _ & Hgeo2 & _).
  apply (blkaddr_alloc_pointers _ _ _ _ _ _ Haddr) in Hptr.
  apply (pointers_in_image_geometry _ sbi2 sbi'); [|exact Hptr].
  assert (Hback : same_geometry sbi2 sbi).
  { destruct Hgeo2 as (a & b & c & d & e & f & g & h & i).
    repeat split; symmetry; assumption. }
  exact (same_geometry_trans _ _ _ Hback Hgeo).
Qed.

(** X24.  A write of file data keeps the counters.  On a laid-out image
    that ends at or before 2 GiB, whose counters equal the unit counts less
    the set bits, for a mirror of an inode of the table whose pointers are
    holes or data blocks of the image: every [numbfs_pwrite_inode] that
    returns 0 leaves the image laid out with the same geometry, the counters
    in this relation and the pointers of the mirror inside the image, on any
    medium.  The write reaches the block bitmap only through the
    allocator. *)
Theorem pwrite_keeps_counters (buf : block) (offset len : Z)
    (ino ino' : numbfs_inode_info) (sbi sbi' : numbfs_superblock_info) :
  image_ok sbi = true ->
  bitmap_consistent sbi ->
  offsets_fit sbi ->
  pointers_in_image ino sbi ->
  0 <= nid ino < total_inodes sbi ->
  numbfs_pwrite_inode buf offset len (ino, sbi) = (Ok tt, (ino', sbi')) ->
  image_ok sbi' = true /\ bitmap_consistent sbi'
  /\ same_geometry sbi sbi' /\ offsets_fit sbi'
  /\ pointers_in_image ino' sbi'.
Proof.
  intros Himg Hcons Hfit Hptr Hnid Hrun.
  destruct (pwrite_inode_keeps _ _ _ _ _ _ _ Himg Hcons Hnid Hrun) as [Himg' Hcons'].
  pose proof (pwrite_inode_inv _ _ _ _ _ _ _ Hrun)
    as (_ & _ & _ & _ & _ & _ & _ & _ & _ & _ & _ & _ & _ & Hgeo & _).
  split; [exact Himg'|]. split; [exact Hcons'|]. split; [exact Hgeo|].
  split; [exact (offsets_fit_geometry _ _ Hgeo Hfit)|].
  exact (pwrite_inode_pointers _ _ _ _ _ _ _ Hrun Hptr).
Qed.

Lemma pwrite_keeps_counters_witness :
  image_ok (snd (snd written)) = true /\ bitmap_consistent (snd (snd written))
  /\ pointers_in_image (fst (snd written)) (snd (snd written)).
Proof.
  destruct (pwrite_keeps_counters pattern 3587 5 empty_inode (fst (snd written))
              small_sbi (snd (snd written))) as (H1 & H2 & _ & _ & H3).
  - vm_compute. reflexivity.
  - split; vm_compute; reflexivity.
  - vm_compute. discriminate.
  - unfold pointers_in_image, empty_inode, holes. cbn [data].
    apply List.Forall_forall. intros d Hd. left.
    apply repeat_spec in Hd. exact Hd.
  - vm_compute. split; [discriminate | reflexivity].
  - reflexivity.
  - auto.
Defined.

Lemma with_inode_inv {A : Type} i (m : M ist A) sbi r sbi' :
  with_inode i m sbi = (r, sbi') -> exists i', m (i, sbi) = (r, (i', sbi')).
Proof.
  unfold with_inode. destruct (m (i, sbi)) as [r0 [i' s']]. cbn [snd].
  intros [= <- <-]. eauto.
Qed.

(** X25.  A new directory keeps the counters.  On a laid-out image that
    ends at or before 2 GiB, whose counters equal the unit counts less the
    set bits, every [numbfs_empty_dir] that returns an inode number leaves
    the image laid out with the same geometry and the counters in this
    relation, on any medium; the number it returns is that of the lowest
    inode that was free. *)
Theorem empty_dir_keeps_counters (sbi sbi' : numbfs_superblock_info)
    (getuid getgid pnid nid : Z) (buf : block) :
  image_ok sbi = true ->
  bitmap_consistent sbi ->
  offsets_fit sbi ->
  numbfs_empty_dir getuid getgid buf pnid sbi = (Ok nid, sbi') ->
  image_ok sbi' = true /\ bitmap_consistent sbi'
  /\ same_geometry sbi sbi' /\ offsets_fit sbi'
  /\ 0 <= nid < total_inodes sbi
  /\ unit_bit (dev_blocks (fd sbi)) (ibitmap_start sbi) nid = Some false
  /\ (forall k, 0 <= k < nid ->
        unit_bit (dev_blocks (fd sbi)) (ibitmap_start sbi) k = Some true).
Proof.
  intros Himg Hcons Hfit Hrun.
  rewrite empty_dir_unfold in Hrun.
  apply bind_ok in Hrun as (res & sbi1 & Halloc & Hrun).
  apply bind_ok in Hrun as (j & sbi1' & Hres & Hrun).
  apply defined_inv in Hres as [-> ->].
  apply bind_ok in Hrun as ([] & sbi2 & Hwrite & Hret).
  injection Hret as <- <-.
  apply with_inode_inv in Hwrite as (ino' & Hwrite).
  pose proof (numbfs_alloc_inv FreeInodes sbi _ _ Halloc)
    as (_ & _ & Hgeo & (clk & Hsbi1) & Hj & Hbelow & Hclear & Hblocks).
  cbn [region_total region_start] in *.
  rewrite Hblocks in Hsbi1.
  destruct (flip_unit_keeps FreeInodes true sbi j clk Himg Hcons Hj Hclear)
    as [Himg1 Hcons1].
  cbn [region_start deref] in Himg1, Hcons1.
  replace (free_inodes sbi + -1) with (deref FreeInodes sbi - 1) in * by (cbn; lia).
  rewrite <- Hsbi1 in Himg1, Hcons1.
  assert (Hnid : 0 <= nid (fresh_dir_inode getuid getgid j) < total_inodes sbi1).
  { cbn [nid fresh_dir_inode]. destruct Hgeo as (_ & <- & _). assumption. }
  destruct (pwrite_inode_keeps _ _ _ _ _ _ _ Himg1 Hcons1 Hnid Hwrite) as [Himg2 Hcons2].
  pose proof (pwrite_inode_inv _ _ _ _ _ _ _ Hwrite)
    as (_ & _ & _ & _ & _ & _ & _ & _ & _ & _ & _ & _ & _ & Hgeo2 & _).
  pose proof (same_geometry_trans _ _ _ Hgeo Hgeo2) as Hgeo'.
  pose proof (offsets_fit_geometry _ _ Hgeo' Hfit).
  auto 10.
Qed.

Lemma empty_dir_keeps_counters_witness :
  bitmap_consistent (snd (numbfs_empty_dir 1000 1000 zero_block 1 one_used_sbi)).
Proof.
  destruct (empty_dir_keeps_counters one_used_sbi
              (snd (numbfs_empty_dir 1000 1000 zero_block 1 one_used_sbi))
              1000 1000 1 0 zero_block) as (_ & H & _).
  - vm_compute. reflexivity.
  - split; vm_compute; reflexivity.
  - vm_compute. discriminate.
  - vm_compute. reflexivity.
  - exact H.
Defined.

(** ** The count of inodes that the format tool accepts *)

(** X27.  The check of [--num_inodes] in [numbfs_parse_args] accepts exactly
    the positive multiples of 8, and for a count that it accepts the inode
    table fills its blocks and the inode bitmap its bytes: the table has
    [val / 8] blocks of 8 inodes and the bitmap [val / 8] bytes of 8 bits. *)
Theorem valid_num_inodes_iff (val : Z) :
  (valid_num_inodes val = true <-> 0 < val /\ val mod 8 = 0)
  /\ (valid_num_inodes val = true ->
      DIV_ROUND_UP (val * 64) BYTES_PER_BLOCK * NUMBFS_NODES_PER_BLOCK = val
      /\ DIV_ROUND_UP val BITS_PER_BYTE * BITS_PER_BYTE = val).
Proof.
  assert (Hland : Z.land val 7 = val mod 8) by (apply (Z.land_ones val 3); lia).
  assert (Hiff : valid_num_inodes val = true <-> 0 < val /\ val mod 8 = 0).
  { unfold valid_num_inodes. rewrite Hland.
    destruct (Z.leb_spec val 0) as [Hle|Hgt], (Z.eqb_spec (val mod 8) 0) as [He|Hn];
      cbn; split; intros Hv; try discriminate; try reflexivity; lia. }
  split; [exact Hiff|].
  intros H. apply Hiff in H as [Hpos Hmod].
  unfold DIV_ROUND_UP. change BYTES_PER_BLOCK with 512.
  change NUMBFS_NODES_PER_BLOCK with 8. change BITS_PER_BYTE with 8.
  pose proof (Z.div_mod val 8 ltac:(lia)) as Hdm.
  split; Z.quot_rem_to_equations; lia.
Qed.

(** ** A read that goes past what was written *)

Lemma length_overwrite (blk buf : block) off len :
  0 <= off -> 0 <= len -> len <= Z.of_nat (length buf) ->
  off + len <= Z.of_nat (length blk) ->
  length (overwrite blk off buf len) = length blk.
Proof.
  intros Hoff Hlen Hbuf Hblk. unfold overwrite.
  rewrite !length_app, !length_take, length_drop. lia.
Qed.

(** X28.  A read longer than the write that made the block.  After
    [numbfs_pwrite_inode] has returned 0 for [len] bytes at [offset] in a
    block that was a hole, a [numbfs_pread_inode] of [len2 >= len] bytes at
    the same offset returns the [len] bytes written followed by
    [len2 - len] zero bytes, and leaves the rest of the buffer: the block
    was filled with zeros when it was allocated.  This is what
    [test_byte_rw] checks.  The statement is about an image whose inode
    table lies below its data zone and a read whose transfer does not
    fail. *)
Theorem pwrite_hole_then_longer_pread (ino ino' : numbfs_inode_info)
    (sbi sbi' : numbfs_superblock_info) (wbuf rbuf : block) (offset len len2 : Z) :
  numbfs_pwrite_inode wbuf offset len (ino, sbi) = (Ok tt, (ino', sbi')) ->
  data ino !! Z.to_nat (offset / BYTES_PER_BLOCK) = Some NUMBFS_HOLE ->
  1 <= len <= len2 ->
  offset mod BYTES_PER_BLOCK + len2 <= BYTES_PER_BLOCK ->
  len2 <= Z.of_nat (length rbuf) ->
  numbfs_inode_blk sbi (nid ino) < data_start sbi ->
  dev_fault (fd sbi') (dev_clock (fd sbi')) = false ->
  numbfs_pread_inode rbuf offset len2 (ino', sbi')
  = (Ok (take (Z.to_nat len) wbuf
         ++ repeat Byte.x00 (Z.to_nat (len2 - len))
         ++ drop (Z.to_nat len2) rbuf),
     (ino', set_fd (dev_tick (fd sbi')) sbi')).
Proof.
  intros Hwrite Hhole Hlen Hspan2 Hrbuf Hzone Hfault.
  destruct (pwrite_inode_inv _ _ _ _ _ _ _ Hwrite)
    as (target & prior & meta & Hpos & Hidx & _ & Hspan & Hwbuf & Hprior & Htarget
        & Hlook & Hsize & Hnid & Hgeo & Hbefore & _ & Hafter).
  assert (Hidx0 : 0 <= offset / BYTES_PER_BLOCK)
    by (apply Z.div_pos; [assumption | reflexivity]).
  assert (Hzero : prior = zero_block).
  { unfold file_block in Hbefore.
    destruct (Z.ltb_spec (offset / BYTES_PER_BLOCK) 0); [lia|].
    rewrite Hhole, Z.eqb_refl in Hbefore. congruence. }
  subst prior.
  set (off := offset mod BYTES_PER_BLOCK) in *.
  assert (Hoff : 0 <= off) by (apply Z.mod_pos_bound; reflexivity).
  assert (Hblk : dev_blocks (fd sbi') !! numbfs_data_blk sbi' target
                 = Some (overwrite zero_block off wbuf len)).
  { rewrite (same_geometry_data_blk _ _ _ Hgeo). apply Hafter.
    unfold numbfs_data_blk. lia. }
  assert (Hzlen : length zero_block = 512%nat) by reflexivity.
  change BYTES_PER_BLOCK with 512 in Hspan, Hspan2.
  rewrite (pread_inode_ok _ _ _ _ _ target _ Hpos Hidx Hspan2 Hlook Htarget
             ltac:(lia) Hfault Hblk).
  fold off.
  rewrite memcpy_ok; try lia.
  2:{ rewrite length_overwrite by lia. lia. }
  f_equal. f_equal.
  change (Z.to_nat 0) with 0%nat. rewrite take_0. cbn [app].
  rewrite Z.add_0_l, (app_assoc (take (Z.to_nat len) wbuf)). f_equal.
  unfold overwrite.
  rewrite drop_app_length' by (rewrite length_take; lia).
  rewrite take_app_ge by (rewrite length_take; lia).
  rewrite length_take. f_equal.
  unfold zero_block. rewrite !repeat_replicate.
  rewrite drop_replicate, take_replicate. f_equal.
  change (Z.to_nat BYTES_PER_BLOCK) with 512%nat. lia.
Qed.

Lemma pwrite_hole_then_longer_pread_witness :
  numbfs_pread_inode zero_block 3587 100 (snd written)
  = (Ok (take (Z.to_nat 5) pattern
         ++ repeat Byte.x00 (Z.to_nat (100 - 5))
         ++ drop (Z.to_nat 100) zero_block),
     (fst (snd written), set_fd (dev_tick (fd (snd (snd written)))) (snd (snd written)))).
Proof.
  apply (pwrite_hole_then_longer_pread empty_inode (fst (snd written)) small_sbi
           (snd (snd written)) pattern zero_block 3587 5 100).
  - reflexivity.
  - reflexivity.
  - lia.
  - vm_compute. discriminate.
  - vm_compute. discriminate.
  - vm_compute. reflexivity.
  - reflexivity.
Defined.

(** ** Directories on the large image *)


















(** The geometry of the large image is the one that the format computes for
    65544 inodes on 4209152 bytes. *)
Lemma crowded_geometry low free :
  exists sbi',
    numbfs_mkfs_geometry (numbfs_init_config (fd (crowded low free)) 65544 4209152)
    = (Ok tt, sbi')
    /\ same_geometry sbi' (crowded low free).
Proof. eexists. split; [reflexivity|]. repeat split. Qed.

